(** * pyopm500: a shallow embedding of the OPM500 driver

    The driver class [OPM500] of [pyopm500/__init__.py] talks to an optical
    power meter over a serial link.  Every method is embedded as a function
    in a small state-and-exception monad over the object's attributes: an
    exception keeps the assignments made before it.  The Python builtins the
    methods rely on ([str] methods, [float], [int], [round], [dict]) are
    embedded in module [Py].  Text is a byte string holding the UTF-8
    encoding of the Python [str]; digits are the ASCII digits; a [float] is
    a binary64 value, and [float] and [round] convert between decimals and
    binary64 with correct rounding, as the interpreter does. *)

From Stdlib Require Import ZArith String Ascii List Bool Lia.
From Stdlib Require Import Decimal DecimalString DecimalZ.
From Stdlib Require Import PrimFloat FloatOps SpecFloat.
Import ListNotations.

Set Warnings "-inexact-float".

Local Open Scope string_scope.
Local Open Scope Z_scope.

(* ===================================================================== *)
(** * Python builtins *)
(* ===================================================================== *)

Module Py.

(** Exceptions the driver can let escape. *)
Inductive exn : Type :=
| Exception (msg : string)
| TimeoutError
| IndexError
| KeyError
| ValueError
| TypeError
| ZeroDivisionError
| OverflowError
| RecursionError.

Inductive result (A : Type) : Type :=
| Ok (a : A)
| Raise (e : exn).

Arguments Ok {A} a.
Arguments Raise {A} e.

(** ** Characters *)

Definition chr (n : nat) : ascii := ascii_of_nat n.
Definition bytes (l : list nat) : string := string_of_list_ascii (map chr l).

Definition TAB : string := bytes [9%nat].
Definition LF : string := bytes [10%nat].
Definition VT : string := bytes [11%nat].
Definition FF : string := bytes [12%nat].
Definition CR : string := bytes [13%nat].

Definition is_digit (c : ascii) : bool :=
  let n := nat_of_ascii c in (48 <=? n)%nat && (n <=? 57)%nat.

Definition digit_value (c : ascii) : Z := Z.of_nat (nat_of_ascii c) - 48.

(** ASCII lower-casing, the only case folding that concerns the letters the
    driver matches without regard to case. *)
Definition lower (c : ascii) : ascii :=
  let n := nat_of_ascii c in
  if (65 <=? n)%nat && (n <=? 90)%nat then ascii_of_nat (n + 32) else c.

Fixpoint lower_str (s : string) : string :=
  match s with
  | EmptyString => EmptyString
  | String c r => String (lower c) (lower_str r)
  end.

(** ** Slicing *)

Fixpoint drop (n : nat) (s : string) : string :=
  match n, s with
  | O, _ => s
  | S _, EmptyString => EmptyString
  | S k, String _ r => drop k r
  end.

Fixpoint take (n : nat) (s : string) : string :=
  match n, s with
  | O, _ => EmptyString
  | S _, EmptyString => EmptyString
  | S k, String c r => String c (take k r)
  end.

(** A slice bound [i] of Python, clamped into [0 .. len]. *)
Definition clamp (i : Z) (s : string) : nat :=
  let len := Z.of_nat (String.length s) in
  let j := if i <? 0 then Z.max 0 (i + len) else Z.min i len in
  Z.to_nat j.

(** [s[i:]] *)
Definition slice_from (i : Z) (s : string) : string := drop (clamp i s) s.

(** [s[:i]] *)
Definition slice_to (i : Z) (s : string) : string := take (clamp i s) s.

Fixpoint rev_onto (s acc : string) : string :=
  match s with
  | EmptyString => acc
  | String c r => rev_onto r (String c acc)
  end.

Definition rev (s : string) : string := rev_onto s EmptyString.

(** [s[-1]] *)
Definition last_char (s : string) : result string :=
  match rev s with
  | EmptyString => Raise IndexError
  | String c _ => Ok (String c EmptyString)
  end.

(** ** Searching and replacing *)

(** [s.startswith(p)] *)
Definition startswith (p s : string) : bool := String.prefix p s.

(** [s.count(sub)] for a non-empty [sub]: occurrences are counted from the
    left and do not overlap; [skip] is the number of characters of the last
    occurrence still to step over. *)
Fixpoint count_from (sub s : string) (skip : nat) : nat :=
  match s with
  | EmptyString => O
  | String _ r =>
      match skip with
      | S k => count_from sub r k
      | O =>
          if String.prefix sub s
          then S (count_from sub r (String.length sub - 1))
          else count_from sub r O
      end
  end.

Definition count (sub s : string) : Z := Z.of_nat (count_from sub s O).

(** [s.replace(old, new)] for a non-empty [old]. *)
Fixpoint replace_from (old new s : string) (skip : nat) : string :=
  match s with
  | EmptyString => EmptyString
  | String c r =>
      match skip with
      | S k => replace_from old new r k
      | O =>
          if String.prefix old s
          then new ++ replace_from old new r (String.length old - 1)
          else String c (replace_from old new r O)
      end
  end.

Definition replace (old new s : string) : string := replace_from old new s O.

(** [s.find(sub)] for a non-empty [sub]: [-1] when [sub] does not occur. *)
Fixpoint find_from (sub s : string) (pos : Z) : Z :=
  match s with
  | EmptyString => -1
  | String _ r => if String.prefix sub s then pos else find_from sub r (pos + 1)
  end.

Definition find (sub s : string) : Z := find_from sub s 0.

(** ** White space *)

(** The characters [str.isspace] accepts, as UTF-8 byte sequences. *)
Definition whitespace : list string :=
  map bytes
    [ [9]; [10]; [11]; [12]; [13]; [28]; [29]; [30]; [31]; [32];
      [194; 133]; [194; 160]; [225; 154; 128];
      [226; 128; 128]; [226; 128; 129]; [226; 128; 130]; [226; 128; 131];
      [226; 128; 132]; [226; 128; 133]; [226; 128; 134]; [226; 128; 135];
      [226; 128; 136]; [226; 128; 137]; [226; 128; 138];
      [226; 128; 168]; [226; 128; 169]; [226; 128; 175];
      [226; 129; 159]; [227; 128; 128] ]%nat.

Fixpoint lstrip_with (seqs : list string) (fuel : nat) (s : string) : string :=
  match fuel with
  | O => s
  | S fuel' =>
      match List.find (fun w => String.prefix w s) seqs with
      | Some w => lstrip_with seqs fuel' (drop (String.length w) s)
      | None => s
      end
  end.

Definition lstrip (s : string) : string :=
  lstrip_with whitespace (String.length s) s.

Definition rstrip (s : string) : string :=
  rev (lstrip_with (map rev whitespace) (String.length s) (rev s)).

(** [s.strip()] *)
Definition strip (s : string) : string := rstrip (lstrip s).

(** ** Lines *)

(** [s.splitlines()]: the line boundaries are LF, CR, CR LF, VT, FF, FS, GS,
    RS, NEL (U+0085), LS (U+2028) and PS (U+2029); the breaks are dropped
    and a final break opens no further line.  The head of the result for
    the rest of the text is the remainder of the line being read. *)
Definition cons_char (c : ascii) (ls : list string) : list string :=
  match ls with
  | [] => [String c EmptyString]
  | l :: ls' => String c l :: ls'
  end.

Fixpoint splitlines (s : string) : list string :=
  match s with
  | EmptyString => []
  | String c r =>
      match nat_of_ascii c with
      | 13%nat =>
          match r with
          | String c2 r2 =>
              if (nat_of_ascii c2 =? 10)%nat
              then EmptyString :: splitlines r2
              else EmptyString :: splitlines r
          | EmptyString => [EmptyString]
          end
      | 10%nat | 11%nat | 12%nat | 28%nat | 29%nat | 30%nat =>
          EmptyString :: splitlines r
      | _ =>
          match r with
          | String c2 r2 =>
              if ((nat_of_ascii c =? 194) && (nat_of_ascii c2 =? 133))%nat
              then EmptyString :: splitlines r2
              else
                match r2 with
                | String c3 r3 =>
                    if ((nat_of_ascii c =? 226) && (nat_of_ascii c2 =? 128)
                        && ((nat_of_ascii c3 =? 168) || (nat_of_ascii c3 =? 169)))%nat
                    then EmptyString :: splitlines r3
                    else cons_char c (splitlines r)
                | EmptyString => cons_char c (splitlines r)
                end
          | EmptyString => [String c EmptyString]
          end
      end
  end.

(** ** Integers *)

(** [str(n)] *)
Definition str_of_int (n : Z) : string := NilZero.string_of_int (Z.to_int n).

Fixpoint zeros (n : nat) : string :=
  match n with
  | O => EmptyString
  | S k => String "0" (zeros k)
  end.

(** [s.zfill(width)]: zeros are inserted after a leading sign. *)
Definition zfill (width : nat) (s : string) : string :=
  let fill := zeros (width - String.length s) in
  match s with
  | String c r =>
      if (Ascii.eqb c "+" || Ascii.eqb c "-")%bool
      then String c (fill ++ r)
      else fill ++ s
  | EmptyString => fill
  end.

(** The characters of [s], one string each: what [for i in s] yields. *)
Fixpoint chars (s : string) : list string :=
  match s with
  | EmptyString => []
  | String c r => String c EmptyString :: chars r
  end.

(** A run of decimal digits in which single underscores may separate
    digits; [digits_tail] continues a run that has begun.  Both return the
    digits read and the text left. *)
Fixpoint digits_tail (s : string) : string * string :=
  match s with
  | EmptyString => (EmptyString, EmptyString)
  | String c r =>
      if is_digit c then
        let (ds, rest) := digits_tail r in (String c ds, rest)
      else if Ascii.eqb c "_" then
        match r with
        | String d r' =>
            if is_digit d then
              let (ds, rest) := digits_tail r' in (String d ds, rest)
            else (EmptyString, s)
        | EmptyString => (EmptyString, s)
        end
      else (EmptyString, s)
  end.

Definition digitpart (s : string) : string * string :=
  match s with
  | EmptyString => (EmptyString, EmptyString)
  | String c r =>
      if is_digit c then
        let (ds, rest) := digits_tail r in (String c ds, rest)
      else (EmptyString, s)
  end.

Fixpoint digits_value (acc : Z) (ds : string) : Z :=
  match ds with
  | EmptyString => acc
  | String c r => digits_value (10 * acc + digit_value c) r
  end.

(** An optional sign: [true] for a minus. *)
Definition split_sign (s : string) : bool * string :=
  match s with
  | String c r =>
      if Ascii.eqb c "-" then (true, r)
      else if Ascii.eqb c "+" then (false, r)
      else (false, s)
  | EmptyString => (false, s)
  end.

(** [int(s)] in base ten, for ASCII digits. *)
Definition int_of_str (s : string) : result Z :=
  let (neg, body) := split_sign (strip s) in
  let (ds, rest) := digitpart body in
  match ds, rest with
  | String _ _, EmptyString =>
      let v := digits_value 0 ds in Ok (if neg then - v else v)
  | _, _ => Raise ValueError
  end.

(** ** Floats *)

(** The binary64 value nearest to [n / d], ties to even. *)
Definition float_of_ratio (neg : bool) (n d : positive) : float :=
  SF2Prim (SFdiv prec emax (S754_finite neg n 0) (S754_finite false d 0)).

(** The binary64 value nearest to [m * 10 ^ e10], with the sign [neg]. *)
Definition float_of_decimal (neg : bool) (m e10 : Z) : float :=
  match m with
  | Zpos p =>
      if 0 <=? e10
      then float_of_ratio neg (p * Z.to_pos (10 ^ e10)) 1
      else float_of_ratio neg p (Z.to_pos (10 ^ (- e10)))
  | _ => if neg then neg_zero else zero
  end.

(** [float(s)]: surrounding white space is ignored; the text is an optional
    sign followed by [inf], [infinity] or [nan] in any case, or by a decimal
    number with an optional fraction and an optional exponent.  The value is
    the binary64 number nearest to the decimal, an infinity beyond the
    range. *)
Definition float_of_str (s : string) : result float :=
  let (neg, body) := split_sign (strip s) in
  let low := lower_str body in
  if (String.eqb low "inf" || String.eqb low "infinity")%bool then
    Ok (if neg then neg_infinity else infinity)
  else if String.eqb low "nan" then Ok nan
  else
    let (ip, r1) := digitpart body in
    let (fp, r2) :=
      match r1 with
      | String c r => if Ascii.eqb c "." then digitpart r else (EmptyString, r1)
      | EmptyString => (EmptyString, r1)
      end in
    match ip ++ fp with
    | EmptyString => Raise ValueError
    | mant =>
        let value (e : Z) :=
          float_of_decimal neg (digits_value 0 mant)
            (e - Z.of_nat (String.length fp)) in
        match r2 with
        | EmptyString => Ok (value 0)
        | String c r3 =>
            if (Ascii.eqb c "e" || Ascii.eqb c "E")%bool then
              let (eneg, r4) := split_sign r3 in
              let (ep, r5) := digitpart r4 in
              match ep, r5 with
              | String _ _, EmptyString =>
                  let e := digits_value 0 ep in
                  Ok (value (if eneg then - e else e))
              | _, _ => Raise ValueError
              end
            else Raise ValueError
        end
    end.

(** [round(x, ndigits)] for a float and [0 <= ndigits]: the exact value of
    [x] is rounded to [ndigits] decimal places, ties to even, and the decimal
    obtained is converted back to the nearest binary64 value; infinities and
    NaN round to themselves, and so does every float once [ndigits] exceeds
    323. *)
Definition round (x : float) (ndigits : nat) : float :=
  match Prim2SF x with
  | S754_finite s m e =>
      if (323 <? ndigits)%nat then x
      else
        let p10 := 10 ^ Z.of_nat ndigits in
        let num := if 0 <=? e then Zpos m * 2 ^ e * p10 else Zpos m * p10 in
        let den := if 0 <=? e then 1 else 2 ^ (- e) in
        let q := num / den in
        let r := num mod den in
        let n :=
          if 2 * r <? den then q
          else if den <? 2 * r then q + 1
          else if Z.even q then q else q + 1 in
        match n with
        | Zpos p => float_of_ratio s p (Z.to_pos p10)
        | _ => if s then neg_zero else zero
        end
  | _ => x
  end.

(** [a / b] *)
Definition truediv (a b : float) : result float :=
  if PrimFloat.eqb b zero then Raise ZeroDivisionError else Ok (a / b)%float.

(** [a ** 2]: the square, taken as the correctly rounded product, and an
    [OverflowError] when it leaves the finite range. *)
Definition square (a : float) : result float :=
  let p := (a * a)%float in
  if (is_infinity p && negb (is_infinity a))%bool
  then Raise OverflowError else Ok p.

(** [math.log10(x)] raises for [x <= 0] and otherwise returns what the
    platform's logarithm [log10] returns. *)
Definition math_log10 (log10 : float -> float) (x : float) : result float :=
  if PrimFloat.leb x zero then Raise ValueError else Ok (log10 x).

(** [math.pi] *)
Definition math_pi : float := 0x1.921fb54442d18p+1%float.

(** ** Sequences and dictionaries *)

(** [l[i]] for [0 <= i] *)
Definition item {A : Type} (l : list A) (i : nat) : result A :=
  match nth_error l i with
  | Some a => Ok a
  | None => Raise IndexError
  end.

(** [x in l] for a list of strings *)
Definition contains (l : list string) (x : string) : bool :=
  existsb (String.eqb x) l.

(** [lo <= x < hi], the test [x in range(lo, hi)] on integers *)
Definition in_range (x lo hi : Z) : bool := (lo <=? x) && (x <? hi).

(** A [dict] from strings to strings, in insertion order. *)
Definition dict : Type := list (string * string).

Definition keys (d : dict) : list string := map fst d.
Definition values (d : dict) : list string := map snd d.

(** [d[k]] *)
Fixpoint getitem (d : dict) (k : string) : result string :=
  match d with
  | [] => Raise KeyError
  | (k', v) :: d' => if String.eqb k k' then Ok v else getitem d' k
  end.

(** [d[k] = v] *)
Fixpoint setitem (d : dict) (k v : string) : dict :=
  match d with
  | [] => [(k, v)]
  | (k', v') :: d' =>
      if String.eqb k k' then (k, v) :: d' else (k', v') :: setitem d' k v
  end.

(** [dict(zip(ks, vs))] *)
Definition dict_zip (ks vs : list string) : dict :=
  fold_left (fun d kv => setitem d (fst kv) (snd kv)) (combine ks vs) [].

End Py.

(* ===================================================================== *)
(** * The driver *)
(* ===================================================================== *)

Import Py.

(** ** Enumerations *)

Inductive BANDWITH : Type := KHZ_10 | KHZ_1 | HZ_100 | HZ_10.

Definition BANDWITH_value (b : BANDWITH) : string :=
  match b with
  | KHZ_10 => "10 kHz"
  | KHZ_1 => "1 kHz"
  | HZ_100 => "100 Hz"
  | HZ_10 => "10 Hz"
  end.

Inductive INITIAL_AUTO_ZERO : Type := NONE | AUTO_ZERO | AUTO_ZERO_RESET.

Definition INITIAL_AUTO_ZERO_value (a : INITIAL_AUTO_ZERO) : string :=
  match a with
  | NONE => "None"
  | AUTO_ZERO => "Auto zero"
  | AUTO_ZERO_RESET => "Auto zero reset"
  end.

Inductive GAIN : Type := X1 | X10 | X100 | X1000 | X10000 | X100000 | AUTO.

Definition GAIN_value (g : GAIN) : string :=
  match g with
  | X1 => "x1"
  | X10 => "x10"
  | X100 => "x100"
  | X1000 => "x1000"
  | X10000 => "x10000"
  | X100000 => "x1000000"
  | AUTO => "auto-gain"
  end.

Inductive UNITS : Type :=
| NANOAMPERE | MICROAMPERE | MILLIAMPERE | AMPERE
| NANOWATTS | MICROWATTS | MILLIWATTS | WATTS
| NANOWATTS_PER_SQUARE_CENTIMETER | MICROWATTS_PER_SQUARE_CENTIMETER
| MILLIWATTS_PER_SQUARE_CENTIMETER | WATTS_PER_SQUARE_CENTIMETER
| DECIBEL_MILLIWATTS.

Definition UNITS_value (u : UNITS) : string :=
  match u with
  | NANOAMPERE => "nA"
  | MICROAMPERE => "µA"
  | MILLIAMPERE => "mA"
  | AMPERE => "A"
  | NANOWATTS => "nW"
  | MICROWATTS => "µw"
  | MILLIWATTS => "mW"
  | WATTS => "W"
  | NANOWATTS_PER_SQUARE_CENTIMETER => "nW/cm²"
  | MICROWATTS_PER_SQUARE_CENTIMETER => "µW/cm²"
  | MILLIWATTS_PER_SQUARE_CENTIMETER => "mW/cm²"
  | WATTS_PER_SQUARE_CENTIMETER => "W/cm²"
  | DECIBEL_MILLIWATTS => "dBm"
  end.

(** A parameter annotated [str | E]: the caller passes a string or a member
    of the enumeration [E]. *)
Inductive str_or (E : Type) : Type :=
| Str (s : string)
| Member (e : E).

Arguments Str {E} s.
Arguments Member {E} e.

(** The first lines of the two setters that take such a parameter: a member
    is replaced by its value, [bandwith = str(bandwith.value)]. *)
Definition bandwith_name (bandwith : str_or BANDWITH) : string :=
  match bandwith with
  | Member b => BANDWITH_value b
  | Str s => s
  end.

Definition gain_name (gain : str_or GAIN) : string :=
  match gain with
  | Member g => GAIN_value g
  | Str s => s
  end.

(** ** The object *)

(** The opened serial handle.  [tx] is the list of messages written to the
    instrument, oldest first.  [rx] is the list of messages the instrument
    is going to deliver, one for each read-out: the decoded bytes that
    arrive up to the carriage return that ends a message.  An empty [rx] is
    an instrument that stays silent. *)
Record ftd2xx : Type := mkftd2xx {
  tx : list string;
  rx : list string
}.

(** The attributes of an [OPM500] object that the embedded methods read or
    write.  [_device] is [None] while no port is open; [_autogain_gain] and
    the two detector bounds are [None] until they are first assigned. *)
Record OPM500 : Type := mkOPM500 {
  _unit : string;
  _device : option ftd2xx;
  _sensitivity : float;
  _wavelength : Z;
  _initial_auto_zero : string;
  _invert_input_polarity : bool;
  _bandwith : string;
  _autogain_gain : option Z;
  _gain : string;
  _max_gain : Z;
  _filter : float;
  _aperture : float;
  _opm_detector_min_wavelength : option Z;
  _opm_detector_max_wavelength : option Z
}.

(** The two tables of [__init__]; no method assigns to them. *)
Definition _bandwith_steps : dict :=
  [ ("10 kHz", "B1"); ("1 kHz", "B2"); ("100 Hz", "B3"); ("10 Hz", "B4") ].

Definition _gain_steps : dict :=
  [ ("x1", "V1"); ("x10", "V2"); ("x100", "V3"); ("x1000", "V4");
    ("x10000", "V5"); ("x100000", "V6"); ("auto-gain", "auto-gain") ].

(** [len(self._gain_steps)] *)
Definition len_gain_steps : Z := Z.of_nat (List.length _gain_steps).

(** The object [__init__] builds. *)
Definition __init__ : OPM500 :=
  {| _unit := UNITS_value MICROAMPERE;
     _device := None;
     _sensitivity := 1.0;
     _wavelength := 660;
     _initial_auto_zero := INITIAL_AUTO_ZERO_value NONE;
     _invert_input_polarity := false;
     _bandwith := BANDWITH_value KHZ_10;
     _autogain_gain := None;
     _gain := GAIN_value X1;
     _max_gain := len_gain_steps - 1;
     _filter := 1.0;
     _aperture := 7.0;
     _opm_detector_min_wavelength := None;
     _opm_detector_max_wavelength := None |}.

(** Assignments to single attributes. *)
Definition put_unit (v : string) (self : OPM500) : OPM500 :=
  {| _unit := v;
     _device := _device self;
     _sensitivity := _sensitivity self;
     _wavelength := _wavelength self;
     _initial_auto_zero := _initial_auto_zero self;
     _invert_input_polarity := _invert_input_polarity self;
     _bandwith := _bandwith self;
     _autogain_gain := _autogain_gain self;
     _gain := _gain self;
     _max_gain := _max_gain self;
     _filter := _filter self;
     _aperture := _aperture self;
     _opm_detector_min_wavelength := _opm_detector_min_wavelength self;
     _opm_detector_max_wavelength := _opm_detector_max_wavelength self |}.

Definition put_device (v : option ftd2xx) (self : OPM500) : OPM500 :=
  {| _unit := _unit self;
     _device := v;
     _sensitivity := _sensitivity self;
     _wavelength := _wavelength self;
     _initial_auto_zero := _initial_auto_zero self;
     _invert_input_polarity := _invert_input_polarity self;
     _bandwith := _bandwith self;
     _autogain_gain := _autogain_gain self;
     _gain := _gain self;
     _max_gain := _max_gain self;
     _filter := _filter self;
     _aperture := _aperture self;
     _opm_detector_min_wavelength := _opm_detector_min_wavelength self;
     _opm_detector_max_wavelength := _opm_detector_max_wavelength self |}.

Definition put_sensitivity (v : float) (self : OPM500) : OPM500 :=
  {| _unit := _unit self;
     _device := _device self;
     _sensitivity := v;
     _wavelength := _wavelength self;
     _initial_auto_zero := _initial_auto_zero self;
     _invert_input_polarity := _invert_input_polarity self;
     _bandwith := _bandwith self;
     _autogain_gain := _autogain_gain self;
     _gain := _gain self;
     _max_gain := _max_gain self;
     _filter := _filter self;
     _aperture := _aperture self;
     _opm_detector_min_wavelength := _opm_detector_min_wavelength self;
     _opm_detector_max_wavelength := _opm_detector_max_wavelength self |}.

Definition put_wavelength (v : Z) (self : OPM500) : OPM500 :=
  {| _unit := _unit self;
     _device := _device self;
     _sensitivity := _sensitivity self;
     _wavelength := v;
     _initial_auto_zero := _initial_auto_zero self;
     _invert_input_polarity := _invert_input_polarity self;
     _bandwith := _bandwith self;
     _autogain_gain := _autogain_gain self;
     _gain := _gain self;
     _max_gain := _max_gain self;
     _filter := _filter self;
     _aperture := _aperture self;
     _opm_detector_min_wavelength := _opm_detector_min_wavelength self;
     _opm_detector_max_wavelength := _opm_detector_max_wavelength self |}.

Definition put_initial_auto_zero (v : string) (self : OPM500) : OPM500 :=
  {| _unit := _unit self;
     _device := _device self;
     _sensitivity := _sensitivity self;
     _wavelength := _wavelength self;
     _initial_auto_zero := v;
     _invert_input_polarity := _invert_input_polarity self;
     _bandwith := _bandwith self;
     _autogain_gain := _autogain_gain self;
     _gain := _gain self;
     _max_gain := _max_gain self;
     _filter := _filter self;
     _aperture := _aperture self;
     _opm_detector_min_wavelength := _opm_detector_min_wavelength self;
     _opm_detector_max_wavelength := _opm_detector_max_wavelength self |}.

Definition put_invert_input_polarity (v : bool) (self : OPM500) : OPM500 :=
  {| _unit := _unit self;
     _device := _device self;
     _sensitivity := _sensitivity self;
     _wavelength := _wavelength self;
     _initial_auto_zero := _initial_auto_zero self;
     _invert_input_polarity := v;
     _bandwith := _bandwith self;
     _autogain_gain := _autogain_gain self;
     _gain := _gain self;
     _max_gain := _max_gain self;
     _filter := _filter self;
     _aperture := _aperture self;
     _opm_detector_min_wavelength := _opm_detector_min_wavelength self;
     _opm_detector_max_wavelength := _opm_detector_max_wavelength self |}.

Definition put_bandwith (v : string) (self : OPM500) : OPM500 :=
  {| _unit := _unit self;
     _device := _device self;
     _sensitivity := _sensitivity self;
     _wavelength := _wavelength self;
     _initial_auto_zero := _initial_auto_zero self;
     _invert_input_polarity := _invert_input_polarity self;
     _bandwith := v;
     _autogain_gain := _autogain_gain self;
     _gain := _gain self;
     _max_gain := _max_gain self;
     _filter := _filter self;
     _aperture := _aperture self;
     _opm_detector_min_wavelength := _opm_detector_min_wavelength self;
     _opm_detector_max_wavelength := _opm_detector_max_wavelength self |}.

Definition put_autogain_gain (v : option Z) (self : OPM500) : OPM500 :=
  {| _unit := _unit self;
     _device := _device self;
     _sensitivity := _sensitivity self;
     _wavelength := _wavelength self;
     _initial_auto_zero := _initial_auto_zero self;
     _invert_input_polarity := _invert_input_polarity self;
     _bandwith := _bandwith self;
     _autogain_gain := v;
     _gain := _gain self;
     _max_gain := _max_gain self;
     _filter := _filter self;
     _aperture := _aperture self;
     _opm_detector_min_wavelength := _opm_detector_min_wavelength self;
     _opm_detector_max_wavelength := _opm_detector_max_wavelength self |}.

Definition put_gain (v : string) (self : OPM500) : OPM500 :=
  {| _unit := _unit self;
     _device := _device self;
     _sensitivity := _sensitivity self;
     _wavelength := _wavelength self;
     _initial_auto_zero := _initial_auto_zero self;
     _invert_input_polarity := _invert_input_polarity self;
     _bandwith := _bandwith self;
     _autogain_gain := _autogain_gain self;
     _gain := v;
     _max_gain := _max_gain self;
     _filter := _filter self;
     _aperture := _aperture self;
     _opm_detector_min_wavelength := _opm_detector_min_wavelength self;
     _opm_detector_max_wavelength := _opm_detector_max_wavelength self |}.

Definition put_max_gain (v : Z) (self : OPM500) : OPM500 :=
  {| _unit := _unit self;
     _device := _device self;
     _sensitivity := _sensitivity self;
     _wavelength := _wavelength self;
     _initial_auto_zero := _initial_auto_zero self;
     _invert_input_polarity := _invert_input_polarity self;
     _bandwith := _bandwith self;
     _autogain_gain := _autogain_gain self;
     _gain := _gain self;
     _max_gain := v;
     _filter := _filter self;
     _aperture := _aperture self;
     _opm_detector_min_wavelength := _opm_detector_min_wavelength self;
     _opm_detector_max_wavelength := _opm_detector_max_wavelength self |}.


(** ** Methods run in a state and exception monad

    A method maps the object to its outcome and the object it leaves behind;
    an exception keeps the assignments made before it was raised. *)

Definition M (A : Type) : Type := OPM500 -> result A * OPM500.

Definition ret {A : Type} (a : A) : M A := fun self => (Ok a, self).

Definition bind {A B : Type} (m : M A) (f : A -> M B) : M B :=
  fun self =>
    match m self with
    | (Ok a, self') => f a self'
    | (Raise e, self') => (Raise e, self')
    end.

Definition raise {A : Type} (e : exn) : M A := fun self => (Raise e, self).

(** The outcome of an expression that does not touch the object. *)
Definition eval {A : Type} (r : result A) : M A := fun self => (r, self).

Definition get_self : M OPM500 := fun self => (Ok self, self).

Definition assign (f : OPM500 -> OPM500) : M unit :=
  fun self => (Ok tt, f self).

Declare Scope opm_scope.
Delimit Scope opm_scope with opm.

Notation "x <- m ;; k" := (bind m (fun x => k))
  (at level 100, m at next level, right associativity) : opm_scope.
Notation "m ;; k" := (bind m (fun _ => k))
  (at level 100, right associativity) : opm_scope.

Local Open Scope opm_scope.

(** [for x in l: body(x)] *)
Fixpoint for_each {A : Type} (l : list A) (body : A -> M unit) : M unit :=
  match l with
  | [] => ret tt
  | x :: l' => body x ;; for_each l' body
  end.

(** [sleep(seconds)]: the pause changes nothing in the object. *)
Definition sleep (seconds : float) : M unit := ret tt.

(** ** The command channel *)

(** [_opm_send]: the message is appended to what the handle has written.
    Purging the input buffer discards nothing that [rx] holds: the
    instrument answers only after the request is complete. *)
Definition _opm_send (msg : string) : M unit :=
  fun self =>
    match _device self with
    | None => (Raise (Exception "Send error: port not open."), self)
    | Some d =>
        (Ok tt, put_device (Some {| tx := tx d ++ [msg]; rx := rx d |}) self)
    end.

(** [msg.decode(errors="ignore").replace("\r", '').strip()], on the decoded
    text of a message. *)
Definition received (msg : string) : string := strip (replace CR "" msg).

(** [_opm_recv]: the next message of the instrument, without its carriage
    returns and surrounding white space; a silent instrument exhausts the
    retries of the polling loop, which is the [TimeoutError].  (How long the
    polling takes, and a message that begins and never ends, are outside
    this model.) *)
Definition _opm_recv : M string :=
  fun self =>
    match _device self with
    | None => (Raise (Exception "recive error: port not open."), self)
    | Some d =>
        match rx d with
        | [] => (Raise TimeoutError, self)
        | msg :: rest =>
            (Ok (received msg),
             put_device (Some {| tx := tx d; rx := rest |}) self)
        end
    end.

(** ** Identity *)

Definition opm_get_info : M string :=
  _opm_send "$I" ;;
  _opm_recv.

(** The value of
    [re.sub(r"^(opm500)(?:\n|.*$)*", "\\1", info, count=0,
            flags=re.MULTILINE | re.IGNORECASE)].
    The pattern matches at the first start of a line where the six letters
    stand in any case; its tail [(?:\n|.*$)*] then runs over every further
    line to the end of the text, so there is one match at most, and the
    substitution keeps the text before it followed by the six characters as
    they were written.  [bol] tells that the scan is at the start of a
    line. *)
Fixpoint marker_sub_from (bol : bool) (info : string) : string :=
  match info with
  | EmptyString => EmptyString
  | String c r =>
      if bol && String.prefix "opm500" (lower_str info)
      then take 6 info
      else String c (marker_sub_from (String.eqb (String c EmptyString) LF) r)
  end.

Definition marker_sub (info : string) : string := marker_sub_from true info.

(** The first test of [_initialize]: it returns [False] when this fails. *)
Definition marker_check (info : string) : bool :=
  String.eqb (marker_sub info) "OPM500".

(** [set_unit] *)
Definition set_unit (unit : UNITS) : M bool :=
  assign (put_unit (UNITS_value unit)) ;;
  ret true.

(** ** Polarity *)

Definition opm_set_polarity (invert_polarity : bool) : M bool :=
  let polarity_command := if Bool.eqb invert_polarity false then "N" else "C" in
  _opm_send ("$" ++ polarity_command) ;;
  recv <- _opm_recv ;;
  if String.eqb recv (polarity_command ++ " OK") then
    assign (put_invert_input_polarity invert_polarity) ;;
    ret true
  else ret false.

(** ** Wavelength *)

Definition opm_get_wavelength : M Z :=
  self <- get_self ;;
  ret (_wavelength self).

Definition opm_set_wavelength (wavelength : Z) : M bool :=
  self <- get_self ;;
  match _opm_detector_min_wavelength self,
        _opm_detector_max_wavelength self with
  | Some lo, Some hi =>
      if negb (in_range wavelength lo (hi + 1)) then ret false
      else
        let tmp_wavelength := wavelength in
        let wavelength := zfill 4 (str_of_int wavelength) in
        _opm_send "L" ;;
        for_each (chars wavelength) _opm_send ;;
        recv <- _opm_recv ;;
        if 0 <? count "KF:" recv then
          assign (put_wavelength tmp_wavelength) ;;
          kf <- eval (float_of_str
                        (strip (replace "," "." (replace "KF:" "" recv)))) ;;
          assign (put_sensitivity kf) ;;
          ret true
        else ret false
  | _, _ => raise TypeError
  end.

(** ** Bandwidth *)

Definition opm_set_bandwith (bandwith : str_or BANDWITH) : M bool :=
  let bandwith := bandwith_name bandwith in
  if negb (contains (keys _bandwith_steps) bandwith) then
    raise (Exception "Invalid bandwith. choose one from the pre-defined bandwiths.")
  else
    code <- eval (getitem _bandwith_steps bandwith) ;;
    _opm_send code ;;
    recv <- _opm_recv ;;
    code <- eval (getitem _bandwith_steps bandwith) ;;
    if String.eqb recv (code ++ " OK") then
      assign (put_bandwith bandwith) ;;
      ret true
    else ret false.

(** ** Gain *)

(** [dict(zip(self._gain_steps.values(), self._gain_steps.keys()))] *)
Definition gain_of_code : dict :=
  dict_zip (values _gain_steps) (keys _gain_steps).

Definition opm_get_gain : M (option string) :=
  _opm_send "V?" ;;
  received <- _opm_recv ;;
  let gain := splitlines received in
  first <- eval (item gain 0) ;;
  if String.eqb first "V? OK" then
    second <- eval (item gain 1) ;;
    if contains (values _gain_steps) second then
      self <- get_self ;;
      (if negb (String.eqb (_gain self) "auto-gain") then
         name <- eval (getitem gain_of_code second) ;;
         assign (put_gain name)
       else ret tt) ;;
      name <- eval (getitem gain_of_code second) ;;
      code <- eval (getitem _gain_steps name) ;;
      level <- eval (int_of_str (slice_from 1 code)) ;;
      assign (put_autogain_gain (Some level)) ;;
      name <- eval (getitem gain_of_code second) ;;
      ret (Some name)
    else ret None
  else ret None.

Definition opm_set_gain (gain : str_or GAIN) : M bool :=
  let gain := gain_name gain in
  if negb (contains (keys _gain_steps) gain) then
    raise (Exception "Invalid gain. choose one from the pre-defined gains.")
  else if String.eqb gain "auto-gain" then
    assign (put_gain gain) ;;
    ret true
  else
    code <- eval (getitem _gain_steps gain) ;;
    _opm_send code ;;
    recv <- _opm_recv ;;
    code <- eval (getitem _gain_steps gain) ;;
    if String.eqb recv (code ++ " OK") then
      self <- get_self ;;
      (if negb (String.eqb (_gain self) "auto-gain") then
         assign (put_gain gain)
       else ret tt) ;;
      code <- eval (getitem _gain_steps gain) ;;
      level <- eval (int_of_str (slice_from 1 code)) ;;
      assign (put_autogain_gain (Some level)) ;;
      ret true
    else ret false.

(** ** Auto zero *)

Definition opm_set_auto_zero : M bool :=
  _opm_send "$A" ;;
  recv <- _opm_recv ;;
  if 0 <? count "Gain: " recv then
    assign (put_initial_auto_zero (INITIAL_AUTO_ZERO_value AUTO_ZERO)) ;;
    c <- eval (last_char recv) ;;
    n <- eval (int_of_str c) ;;
    assign (put_max_gain n) ;;
    sleep 0.2 ;;
    ret true
  else if 0 <? count "A OK" recv then
    assign (put_initial_auto_zero (INITIAL_AUTO_ZERO_value AUTO_ZERO)) ;;
    assign (put_max_gain (len_gain_steps - 1)) ;;
    sleep 0.5 ;;
    ret true
  else ret false.

Definition opm_set_auto_zero_reset : M bool :=
  _opm_send "$R" ;;
  recv <- _opm_recv ;;
  if String.eqb recv "R OK" then
    assign (put_initial_auto_zero (INITIAL_AUTO_ZERO_value AUTO_ZERO)) ;;
    assign (put_max_gain (len_gain_steps - 1)) ;;
    sleep 0.05 ;;
    ret true
  else ret false.

(** ** Measurement *)

Definition opm_get_single_raw_measure : M string :=
  _opm_send "$E" ;;
  recv <- _opm_recv ;;
  ret (strip (slice_from 1 recv)).

(** [a > b] and [a < b] where [a] is an attribute that may still be [None]:
    comparing [None] with an integer is a [TypeError]. *)
Definition int_gt (a : option Z) (b : Z) : result bool :=
  match a with
  | Some n => Ok (b <? n)
  | None => Raise TypeError
  end.

Definition int_lt (a : option Z) (b : Z) : result bool :=
  match a with
  | Some n => Ok (n <? b)
  | None => Raise TypeError
  end.

(** [a - 1] and [a + 1] for such an attribute. *)
Definition int_add (a : option Z) (b : Z) : result Z :=
  match a with
  | Some n => Ok (n + b)
  | None => Raise TypeError
  end.

(** The full-scale percentage [level] of [_opm_autogain]: it stays [0.0]
    when the tracked gain is none of 1 .. 6. *)
Definition full_scale_level (gain : option Z) (amplitude : float) : float :=
  match gain with
  | Some 1 => amplitude / 122.85
  | Some 2 => amplitude / 12.285
  | Some 3 => amplitude / 1.2285
  | Some 4 => amplitude / 122.85
  | Some 5 => amplitude / 12.285
  | Some 6 => amplitude / 1.2285
  | _ => 0.0
  end%float.

(** [self.opm_set_gain(dict(zip(...))["V{}".format(self._autogain_gain)])] *)
Definition apply_tracked_gain : M bool :=
  self <- get_self ;;
  let level :=
    match _autogain_gain self with
    | Some n => str_of_int n
    | None => "None"
    end in
  name <- eval (getitem gain_of_code ("V" ++ level)) ;;
  opm_set_gain (Str name).

(** The body of [_opm_autogain]; [self_call] stands for the two calls the
    method makes to itself. *)
Definition autogain_body (self_call : string -> Z -> Z -> M string)
    (tmp_amplitude : string) (recursion last_operation : Z) : M string :=
  if len_gain_steps <=? recursion then ret tmp_amplitude
  else
    self <- get_self ;;
    match _autogain_gain self with
    | None => _ <- opm_get_gain ;; ret tt
    | Some _ => ret tt
    end ;;
    amplitude <- eval (float_of_str
                         (replace "," "." (slice_to (-2) tmp_amplitude))) ;;
    self <- get_self ;;
    let level := full_scale_level (_autogain_gain self) amplitude in
    too_high <- eval (if (90.0 <? level)%float
                      then int_gt (_autogain_gain self) 1
                      else Ok false) ;;
    if too_high : bool then
      lower <- eval (int_add (_autogain_gain self) (-1)) ;;
      assign (put_autogain_gain (Some lower)) ;;
      _ <- apply_tracked_gain ;;
      measure <- opm_get_single_raw_measure ;;
      self_call measure (recursion + 1) 1
    else
      too_low <- eval (if (level <? 8.0)%float
                       then int_lt (_autogain_gain self) (_max_gain self)
                       else Ok false) ;;
      if too_low : bool then
        let recursion :=
          if last_operation =? 1 then len_gain_steps else recursion in
        higher <- eval (int_add (_autogain_gain self) 1) ;;
        assign (put_autogain_gain (Some higher)) ;;
        _ <- apply_tracked_gain ;;
        measure <- opm_get_single_raw_measure ;;
        self_call measure (recursion + 1) 2
      else ret tmp_amplitude.

(** [_opm_autogain].  [fuel] bounds the depth of the nested calls, as the
    interpreter does: running out of it is a [RecursionError]. *)
Fixpoint _opm_autogain_fuel (fuel : nat) : string -> Z -> Z -> M string :=
  match fuel with
  | O => fun _ _ _ => raise RecursionError
  | S fuel' => autogain_body (_opm_autogain_fuel fuel')
  end.

(** The interpreter's default limit on nested calls. *)
Definition recursion_limit : nat := 1000.

Definition _opm_autogain (tmp_amplitude : string)
    (recursion last_operation : Z) : M string :=
  _opm_autogain_fuel recursion_limit tmp_amplitude recursion last_operation.

(** The lines of [opm_get_measurement] that turn the raw reading into a
    magnitude in nanoampere: the unit is read off the end of the reading,
    the rest is parsed, and a reading in microampere is scaled. *)
Definition reading_base (amplitude : string) : result float :=
  let unit := slice_from (find "A" amplitude - 1) amplitude in
  match float_of_str (replace "," "." (slice_to (-2) amplitude)) with
  | Ok amplitude =>
      Ok (if String.eqb unit "uA" then (amplitude * 1000)%float else amplitude)
  | Raise e => Raise e
  end.

Section Measurement.

(** The logarithm of the C library behind [math.log10]. *)
Variable log10 : float -> float.

(** The rest of [opm_get_measurement], from the choice of the sensitivity
    to the [return]; [amplitude] is the magnitude in nanoampere. *)
Definition convert_base (amplitude : float) : M (float * string) :=
  self <- get_self ;;
  let sensitivity :=
    if negb (contains ["nA"; "µA"; "mA"; "A"] (_unit self))
    then _sensitivity self else 1.0%float in
  amplitude <- eval (truediv amplitude (sensitivity * _filter self)%float) ;;
  amplitude <-
    (if startswith "n" (_unit self) then
       ret (round amplitude 3)
     else if startswith "µ" (_unit self) then
       ret (round (amplitude / 1000)%float 6)
     else if startswith "m" (_unit self) then
       ret (round (amplitude / 1000000)%float 9)
     else if String.eqb (_unit self) "dBm" then
       l <- eval (math_log10 log10 (amplitude / 1000000)%float) ;;
       ret (round (10 * l)%float 5)
     else
       ret (round (amplitude / 1000000000)%float 12)) ;;
  amplitude <-
    (if contains ["nW/cm²"; "µW/cm²"; "mW/cm²"; "W/cm²"] (_unit self) then
       sq <- eval (square (_aperture self)) ;;
       eval (truediv amplitude ((sq / 400) * math_pi)%float)
     else ret amplitude) ;;
  ret (amplitude, _unit self).

Definition opm_get_measurement : M (float * string) :=
  amplitude <- opm_get_single_raw_measure ;;
  self <- get_self ;;
  amplitude <-
    (if String.eqb (_gain self) "auto-gain"
     then _opm_autogain amplitude 0 0
     else ret amplitude) ;;
  amplitude <- eval (reading_base amplitude) ;;
  convert_base amplitude.

End Measurement.

(** ** What a run of a method shows *)

(** The messages written through the handle so far. *)
Definition tx_of (self : OPM500) : list string :=
  match _device self with
  | Some d => tx d
  | None => []
  end.

(** The number of messages of [l] that [select] picks. *)
Definition tally (select : string -> bool) (l : list string) : nat :=
  List.length (filter select l).

(** The raw-measurement request, and the six commands that set a gain. *)
Definition is_requery (msg : string) : bool := String.eqb "$E" msg.

Definition is_gain_command (msg : string) : bool :=
  contains ["V1"; "V2"; "V3"; "V4"; "V5"; "V6"] msg.

Definition requeries (l : list string) : nat := tally is_requery l.

Definition gain_commands (l : list string) : nat := tally is_gain_command l.

(** The run of [m] from any object raises no [RecursionError], only adds to
    the messages written, and adds at most [n] messages that [select]
    picks. *)
Definition bounded {A : Type} (select : string -> bool) (m : M A) (n : nat)
    : Prop :=
  forall self : OPM500,
    fst (m self) <> Raise RecursionError /\
    exists l : list string,
      tx_of (snd (m self)) = (tx_of self ++ l)%list /\
      (tally select l <= n)%nat.

(** Some line of [info], in the sense of the [^] of a multi-line pattern,
    begins with the letters [opm500] in any case. *)
Fixpoint marker_begins_line_from (bol : bool) (info : string) : bool :=
  match info with
  | EmptyString => false
  | String c r =>
      (bol && String.prefix "opm500" (lower_str info))
      || marker_begins_line_from (String.eqb (String c EmptyString) LF) r
  end.

Definition marker_begins_line (info : string) : bool :=
  marker_begins_line_from true info.

(** An object whose port is open, configured as [connect] leaves it for a
    detector of the range [lo .. hi] and a correction factor of 1.0; nothing
    is written yet, and the instrument is going to deliver [msgs]. *)
Definition connected (lo hi : Z) (msgs : list string) : OPM500 :=
  {| _unit := UNITS_value MICROAMPERE;
     _device := Some {| tx := []; rx := msgs |};
     _sensitivity := 1.0;
     _wavelength := 660;
     _initial_auto_zero := INITIAL_AUTO_ZERO_value AUTO_ZERO;
     _invert_input_polarity := false;
     _bandwith := BANDWITH_value KHZ_10;
     _autogain_gain := Some 1;
     _gain := GAIN_value X1;
     _max_gain := len_gain_steps - 1;
     _filter := 1.0;
     _aperture := 7.0;
     _opm_detector_min_wavelength := Some lo;
     _opm_detector_max_wavelength := Some hi |}.

(** The configuration an object holds in memory: what the setters may
    change. *)
Record configuration : Type := mkconfiguration {
  polarityInverted : bool;
  bandwidth : string;
  gainMode : string;
  gainLevel : option Z;
  wavelengthNm : Z;
  correctionFactor : float;
  autoZeroState : string;
  maxGainLevel : Z
}.

Definition configuration_of (self : OPM500) : configuration :=
  {| polarityInverted := _invert_input_polarity self;
     bandwidth := _bandwith self;
     gainMode := _gain self;
     gainLevel := _autogain_gain self;
     wavelengthNm := _wavelength self;
     correctionFactor := _sensitivity self;
     autoZeroState := _initial_auto_zero self;
     maxGainLevel := _max_gain self |}.

(** A setter reports failure and leaves the configuration as it was. *)
Definition rejects (m : M bool) (self : OPM500) : Prop :=
  fst (m self) = Ok false /\
  configuration_of (snd (m self)) = configuration_of self.

(** What [opm_get_gain] does once the second line names an entry of the
    gain table. *)
Definition record_gain (second : string) : M (option string) :=
  self <- get_self ;;
  (if negb (String.eqb (_gain self) "auto-gain") then
     name <- eval (getitem gain_of_code second) ;;
     assign (put_gain name)
   else ret tt) ;;
  name <- eval (getitem gain_of_code second) ;;
  code <- eval (getitem _gain_steps name) ;;
  level <- eval (int_of_str (slice_from 1 code)) ;;
  assign (put_autogain_gain (Some level)) ;;
  name <- eval (getitem gain_of_code second) ;;
  ret (Some name).

(** Every character of [s] is a decimal digit. *)
Fixpoint all_digits (s : string) : bool :=
  match s with
  | EmptyString => true
  | String c r => is_digit c && all_digits r
  end.

(** A non-empty run of decimal digits. *)
Definition digits (s : string) : Prop :=
  all_digits s = true /\ s <> EmptyString.

(** The character [x] does not occur in [s]. *)
Fixpoint absent (x : ascii) (s : string) : bool :=
  match s with
  | EmptyString => true
  | String c r => negb (Ascii.eqb x c) && absent x r
  end.

(* ===================================================================== *)
(** * Further attributes and methods *)
(* ===================================================================== *)

(** The table of the long unit names of [__init__]; no method assigns to
    it. *)
Definition _units : dict :=
  [ ("nA", "Nanoampere (nA)");
    ("µA", "Microampere (µA)");
    ("mA", "Milliampere (mA)");
    ("A", "Ampere (A)");
    ("nW", "Nanowatts (nW)");
    ("µW", "Microwatts (µW)");
    ("mW", "Milliwatts (mW)");
    ("W", "Watts (W)");
    ("nW/cm²", "Nanowatts per square centimeter (nW/cm²)");
    ("µW/cm²", "Microwatts per square centimeter (µW/cm²)");
    ("mW/cm²", "Milliwatts per square centimeter (mW/cm²)");
    ("W/cm²", "Watts per square centimeter (W/cm²)");
    ("dBm", "Decibel-milliwatts (dBm)") ].

Definition put_filter (v : float) (self : OPM500) : OPM500 :=
  {| _unit := _unit self;
     _device := _device self;
     _sensitivity := _sensitivity self;
     _wavelength := _wavelength self;
     _initial_auto_zero := _initial_auto_zero self;
     _invert_input_polarity := _invert_input_polarity self;
     _bandwith := _bandwith self;
     _autogain_gain := _autogain_gain self;
     _gain := _gain self;
     _max_gain := _max_gain self;
     _filter := v;
     _aperture := _aperture self;
     _opm_detector_min_wavelength := _opm_detector_min_wavelength self;
     _opm_detector_max_wavelength := _opm_detector_max_wavelength self |}.

Definition put_aperture (v : float) (self : OPM500) : OPM500 :=
  {| _unit := _unit self;
     _device := _device self;
     _sensitivity := _sensitivity self;
     _wavelength := _wavelength self;
     _initial_auto_zero := _initial_auto_zero self;
     _invert_input_polarity := _invert_input_polarity self;
     _bandwith := _bandwith self;
     _autogain_gain := _autogain_gain self;
     _gain := _gain self;
     _max_gain := _max_gain self;
     _filter := _filter self;
     _aperture := v;
     _opm_detector_min_wavelength := _opm_detector_min_wavelength self;
     _opm_detector_max_wavelength := _opm_detector_max_wavelength self |}.

(** The properties of the class.  A getter is the method under the
    property's name; [set_filter] and [set_aperture_in_mm] are the methods
    behind [@filter.setter] and [@aperture_in_mm.setter], called with a
    float, which [float(value)] returns as it is. *)
Module Property.

Definition filter : M float :=
  self <- get_self ;;
  ret (_filter self).

Definition set_filter (value : float) : M Datatypes.unit :=
  assign (put_filter value).

Definition aperture_in_mm : M float :=
  self <- get_self ;;
  ret (_aperture self).

Definition set_aperture_in_mm (value : float) : M Datatypes.unit :=
  assign (put_aperture value).

Definition initial_auto_zero : M string :=
  self <- get_self ;;
  ret (_initial_auto_zero self).

Definition invert_input_polarity : M bool :=
  self <- get_self ;;
  ret (_invert_input_polarity self).

Definition opm_detector_min_wavelength : M (option Z) :=
  self <- get_self ;;
  ret (_opm_detector_min_wavelength self).

Definition opm_detector_max_wavelength : M (option Z) :=
  self <- get_self ;;
  ret (_opm_detector_max_wavelength self).

(** [self._units[self._unit]] *)
Definition unit : M string :=
  self <- get_self ;;
  eval (getitem _units (_unit self)).

End Property.

(** ** Queries *)

Definition opm_is_polarity_inverted : M (option bool) :=
  _opm_send "$F" ;;
  received <- _opm_recv ;;
  if String.eqb received "F0" then
    assign (put_invert_input_polarity false) ;;
    ret (Some false)
  else if String.eqb received "F1" then
    assign (put_invert_input_polarity true) ;;
    ret (Some true)
  else ret None.

(** [dict(zip(self._bandwith_steps.values(), self._bandwith_steps.keys()))] *)
Definition bandwith_of_code : dict :=
  dict_zip (values _bandwith_steps) (keys _bandwith_steps).

Definition opm_get_bandwith : M (option string) :=
  _opm_send "B?" ;;
  received <- _opm_recv ;;
  if contains (values _bandwith_steps) received then
    name <- eval (getitem bandwith_of_code received) ;;
    assign (put_bandwith name) ;;
    self <- get_self ;;
    ret (Some (_bandwith self))
  else ret None.

(** ** Calls from outside

    The methods a program calls on an object once its port is open, each
    with its arguments. *)
Inductive call : Type :=
| Get_info
| Set_unit (unit : UNITS)
| Is_polarity_inverted
| Set_polarity (invert_polarity : bool)
| Get_wavelength
| Set_wavelength (wavelength : Z)
| Get_bandwith
| Set_bandwith (bandwith : str_or BANDWITH)
| Get_gain
| Set_gain (gain : str_or GAIN)
| Set_auto_zero
| Set_auto_zero_reset
| Get_single_raw_measure
| Get_measurement
| Set_filter (value : float)
| Set_aperture_in_mm (value : float).

(** A call whose result is dropped. *)
Definition drop_result {A : Type} (m : M A) : M Datatypes.unit :=
  _ <- m ;; ret tt.

Section Calls.

Variable log10 : float -> float.

Definition perform (c : call) : M Datatypes.unit :=
  match c with
  | Get_info => drop_result opm_get_info
  | Set_unit u => drop_result (set_unit u)
  | Is_polarity_inverted => drop_result opm_is_polarity_inverted
  | Set_polarity b => drop_result (opm_set_polarity b)
  | Get_wavelength => drop_result opm_get_wavelength
  | Set_wavelength w => drop_result (opm_set_wavelength w)
  | Get_bandwith => drop_result opm_get_bandwith
  | Set_bandwith b => drop_result (opm_set_bandwith b)
  | Get_gain => drop_result opm_get_gain
  | Set_gain g => drop_result (opm_set_gain g)
  | Set_auto_zero => drop_result opm_set_auto_zero
  | Set_auto_zero_reset => drop_result opm_set_auto_zero_reset
  | Get_single_raw_measure => drop_result opm_get_single_raw_measure
  | Get_measurement => drop_result (opm_get_measurement log10)
  | Set_filter v => Property.set_filter v
  | Set_aperture_in_mm v => Property.set_aperture_in_mm v
  end.

(** The object after a program has made the calls of [cs] in turn, going on
    after a call that raised. *)
Definition after_calls (cs : list call) (self : OPM500) : OPM500 :=
  fold_left (fun s c => snd (perform c s)) cs self.

End Calls.

(** The run of [m] from [self] stops at the first write, the port being
    closed, and leaves the object as it was. *)
Definition port_not_open {A : Type} (m : M A) (self : OPM500) : Prop :=
  m self = (Raise (Exception "Send error: port not open."), self).

(** The run of [m] from [self], whose handle is [d], writes [cmds] and then
    waits in vain for an answer. *)
Definition times_out {A : Type} (cmds : list string) (m : M A)
    (self : OPM500) (d : ftd2xx) : Prop :=
  m self =
  (Raise TimeoutError,
   put_device (Some {| tx := (tx d ++ cmds)%list; rx := [] |}) self).

(** [m] keeps the property [I] of the object, however it ends. *)
Definition preserves {A : Type} (I : OPM500 -> Prop) (m : M A) : Prop :=
  forall self : OPM500, I self -> I (snd (m self)).

(** The decimal digit [n] as a text of one character. *)
Definition digit_text (n : Z) : string :=
  String (ascii_of_nat (Z.to_nat (48 + n))) EmptyString.

(** The thousands, hundreds, tens and units of [w], one character each. *)
Definition wavelength_digits (w : Z) : list string :=
  [ digit_text (w / 1000); digit_text (w / 100 mod 10);
    digit_text (w / 10 mod 10); digit_text (w mod 10) ].

(** The text [str(w).zfill(4)] is made of the four digits of [w]. *)
Definition four_digits_written (n : nat) : bool :=
  let w := Z.of_nat n in
  String.eqb (zfill 4 (str_of_int w)) (String.concat "" (wavelength_digits w)).

(** The attributes of the object, and for each call the attributes its
    method may assign. *)
Inductive attribute : Type :=
| Unit
| Device
| Sensitivity
| Wavelength
| Initial_auto_zero
| Invert_input_polarity
| Bandwith
| Autogain_gain
| Gain
| Max_gain
| Filter
| Aperture
| Detector_range.

Definition assigns (c : call) : list attribute :=
  match c with
  | Get_info => [Device]
  | Set_unit _ => [Unit]
  | Is_polarity_inverted => [Device; Invert_input_polarity]
  | Set_polarity _ => [Device; Invert_input_polarity]
  | Get_wavelength => []
  | Set_wavelength _ => [Device; Wavelength; Sensitivity]
  | Get_bandwith => [Device; Bandwith]
  | Set_bandwith _ => [Device; Bandwith]
  | Get_gain => [Device; Gain; Autogain_gain]
  | Set_gain _ => [Device; Gain; Autogain_gain]
  | Set_auto_zero => [Device; Initial_auto_zero; Max_gain]
  | Set_auto_zero_reset => [Device; Initial_auto_zero; Max_gain]
  | Get_single_raw_measure => [Device]
  | Get_measurement => [Device; Autogain_gain]
  | Set_filter _ => [Filter]
  | Set_aperture_in_mm _ => [Aperture]
  end.

(** The objects [s] and [s'] hold the same value in the attribute [a]. *)
Definition same_at (a : attribute) (s s' : OPM500) : Prop :=
  match a with
  | Unit => _unit s = _unit s'
  | Device => _device s = _device s'
  | Sensitivity => _sensitivity s = _sensitivity s'
  | Wavelength => _wavelength s = _wavelength s'
  | Initial_auto_zero => _initial_auto_zero s = _initial_auto_zero s'
  | Invert_input_polarity =>
      _invert_input_polarity s = _invert_input_polarity s'
  | Bandwith => _bandwith s = _bandwith s'
  | Autogain_gain => _autogain_gain s = _autogain_gain s'
  | Gain => _gain s = _gain s'
  | Max_gain => _max_gain s = _max_gain s'
  | Filter => _filter s = _filter s'
  | Aperture => _aperture s = _aperture s'
  | Detector_range =>
      _opm_detector_min_wavelength s = _opm_detector_min_wavelength s' /\
      _opm_detector_max_wavelength s = _opm_detector_max_wavelength s'
  end.

(** The wavelength of [s] lies in the detector range [lo .. hi] of [s]. *)
Definition wavelength_in_range (lo hi : Z) (s : OPM500) : Prop :=
  _opm_detector_min_wavelength s = Some lo /\
  _opm_detector_max_wavelength s = Some hi /\
  lo <= _wavelength s <= hi.

(** A result that is neither of the two exceptions a gain level outside the
    gain table leads to. *)
Definition sound {A : Type} (r : result A) : Prop :=
  r <> Raise KeyError /\ r <> Raise TypeError.

(** The run of [m] does not look at what [f] changes in the object: from
    the changed object it ends as from the object itself, and leaves the
    same object, changed by [f]. *)
Definition commutes {A : Type} (f : OPM500 -> OPM500) (m : M A) : Prop :=
  forall self : OPM500, m (f self) = (fst (m self), f (snd (m self))).

(** The units of a current, in which no correction factor is applied. *)
Definition current_unit (s : OPM500) : Prop :=
  contains ["nA"; "µA"; "mA"; "A"] (_unit s) = true.


(* ===================================================================== *)
(** * Facts about the builtins *)
(* ===================================================================== *)

Section Strings.

Lemma eqb_false_of_neq (a b : string) : a <> b -> String.eqb a b = false.
Proof. apply String.eqb_neq. Qed.

Lemma append_nil_r (s : string) : s ++ "" = s.
Proof. induction s as [|c s IH]; cbn; [reflexivity | now rewrite IH]. Qed.

Lemma append_assoc (a b c : string) : (a ++ b) ++ c = a ++ (b ++ c).
Proof. induction a as [|x a IH]; cbn; [reflexivity | now rewrite IH]. Qed.

Lemma length_append (a b : string) :
  String.length (a ++ b) = (String.length a + String.length b)%nat.
Proof. induction a as [|x a IH]; cbn; [reflexivity | now rewrite IH]. Qed.

End Strings.

(* ===================================================================== *)
(** * Facts about the monad *)
(* ===================================================================== *)

Section Monad.

Local Open Scope opm_scope.

Context {A B : Type}.

Lemma bind_ret (a : A) (k : A -> M B) (self : OPM500) :
  (x <- ret a ;; k x) self = k a self.
Proof. reflexivity. Qed.

Lemma bind_eval (r : result A) (k : A -> M B) (self : OPM500) :
  (x <- eval r ;; k x) self =
  match r with
  | Ok a => k a self
  | Raise e => (Raise e, self)
  end.
Proof. destruct r; reflexivity. Qed.

Lemma bind_get_self (k : OPM500 -> M B) (self : OPM500) :
  (x <- get_self ;; k x) self = k self self.
Proof. reflexivity. Qed.

Lemma bind_assign (f : OPM500 -> OPM500) (k : M B) (self : OPM500) :
  (assign f ;; k) self = k (f self).
Proof. reflexivity. Qed.

Lemma bind_bind {C : Type} (m : M A) (f : A -> M B) (g : B -> M C)
    (self : OPM500) :
  (y <- (x <- m ;; f x) ;; g y) self = (x <- m ;; y <- f x ;; g y) self.
Proof. unfold bind. destruct (m self) as [[a|e] s]; reflexivity. Qed.

Lemma bind_raise (e : exn) (k : A -> M B) (self : OPM500) :
  (x <- raise e ;; k x) self = (Raise e, self).
Proof. reflexivity. Qed.

Lemma bind_sleep (seconds : float) (k : M B) (self : OPM500) :
  (sleep seconds ;; k) self = k self.
Proof. reflexivity. Qed.

End Monad.

(* ===================================================================== *)
(** * Facts about the command channel *)
(* ===================================================================== *)

Section Channel.

Local Open Scope opm_scope.

Variable self : OPM500.
Variable d : ftd2xx.
Hypothesis port_open : _device self = Some d.

Lemma send_open (msg : string) :
  _opm_send msg self =
  (Ok tt, put_device (Some {| tx := tx d ++ [msg]; rx := rx d |}) self).
Proof. unfold _opm_send. rewrite port_open. reflexivity. Qed.

Lemma recv_open (msg : string) (rest : list string) :
  rx d = msg :: rest ->
  _opm_recv self =
  (Ok (received msg), put_device (Some {| tx := tx d; rx := rest |}) self).
Proof. intros R. unfold _opm_recv. rewrite port_open, R. reflexivity. Qed.

Lemma recv_silent : rx d = [] -> _opm_recv self = (Raise TimeoutError, self).
Proof. intros R. unfold _opm_recv. rewrite port_open, R. reflexivity. Qed.

(** One request and its answer. *)
Lemma exchange {A : Type} (cmd msg : string) (rest : list string)
    (k : string -> M A) :
  rx d = msg :: rest ->
  (_opm_send cmd ;; recv <- _opm_recv ;; k recv) self =
  k (received msg)
    (put_device (Some {| tx := tx d ++ [cmd]; rx := rest |}) self).
Proof.
  intros R. unfold bind at 1. rewrite send_open.
  unfold bind at 1. unfold _opm_recv. cbn. rewrite R. reflexivity.
Qed.

End Channel.

Lemma send_all (l : list string) (self : OPM500) (d : ftd2xx) :
  _device self = Some d ->
  for_each l _opm_send self =
  (Ok tt, put_device (Some {| tx := tx d ++ l; rx := rx d |}) self).
Proof.
  revert self d. induction l as [|x l IH]; intros self d Hd.
  - cbn. unfold ret. rewrite app_nil_r. destruct self; cbn in *; subst.
    destruct d; reflexivity.
  - cbn [for_each]. unfold bind. rewrite (send_open _ _ Hd).
    rewrite (IH (put_device (Some {| tx := tx d ++ [x]; rx := rx d |}) self)
               {| tx := tx d ++ [x]; rx := rx d |} eq_refl).
    cbn. rewrite <- app_assoc. reflexivity.
Qed.

Lemma bandwith_steps_entry (name code : string) :
  In (name, code) _bandwith_steps ->
  contains (keys _bandwith_steps) name = true /\
  getitem _bandwith_steps name = Ok code.
Proof.
  intros Hin. cbn in Hin.
  repeat (destruct Hin as [Hin | Hin]; [injection Hin as <- <-; split; reflexivity | ]).
  contradiction.
Qed.

Lemma gain_steps_entry (name code : string) :
  In (name, code) _gain_steps ->
  contains (keys _gain_steps) name = true /\
  getitem _gain_steps name = Ok code.
Proof.
  intros Hin. cbn in Hin.
  repeat (destruct Hin as [Hin | Hin]; [injection Hin as <- <-; split; reflexivity | ]).
  contradiction.
Qed.

Lemma recv_put (dd : ftd2xx) (s : OPM500) (msg : string) (rest : list string) :
  rx dd = msg :: rest ->
  _opm_recv (put_device (Some dd) s) =
  (Ok (received msg), put_device (Some {| tx := tx dd; rx := rest |}) s).
Proof. intros R. unfold _opm_recv. cbn. rewrite R. reflexivity. Qed.

Lemma send_put (dd : ftd2xx) (s : OPM500) (msg : string) :
  _opm_send msg (put_device (Some dd) s) =
  (Ok tt, put_device (Some {| tx := tx dd ++ [msg]; rx := rx dd |}) s).
Proof. reflexivity. Qed.

(* ===================================================================== *)
(** * What one run of each setter does *)
(* ===================================================================== *)

Section Setters.

Local Open Scope opm_scope.

Variable self : OPM500.
Variable d : ftd2xx.
Variable msg : string.
Variable rest : list string.
Hypothesis port_open : _device self = Some d.
Hypothesis answer : rx d = msg :: rest.

(** The object once [cmds] are written and the answer is consumed. *)
Let after (cmds : list string) : OPM500 :=
  put_device (Some {| tx := tx d ++ cmds; rx := rest |}) self.

Lemma set_polarity_run (invert_polarity : bool) :
  let command := if invert_polarity then "C" else "N" in
  opm_set_polarity invert_polarity self =
  if String.eqb (received msg) (command ++ " OK")
  then (Ok true, put_invert_input_polarity invert_polarity (after ["$" ++ command]))
  else (Ok false, after ["$" ++ command]).
Proof.
  unfold opm_set_polarity.
  destruct invert_polarity; cbn [Bool.eqb]; cbv zeta;
    rewrite (exchange _ _ port_open _ _ _ _ answer);
    destruct (String.eqb _ _); reflexivity.
Qed.

Lemma set_bandwith_run (bandwith : str_or BANDWITH) (code : string) :
  In (bandwith_name bandwith, code) _bandwith_steps ->
  opm_set_bandwith bandwith self =
  if String.eqb (received msg) (code ++ " OK")
  then (Ok true, put_bandwith (bandwith_name bandwith) (after [code]))
  else (Ok false, after [code]).
Proof.
  intros Hin. destruct (bandwith_steps_entry _ _ Hin) as [Hkey Hget].
  unfold opm_set_bandwith. fold (bandwith_name bandwith).
  rewrite Hkey. cbn [negb]. rewrite bind_eval, Hget.
  rewrite (exchange _ _ port_open _ _ _ _ answer); cbv beta.
  rewrite bind_eval.
  destruct (String.eqb _ _); reflexivity.
Qed.

Lemma set_gain_run (gain : str_or GAIN) (code : string) :
  In (gain_name gain, code) _gain_steps ->
  gain_name gain <> "auto-gain" ->
  opm_set_gain gain self =
  if String.eqb (received msg) (code ++ " OK")
  then
    match int_of_str (slice_from 1 code) with
    | Ok level =>
        (Ok true,
         put_autogain_gain (Some level)
           (if String.eqb (_gain self) "auto-gain" then after [code]
            else put_gain (gain_name gain) (after [code])))
    | Raise e =>
        (Raise e,
         if String.eqb (_gain self) "auto-gain" then after [code]
         else put_gain (gain_name gain) (after [code]))
    end
  else (Ok false, after [code]).
Proof.
  intros Hin Hfixed. destruct (gain_steps_entry _ _ Hin) as [Hkey Hget].
  unfold opm_set_gain. fold (gain_name gain).
  rewrite Hkey, (eqb_false_of_neq _ _ Hfixed). cbn [negb].
  rewrite bind_eval, Hget.
  rewrite (exchange _ _ port_open _ _ _ _ answer); cbv beta.
  rewrite bind_eval.
  destruct (String.eqb (received msg) _); [ | reflexivity].
  rewrite bind_get_self. cbn [_gain put_device after].
  destruct (String.eqb (_gain self) "auto-gain"); cbn [negb].
  - rewrite bind_ret, bind_eval, bind_eval.
    destruct (int_of_str _); reflexivity.
  - rewrite bind_assign, bind_eval, bind_eval.
    destruct (int_of_str _); reflexivity.
Qed.

Lemma set_auto_zero_reset_run :
  opm_set_auto_zero_reset self =
  if String.eqb (received msg) "R OK"
  then (Ok true,
        put_max_gain (len_gain_steps - 1)
          (put_initial_auto_zero (INITIAL_AUTO_ZERO_value AUTO_ZERO) (after ["$R"])))
  else (Ok false, after ["$R"]).
Proof.
  unfold opm_set_auto_zero_reset.
  rewrite (exchange _ _ port_open _ _ _ _ answer); cbv beta.
  destruct (String.eqb _ _); reflexivity.
Qed.

Lemma set_auto_zero_run :
  opm_set_auto_zero self =
  if 0 <? count "Gain: " (received msg) then
    let zeroed :=
      put_initial_auto_zero (INITIAL_AUTO_ZERO_value AUTO_ZERO) (after ["$A"]) in
    match last_char (received msg) with
    | Ok c =>
        match int_of_str c with
        | Ok n => (Ok true, put_max_gain n zeroed)
        | Raise e => (Raise e, zeroed)
        end
    | Raise e => (Raise e, zeroed)
    end
  else if 0 <? count "A OK" (received msg) then
    (Ok true,
     put_max_gain (len_gain_steps - 1)
       (put_initial_auto_zero (INITIAL_AUTO_ZERO_value AUTO_ZERO) (after ["$A"])))
  else (Ok false, after ["$A"]).
Proof.
  unfold opm_set_auto_zero.
  rewrite (exchange _ _ port_open _ _ _ _ answer); cbv beta.
  destruct (0 <? count "Gain: " _).
  - rewrite bind_assign, bind_eval. cbv zeta.
    destruct (last_char _); [ | reflexivity].
    rewrite bind_eval. destruct (int_of_str _); reflexivity.
  - destruct (0 <? count "A OK" _); reflexivity.
Qed.

Lemma set_wavelength_run (wavelength lo hi : Z) :
  _opm_detector_min_wavelength self = Some lo ->
  _opm_detector_max_wavelength self = Some hi ->
  opm_set_wavelength wavelength self =
  if in_range wavelength lo (hi + 1) then
    let sent := after ("L" :: chars (zfill 4 (str_of_int wavelength))) in
    if 0 <? count "KF:" (received msg) then
      match float_of_str
              (strip (replace "," "." (replace "KF:" "" (received msg)))) with
      | Ok kf => (Ok true, put_sensitivity kf (put_wavelength wavelength sent))
      | Raise e => (Raise e, put_wavelength wavelength sent)
      end
    else (Ok false, sent)
  else (Ok false, self).
Proof.
  intros Hlo Hhi. unfold opm_set_wavelength.
  rewrite bind_get_self, Hlo, Hhi.
  destruct (in_range _ _ _); cbn [negb]; [ | reflexivity].
  unfold bind at 1. rewrite (send_open _ _ port_open).
  unfold bind at 1. erewrite send_all by reflexivity.
  unfold bind at 1. erewrite recv_put by exact answer.
  cbv zeta.
  destruct (0 <? count "KF:" _).
  - rewrite bind_assign, bind_eval.
    destruct (float_of_str _); cbn; rewrite <- app_assoc; reflexivity.
  - cbn. rewrite <- app_assoc. reflexivity.
Qed.

End Setters.

(* ===================================================================== *)
(** * Setters and their acknowledgments *)
(* ===================================================================== *)

Lemma configuration_put_device (dev : option ftd2xx) (self : OPM500) :
  configuration_of (put_device dev self) = configuration_of self.
Proof. reflexivity. Qed.

Lemma rejects_intro (m : M bool) (self : OPM500) (dev : option ftd2xx) :
  m self = (Ok false, put_device dev self) -> rejects m self.
Proof. intros H. unfold rejects. rewrite H. split; reflexivity. Qed.

(** C1, as stated, fails on the code.  The automatic zeroing takes every
    answer that contains [A OK] for its acknowledgment: the answer [$A OK]
    is not the acknowledgment [A OK], and yet the call succeeds and resets
    the highest gain level.  The wavelength setter stores the wavelength
    before it parses the correction factor: on the answer [KF:], which
    carries no factor, it raises [ValueError] with the new wavelength in
    place and the old correction factor kept. *)
Lemma setters_unacknowledged_counterexample :
  let zeroing := put_max_gain 4 (connected 200 1100 ["$A OK"]) in
  let tuning := connected 200 1100 ["KF:"] in
  received "$A OK" <> "A OK" /\
  fst (opm_set_auto_zero zeroing) = Ok true /\
  _max_gain zeroing = 4 /\
  _max_gain (snd (opm_set_auto_zero zeroing)) = 6 /\
  ~ rejects opm_set_auto_zero zeroing /\
  fst (opm_set_wavelength 700 tuning) = Raise ValueError /\
  _wavelength tuning = 660 /\
  _wavelength (snd (opm_set_wavelength 700 tuning)) = 700 /\
  _sensitivity (snd (opm_set_wavelength 700 tuning)) = _sensitivity tuning /\
  ~ rejects (opm_set_wavelength 700) tuning.
Proof.
  cbv zeta. repeat split; try (vm_compute; reflexivity).
  - vm_compute. discriminate.
  - intros [H _]. vm_compute in H. discriminate.
  - intros [H _]. vm_compute in H. discriminate.
Qed.

(** C1, amended: with the port open, a setter whose answer fails the test
    the driver applies to it reports failure and leaves every field of the
    configuration as it was.  The test is equality with the acknowledgment
    for the polarity, the bandwidth, a fixed gain and the zero reset; for
    the wavelength it is that the answer contains [KF:]; for the automatic
    zeroing it is that the answer contains [Gain: ] or [A OK]. *)
Theorem setters_reject_unacknowledged (self : OPM500) (d : ftd2xx)
    (msg : string) (rest : list string) :
  _device self = Some d ->
  rx d = msg :: rest ->
  (forall invert_polarity : bool,
      received msg <> (if invert_polarity then "C OK" else "N OK") ->
      rejects (opm_set_polarity invert_polarity) self) /\
  (forall (bandwith : str_or BANDWITH) (code : string),
      In (bandwith_name bandwith, code) _bandwith_steps ->
      received msg <> code ++ " OK" ->
      rejects (opm_set_bandwith bandwith) self) /\
  (forall (gain : str_or GAIN) (code : string),
      In (gain_name gain, code) _gain_steps ->
      gain_name gain <> "auto-gain" ->
      received msg <> code ++ " OK" ->
      rejects (opm_set_gain gain) self) /\
  (forall wavelength lo hi : Z,
      _opm_detector_min_wavelength self = Some lo ->
      _opm_detector_max_wavelength self = Some hi ->
      count "KF:" (received msg) = 0 ->
      rejects (opm_set_wavelength wavelength) self) /\
  (count "Gain: " (received msg) = 0 ->
   count "A OK" (received msg) = 0 ->
   rejects opm_set_auto_zero self) /\
  (received msg <> "R OK" -> rejects opm_set_auto_zero_reset self).
Proof.
  intros Hd Hrx.
  refine (conj _ (conj _ (conj _ (conj _ (conj _ _))))).
  - intros invert Hack.
    destruct invert; eapply rejects_intro;
      rewrite (set_polarity_run _ _ _ _ Hd Hrx); cbv zeta; cbn [append];
      rewrite (eqb_false_of_neq _ _ Hack); reflexivity.
  - intros bandwith code Hin Hack.
    eapply rejects_intro. rewrite (set_bandwith_run _ _ _ _ Hd Hrx _ _ Hin).
    rewrite (eqb_false_of_neq _ _ Hack). reflexivity.
  - intros gain code Hin Hfixed Hack.
    eapply rejects_intro. rewrite (set_gain_run _ _ _ _ Hd Hrx _ _ Hin Hfixed).
    rewrite (eqb_false_of_neq _ _ Hack). reflexivity.
  - intros wavelength lo hi Hlo Hhi Hkf.
    unfold rejects. rewrite (set_wavelength_run _ _ _ _ Hd Hrx _ _ _ Hlo Hhi).
    destruct (in_range _ _ _); [ | split; reflexivity].
    cbv zeta. rewrite Hkf. split; reflexivity.
  - intros Hgain Hok.
    eapply rejects_intro. rewrite (set_auto_zero_run _ _ _ _ Hd Hrx), Hgain, Hok.
    reflexivity.
  - intros Hack.
    eapply rejects_intro.
    rewrite (set_auto_zero_reset_run _ _ _ _ Hd Hrx), (eqb_false_of_neq _ _ Hack).
    reflexivity.
Qed.

(** The six rejections, for an instrument that answers [NAK]. *)
Lemma setters_reject_unacknowledged_witness :
  let self := connected 200 1100 ["NAK"] in
  _device self = Some {| tx := []; rx := ["NAK"] |} /\
  rejects (opm_set_polarity true) self /\
  rejects (opm_set_bandwith (Member KHZ_1)) self /\
  rejects (opm_set_gain (Str "x10")) self /\
  rejects (opm_set_wavelength 700) self /\
  rejects opm_set_auto_zero self /\
  rejects opm_set_auto_zero_reset self.
Proof.
  cbv zeta.
  destruct (setters_reject_unacknowledged (connected 200 1100 ["NAK"])
              {| tx := []; rx := ["NAK"] |} "NAK" [] eq_refl eq_refl)
    as (Hp & Hb & Hg & Hw & Ha & Hr).
  split; [reflexivity | ].
  split; [apply Hp; vm_compute; discriminate | ].
  split; [apply (Hb (Member KHZ_1) "B2");
          [cbn; tauto | vm_compute; discriminate] | ].
  split; [apply (Hg (Str "x10") "V2");
          [cbn; tauto | cbn; discriminate | vm_compute; discriminate] | ].
  split; [apply (Hw 700 200 1100); reflexivity | ].
  split; [apply Ha; reflexivity | ].
  apply Hr; vm_compute; discriminate.
Defined.

(** C5, as stated, fails on the code: in automatic gain mode an
    acknowledged [opm_set_gain("x10")] leaves the gain mode at [auto-gain];
    only the tracked level moves to 2. *)
Lemma opm_set_gain_auto_counterexample :
  let self := put_gain "auto-gain" (connected 200 1100 ["V2 OK"]) in
  received "V2 OK" = "V2" ++ " OK" /\
  fst (opm_set_gain (Str "x10") self) = Ok true /\
  _gain (snd (opm_set_gain (Str "x10") self)) = "auto-gain" /\
  _gain (snd (opm_set_gain (Str "x10") self)) <> "x10" /\
  _autogain_gain (snd (opm_set_gain (Str "x10") self)) = Some 2.
Proof.
  cbv zeta. repeat split; try (vm_compute; reflexivity).
  vm_compute. discriminate.
Qed.

(** C5, amended: for each of the six fixed levels of the gain table and every
    state with the port open, an [opm_set_gain] with that level that receives
    the acknowledgment [<code> OK] succeeds and sets the tracked level to
    the number in the code; the gain mode becomes that level unless it is
    [auto-gain], in which case it stays [auto-gain]. *)
Theorem opm_set_gain_acknowledged (self : OPM500) (d : ftd2xx)
    (msg : string) (rest : list string) (gain : str_or GAIN) (code : string) :
  _device self = Some d ->
  rx d = msg :: rest ->
  In (gain_name gain, code) _gain_steps ->
  gain_name gain <> "auto-gain" ->
  received msg = code ++ " OK" ->
  exists level : Z,
    1 <= level <= 6 /\
    code = "V" ++ str_of_int level /\
    fst (opm_set_gain gain self) = Ok true /\
    _autogain_gain (snd (opm_set_gain gain self)) = Some level /\
    _gain (snd (opm_set_gain gain self)) =
      (if String.eqb (_gain self) "auto-gain" then "auto-gain"
       else gain_name gain).
Proof.
  intros Hd Hrx Hin Hfixed Hack.
  rewrite (set_gain_run _ _ _ _ Hd Hrx _ _ Hin Hfixed), Hack, String.eqb_refl.
  cbn in Hin.
  destruct Hin as [Hin | [Hin | [Hin | [Hin | [Hin | [Hin | [Hin | []]]]]]]];
    injection Hin as Hname <-; try (symmetry in Hname; contradiction).
  1: exists 1. 2: exists 2. 3: exists 3. 4: exists 4. 5: exists 5. 6: exists 6.
  all: split; [lia | split; [reflexivity | ]].
  all: match goal with
       | |- context [int_of_str ?s] =>
           let v := eval vm_compute in (int_of_str s) in
           change (int_of_str s) with v
       end.
  all: cbv iota; cbn [fst snd _autogain_gain put_autogain_gain _gain].
  all: destruct (String.eqb_spec (_gain self) "auto-gain") as [Hauto | Hauto];
    repeat split; cbn; congruence.
Qed.

(** The gain x100, acknowledged with [V3 OK] in fixed gain mode. *)
Lemma opm_set_gain_acknowledged_witness :
  let self := connected 200 1100 ["V3 OK"] in
  _device self = Some {| tx := []; rx := ["V3 OK"] |} /\
  (exists level : Z,
      1 <= level <= 6 /\
      "V3" = "V" ++ str_of_int level /\
      fst (opm_set_gain (Member X100) self) = Ok true /\
      _autogain_gain (snd (opm_set_gain (Member X100) self)) = Some level /\
      _gain (snd (opm_set_gain (Member X100) self)) =
        (if String.eqb (_gain self) "auto-gain" then "auto-gain" else "x100")).
Proof.
  cbv zeta. split; [reflexivity | ].
  apply (opm_set_gain_acknowledged (connected 200 1100 ["V3 OK"])
           {| tx := []; rx := ["V3 OK"] |} "V3 OK" [] (Member X100) "V3").
  - reflexivity.
  - reflexivity.
  - cbn. tauto.
  - cbn. discriminate.
  - reflexivity.
Defined.

(** C6, as stated, fails on the code: the command for normal polarity is the
    two characters [$N], not the single character [N], and the command for
    inverted polarity is [$C]. *)
Lemma opm_set_polarity_command_counterexample :
  tx_of (snd (opm_set_polarity false (connected 200 1100 ["N OK"]))) = ["$N"] /\
  tx_of (snd (opm_set_polarity false (connected 200 1100 ["N OK"]))) <> ["N"] /\
  tx_of (snd (opm_set_polarity true (connected 200 1100 ["C OK"]))) = ["$C"] /\
  tx_of (snd (opm_set_polarity true (connected 200 1100 ["C OK"]))) <> ["C"].
Proof.
  repeat split; try (vm_compute; reflexivity); vm_compute; discriminate.
Qed.

(** C6, amended: with the port open, [opm_set_polarity] writes exactly one
    message, the two characters [$N] for normal and [$C] for inverted
    polarity; when the answer is the acknowledgment [N OK], respectively
    [C OK], it stores the requested polarity and returns success. *)
Theorem opm_set_polarity_command (self : OPM500) (d : ftd2xx)
    (invert_polarity : bool) :
  _device self = Some d ->
  tx_of (snd (opm_set_polarity invert_polarity self)) =
    (tx d ++ [if invert_polarity then "$C" else "$N"])%list /\
  forall (msg : string) (rest : list string),
    rx d = msg :: rest ->
    received msg = (if invert_polarity then "C OK" else "N OK") ->
    fst (opm_set_polarity invert_polarity self) = Ok true /\
    _invert_input_polarity (snd (opm_set_polarity invert_polarity self)) =
      invert_polarity.
Proof.
  intros Hd. split.
  - destruct (rx d) as [|msg rest] eqn:Hrx.
    + unfold opm_set_polarity, bind. rewrite (send_open _ _ Hd).
      unfold _opm_recv. cbn. rewrite Hrx.
      destruct invert_polarity; reflexivity.
    + rewrite (set_polarity_run _ _ _ _ Hd Hrx). cbv zeta.
      destruct invert_polarity; destruct (String.eqb _ _); reflexivity.
  - intros msg rest Hrx Hack.
    rewrite (set_polarity_run _ _ _ _ Hd Hrx). cbv zeta.
    destruct invert_polarity; cbn [append]; rewrite Hack, String.eqb_refl;
      split; reflexivity.
Qed.

(** Inverted polarity, acknowledged with [C OK]. *)
Lemma opm_set_polarity_command_witness :
  let self := connected 200 1100 ["C OK"] in
  _device self = Some {| tx := []; rx := ["C OK"] |} /\
  tx_of (snd (opm_set_polarity true self)) = ([] ++ ["$C"])%list /\
  fst (opm_set_polarity true self) = Ok true /\
  _invert_input_polarity (snd (opm_set_polarity true self)) = true.
Proof.
  cbv zeta.
  destruct (opm_set_polarity_command (connected 200 1100 ["C OK"])
              {| tx := []; rx := ["C OK"] |} true eq_refl) as [Htx Hack].
  split; [reflexivity | ]. split; [exact Htx | ].
  apply (Hack "C OK" []); reflexivity.
Defined.

(* ===================================================================== *)
(** * Reading the gain back *)
(* ===================================================================== *)

Section GetGain.

Local Open Scope opm_scope.

Lemma record_gain_not_none (second : string) (self : OPM500) :
  fst (record_gain second self) <> Ok None.
Proof.
  assert (Htail : forall s : OPM500,
             fst ((name <- eval (getitem gain_of_code second) ;;
                   code <- eval (getitem _gain_steps name) ;;
                   level <- eval (int_of_str (slice_from 1 code)) ;;
                   assign (put_autogain_gain (Some level)) ;;
                   name <- eval (getitem gain_of_code second) ;;
                   ret (Some name)) s) <> Ok None).
  { intros s. rewrite bind_eval.
    destruct (getitem gain_of_code second) as [name|e]; [ | discriminate].
    rewrite bind_eval. destruct (getitem _gain_steps name); [ | discriminate].
    rewrite bind_eval. destruct (int_of_str _); [ | discriminate].
    rewrite bind_assign, bind_eval. discriminate. }
  unfold record_gain. rewrite bind_get_self.
  destruct (negb _).
  - rewrite bind_bind, bind_eval.
    destruct (getitem gain_of_code second) as [name|e] eqn:Hn; [ | discriminate].
    rewrite bind_assign. apply Htail.
  - rewrite bind_ret. apply Htail.
Qed.

Variable self : OPM500.
Variable d : ftd2xx.
Variable msg : string.
Variable rest : list string.
Hypothesis port_open : _device self = Some d.
Hypothesis answer : rx d = msg :: rest.

Lemma get_gain_run :
  opm_get_gain self =
  let asked := put_device (Some {| tx := tx d ++ ["V?"]; rx := rest |}) self in
  match splitlines (received msg) with
  | [] => (Raise IndexError, asked)
  | first :: others =>
      if String.eqb first "V? OK" then
        match others with
        | [] => (Raise IndexError, asked)
        | second :: _ =>
            if contains (values _gain_steps) second
            then record_gain second asked
            else (Ok None, asked)
        end
      else (Ok None, asked)
  end.
Proof.
  unfold opm_get_gain.
  rewrite (exchange _ _ port_open _ _ _ _ answer); cbv beta zeta.
  destruct (splitlines (received msg)) as [|first others]; [reflexivity | ].
  rewrite bind_eval. cbn [item nth_error].
  destruct (String.eqb first "V? OK"); [ | reflexivity].
  rewrite bind_eval.
  destruct others as [|second more]; [reflexivity | ]. cbn [item nth_error].
  destruct (contains _ second); reflexivity.
Qed.

End GetGain.

Lemma contains_In (l : list string) (x : string) :
  contains l x = true <-> In x l.
Proof.
  unfold contains. rewrite existsb_exists. split.
  - intros (y & Hy & Heq). apply String.eqb_eq in Heq. now subst.
  - intros Hin. exists x. split; [exact Hin | apply String.eqb_refl].
Qed.

(** C10: with the port open, [opm_get_gain] raises [IndexError] when the
    answer is the single line [V? OK] and when it is empty; and whenever it
    returns [None] the answer has a first line other than [V? OK], or a second
    line that is none of [V1] .. [V6]. *)
Theorem opm_get_gain_reply_shapes (self : OPM500) (d : ftd2xx)
    (msg : string) (rest : list string) :
  _device self = Some d ->
  rx d = msg :: rest ->
  (received msg = "V? OK" \/ received msg = "" ->
   fst (opm_get_gain self) = Raise IndexError) /\
  (fst (opm_get_gain self) = Ok None ->
   exists (first : string) (others : list string),
     splitlines (received msg) = first :: others /\
     (first <> "V? OK" \/
      exists (second : string) (more : list string),
        others = second :: more /\
        ~ In second ["V1"; "V2"; "V3"; "V4"; "V5"; "V6"])).
Proof.
  intros Hd Hrx. rewrite (get_gain_run _ _ _ _ Hd Hrx). cbv zeta. split.
  - intros [-> | ->]; reflexivity.
  - destruct (splitlines (received msg)) as [|first others]; [discriminate | ].
    intros Hnone. exists first, others. split; [reflexivity | ].
    destruct (String.eqb_spec first "V? OK") as [-> | Hfirst]; [ | now left].
    right. destruct others as [|second more]; [discriminate | ].
    exists second, more. split; [reflexivity | ].
    destruct (contains (values _gain_steps) second) eqn:Hin.
    + exfalso. exact (record_gain_not_none _ _ Hnone).
    + intros Hlevel. apply Bool.not_true_iff_false in Hin. apply Hin.
      apply contains_In. cbn in *. tauto.
Qed.

(** The answer that is the single line [V? OK]. *)
Lemma opm_get_gain_reply_shapes_witness :
  let self := connected 200 1100 ["V? OK"] in
  _device self = Some {| tx := []; rx := ["V? OK"] |} /\
  fst (opm_get_gain self) = Raise IndexError.
Proof.
  cbv zeta. split; [reflexivity | ].
  apply (opm_get_gain_reply_shapes (connected 200 1100 ["V? OK"])
           {| tx := []; rx := ["V? OK"] |} "V? OK" [] eq_refl eq_refl).
  left. reflexivity.
Defined.

(* ===================================================================== *)
(** * The model marker of the identity block *)
(* ===================================================================== *)

Section Marker.

Lemma prefix_length (p s : string) :
  String.prefix p s = true -> (String.length p <= String.length s)%nat.
Proof.
  revert s. induction p as [|a p IH]; intros s H; cbn; [lia | ].
  destruct s as [|b s]; cbn in H; [discriminate | ].
  destruct (ascii_dec a b); [ | discriminate].
  cbn. apply IH in H. lia.
Qed.

Lemma prefix_take (p s : string) :
  String.prefix p s = true <-> take (String.length p) s = p /\
                              (String.length p <= String.length s)%nat.
Proof.
  revert s. induction p as [|a p IH]; intros s; cbn.
  - split; [intros _; split; [reflexivity | lia] | ].
    intros _. destruct s; reflexivity.
  - destruct s as [|b s]; cbn.
    + split; [discriminate | intros [_ H]; lia].
    + destruct (ascii_dec a b) as [-> | Hab].
      * rewrite IH. split; intros [H1 H2]; split; try lia; congruence.
      * split; [discriminate | ]. intros [H _]. congruence.
Qed.

Lemma prefix_lower (p s : string) :
  String.prefix p s = true ->
  String.prefix (lower_str p) (lower_str s) = true.
Proof.
  revert s. induction p as [|a p IH]; intros s H; [destruct s; reflexivity | ].
  destruct s as [|b s]; cbn in H; [discriminate | ].
  destruct (ascii_dec a b) as [-> | ]; [ | discriminate].
  cbn. destruct (ascii_dec (lower b) (lower b)); [ | congruence].
  now apply IH.
Qed.

Lemma length_lower (s : string) : String.length (lower_str s) = String.length s.
Proof. induction s as [|c s IH]; cbn; congruence. Qed.

Lemma length_take (n : nat) (s : string) :
  (n <= String.length s)%nat -> String.length (take n s) = n.
Proof.
  revert s. induction n as [|n IH]; intros s H; [reflexivity | ].
  destruct s as [|c s]; cbn in *; [lia | ]. rewrite IH; lia.
Qed.

(** The substitution leaves the text as it is, or leaves six characters at
    least. *)
Lemma marker_sub_from_length (bol : bool) (info : string) :
  marker_sub_from bol info = info \/
  (6 <= String.length (marker_sub_from bol info))%nat.
Proof.
  revert bol. induction info as [|c r IH]; intros bol; [now left | ].
  cbn [marker_sub_from].
  destruct (bol && String.prefix "opm500" (lower_str (String c r))) eqn:Hm.
  - right. apply andb_prop in Hm as [_ Hm]. apply prefix_length in Hm.
    rewrite length_lower in Hm. rewrite length_take; [lia | exact Hm].
  - destruct (IH (String.eqb (String c "") LF)) as [-> | Hlen];
      [now left | right; cbn [String.length]; lia].
Qed.

(** C7, as stated, fails on the code: a block whose first line begins with
    [opm500] in lower case has a line that begins with the marker in any
    case, and the test of [_initialize] refuses it; so it does a block that
    carries the marker [OPM500] on its second line. *)
Lemma marker_check_counterexample :
  marker_begins_line "opm500 FW1.2 Serial: 12345" = true /\
  marker_check "opm500 FW1.2 Serial: 12345" = false /\
  marker_begins_line ("Artifex" ++ LF ++ "OPM500 FW1.2") = true /\
  marker_check ("Artifex" ++ LF ++ "OPM500 FW1.2") = false.
Proof. repeat split; vm_compute; reflexivity. Qed.

(** C7, amended: the model-marker test of [_initialize] passes if and only
    if the identity block begins with the marker [OPM500] in upper case; the
    marker on a later line or in another case does not pass. *)
Theorem marker_check_iff (info : string) :
  marker_check info = true <-> startswith "OPM500" info = true.
Proof.
  unfold marker_check, marker_sub, startswith. rewrite String.eqb_eq.
  destruct info as [|c r]; [cbn; split; discriminate | ].
  cbn [marker_sub_from andb].
  destruct (String.prefix "opm500" (lower_str (String c r))) eqn:Hm.
  - rewrite prefix_take. cbn [String.length].
    apply prefix_length in Hm. rewrite length_lower in Hm. cbn in Hm.
    split; [intros H; split; [exact H | cbn; lia] | intros [H _]; exact H].
  - split.
    + intros H. exfalso.
      pose proof (marker_sub_from_length (String.eqb (String c "") LF) r)
        as Hshape.
      set (tail := marker_sub_from (String.eqb (String c "") LF) r) in *.
      injection H as -> Htail. rewrite Htail in Hshape.
      destruct Hshape as [Hsame | Hlen].
      * subst r. vm_compute in Hm. discriminate.
      * cbn in Hlen. lia.
    + intros H. apply prefix_lower in H.
      change (lower_str "OPM500") with "opm500" in H. congruence.
Qed.

End Marker.

(* ===================================================================== *)
(** * The measurement pipeline *)
(* ===================================================================== *)

Section Pipeline.

Variable log10 : float -> float.

(** C9: when the display unit is [dBm] and the product of correction and
    filter factor is not zero, the pipeline takes the magnitude in
    nanoampere divided by that product and by 1,000,000 as the argument of
    the logarithm; it raises the domain error [ValueError] when the argument
    is at most zero, and returns no value then; otherwise it returns ten
    times the logarithm, rounded to 5 decimals, with the unit [dBm]. *)
Theorem convert_base_dBm (self : OPM500) (base : float) :
  _unit self = "dBm" ->
  PrimFloat.eqb (_sensitivity self * _filter self)%float zero = false ->
  convert_base log10 base self =
  (let argument :=
     (base / (_sensitivity self * _filter self) / 1000000)%float in
   if PrimFloat.leb argument zero then Raise ValueError
   else Ok (round (10 * log10 argument)%float 5, "dBm"),
   self).
Proof.
  intros Hunit Hdiv. unfold convert_base.
  rewrite bind_get_self, Hunit.
  change (negb (contains _ "dBm")) with true. cbv iota.
  unfold truediv. rewrite Hdiv. rewrite bind_eval.
  change (startswith "n" "dBm") with false.
  change (startswith "µ" "dBm") with false.
  change (startswith "m" "dBm") with false.
  change (String.eqb "dBm" "dBm") with true. cbv iota.
  rewrite bind_bind, bind_eval. unfold math_log10. cbv zeta.
  destruct (PrimFloat.leb _ zero); [reflexivity | ].
  rewrite bind_ret.
  change (contains _ "dBm") with false. cbv iota. reflexivity.
Qed.

End Pipeline.

(** A magnitude of zero in [dBm]: the logarithm has no value. *)
Lemma convert_base_dBm_witness :
  let self := put_unit "dBm" (connected 200 1100 []) in
  _unit self = "dBm" /\
  convert_base (fun x : float => x) 0%float self = (Raise ValueError, self).
Proof.
  cbv zeta. split; [reflexivity | ].
  rewrite (convert_base_dBm (fun x : float => x)
             (put_unit "dBm" (connected 200 1100 [])) 0%float);
    reflexivity.
Defined.

Section Readings.



Lemma prefix_single (a c : ascii) (r : string) :
  String.prefix (String a "") (String c r) =
  if ascii_dec a c then true else false.
Proof. cbn. destruct (ascii_dec a c); [destruct r | ]; reflexivity. Qed.




End Readings.




(* ===================================================================== *)
(** * The wavelength and its correction factor *)
(* ===================================================================== *)

Section DecimalText.

(** The ten digits, case by case. *)
Ltac digit_cases c H :=
  destruct c as [[] [] [] [] [] [] [] []]; try discriminate H.

Lemma prefix_nil (s : string) : String.prefix "" s = true.
Proof. destruct s; reflexivity. Qed.

Lemma rev_onto_append (a acc : string) (c : ascii) :
  rev_onto (a ++ String c "") acc = String c (rev_onto a acc).
Proof.
  revert acc. induction a as [|x a IH]; intros acc; cbn; [reflexivity | apply IH].
Qed.

Lemma rev_snoc (a : string) (c : ascii) : rev (a ++ String c "") = String c (rev a).
Proof. apply rev_onto_append. Qed.

Lemma rev_onto_spec (a acc : string) : rev_onto a acc = rev a ++ acc.
Proof.
  revert acc. induction a as [|x a IH]; intros acc; [reflexivity | ].
  unfold rev. cbn. rewrite IH, (IH (String x "")), append_assoc. reflexivity.
Qed.

Lemma rev_involutive (s : string) : rev (rev s) = s.
Proof.
  induction s as [|c s IH]; [reflexivity | ].
  change (rev (String c s)) with (rev_onto s (String c "")).
  rewrite rev_onto_spec, rev_snoc, IH. reflexivity.
Qed.

Lemma length_rev (s : string) : String.length (rev s) = String.length s.
Proof.
  induction s as [|c s IH]; [reflexivity | ].
  change (rev (String c s)) with (rev_onto s (String c "")).
  rewrite rev_onto_spec, length_append, IH. cbn. lia.
Qed.

Lemma snoc_of_nonempty (s : string) :
  s <> "" -> exists (a : string) (c : ascii), s = a ++ String c "".
Proof.
  induction s as [|x s IH]; intros Hne; [congruence | ].
  destruct s as [|y s].
  - exists "", x. reflexivity.
  - destruct IH as (a & c & Heq); [discriminate | ].
    exists (String x a), c. cbn. now rewrite Heq.
Qed.

Lemma all_digits_append (a b : string) :
  all_digits (a ++ b) = all_digits a && all_digits b.
Proof.
  induction a as [|c a IH]; cbn; [reflexivity | ].
  rewrite IH. apply andb_assoc.
Qed.

(** No white space begins, and none ends, at a digit. *)
Lemma no_space_at_digit (c : ascii) (r : string) :
  is_digit c = true ->
  List.find (fun w => String.prefix w (String c r)) whitespace = None /\
  List.find (fun w => String.prefix w (String c r)) (map rev whitespace) = None.
Proof. intros H. digit_cases c H; split; vm_compute; reflexivity. Qed.

Lemma lstrip_digit (c : ascii) (r : string) :
  is_digit c = true -> lstrip (String c r) = String c r.
Proof.
  intros H. unfold lstrip. cbn [String.length lstrip_with].
  now rewrite (proj1 (no_space_at_digit c r H)).
Qed.

Lemma rstrip_digit (a : string) (c : ascii) :
  is_digit c = true -> rstrip (a ++ String c "") = a ++ String c "".
Proof.
  intros H. unfold rstrip. rewrite rev_snoc, length_append.
  replace (String.length a + String.length (String c ""))%nat
    with (S (String.length a)) by (cbn; lia).
  cbn [lstrip_with].
  rewrite (proj2 (no_space_at_digit c (rev a) H)).
  rewrite <- rev_snoc. apply rev_involutive.
Qed.

(** A text that begins and ends with a digit is its own [strip]. *)
Lemma strip_digits (c : ascii) (mid : string) (z : ascii) :
  is_digit c = true -> is_digit z = true ->
  strip (String c (mid ++ String z "")) = String c (mid ++ String z "").
Proof.
  intros Hc Hz. unfold strip. rewrite lstrip_digit by exact Hc.
  apply (rstrip_digit (String c mid) z Hz).
Qed.

Lemma absent_append (x : ascii) (a b : string) :
  absent x (a ++ b) = absent x a && absent x b.
Proof.
  induction a as [|c a IH]; cbn; [reflexivity | ].
  rewrite IH. apply andb_assoc.
Qed.

Lemma absent_digits (x : ascii) (s : string) :
  is_digit x = false -> all_digits s = true -> absent x s = true.
Proof.
  intros Hx. induction s as [|c s IH]; cbn; [reflexivity | ].
  intros H. apply andb_prop in H as [Hc Hs]. rewrite (IH Hs), andb_true_r.
  destruct (Ascii.eqb_spec x c) as [-> | _]; [congruence | reflexivity].
Qed.

(** Replacing leaves alone a text in which the first character of the
    pattern does not occur. *)
Lemma replace_absent (x : ascii) (old new s : string) :
  absent x s = true -> replace_from (String x old) new s 0 = s.
Proof.
  induction s as [|c s IH]; cbn [absent replace_from]; [reflexivity | ].
  intros H. apply andb_prop in H as [Hc Hs].
  cbn [String.prefix]. destruct (ascii_dec x c) as [-> | _].
  - rewrite Ascii.eqb_refl in Hc. discriminate.
  - now rewrite (IH Hs).
Qed.

Lemma replace_append_absent (x : ascii) (new a b : string) :
  absent x a = true ->
  replace_from (String x "") new (a ++ b) 0 =
  a ++ replace_from (String x "") new b 0.
Proof.
  induction a as [|c a IH]; cbn [absent append]; [reflexivity | ].
  intros H. apply andb_prop in H as [Hc Hs]. cbn [replace_from].
  rewrite prefix_single. destruct (ascii_dec x c) as [-> | _].
  - rewrite Ascii.eqb_refl in Hc. discriminate.
  - now rewrite (IH Hs).
Qed.

(** The answer [KF:<ip>,<fp>] loses its label and turns its comma into a
    point. *)
Lemma factor_text (ip fp : string) :
  all_digits ip = true -> all_digits fp = true ->
  replace "," "." (replace "KF:" "" ("KF:" ++ ip ++ "," ++ fp)) =
  ip ++ "." ++ fp.
Proof.
  intros Hip Hfp. unfold replace.
  cbn [append replace_from String.prefix String.length Nat.sub].
  destruct (ascii_dec "K" "K"); [ | congruence].
  destruct (ascii_dec "F" "F"); [ | congruence].
  destruct (ascii_dec ":" ":"); [ | congruence].
  rewrite prefix_nil. cbn [append].
  rewrite (replace_absent "K" "F:" "").
  - rewrite replace_append_absent by (apply absent_digits; [reflexivity | exact Hip]).
    cbn [append replace_from]. rewrite prefix_single.
    destruct (ascii_dec "," ","); [ | congruence].
    cbn [String.length Nat.sub append].
    rewrite (replace_absent "," "" ".") by (apply absent_digits; [reflexivity | exact Hfp]).
    reflexivity.
  - rewrite absent_append. cbn [absent].
    rewrite !absent_digits by (reflexivity || assumption). reflexivity.
Qed.

Lemma factor_counted (s : string) :
  (0 <? count "KF:" ("KF:" ++ s)) = true.
Proof.
  unfold count. cbn [append count_from String.prefix].
  destruct (ascii_dec "K" "K"); [ | congruence].
  destruct (ascii_dec "F" "F"); [ | congruence].
  destruct (ascii_dec ":" ":"); [ | congruence].
  rewrite prefix_nil. apply Z.ltb_lt. lia.
Qed.

(** A run of digits is read to its end. *)
Lemma digits_tail_run (a t : string) :
  all_digits a = true ->
  digits_tail t = ("", t) ->
  digits_tail (a ++ t) = (a, t).
Proof.
  intros Ha Ht. induction a as [|c a IH]; [exact Ht | ].
  cbn in Ha. apply andb_prop in Ha as [Hc Ha].
  cbn [append digits_tail]. rewrite Hc, (IH Ha). reflexivity.
Qed.

Lemma digitpart_run (a t : string) :
  digits a ->
  digits_tail t = ("", t) ->
  digitpart (a ++ t) = (a, t).
Proof.
  intros [Ha Hne] Ht. destruct a as [|c a]; [congruence | ].
  cbn in Ha. apply andb_prop in Ha as [Hc Ha].
  cbn [append digitpart]. rewrite Hc, (digits_tail_run a t Ha Ht). reflexivity.
Qed.

Lemma digit_is_no_sign (c : ascii) (r : string) :
  is_digit c = true -> split_sign (String c r) = (false, String c r).
Proof. intros H. digit_cases c H; reflexivity. Qed.

Lemma digit_is_no_word (c : ascii) (r : string) :
  is_digit c = true ->
  (String.eqb (lower_str (String c r)) "inf"
   || String.eqb (lower_str (String c r)) "infinity")%bool = false /\
  String.eqb (lower_str (String c r)) "nan" = false.
Proof. intros H. digit_cases c H; split; reflexivity. Qed.

(** [float] reads the text [<ip>.<fp>] as the binary64 value nearest to the
    decimal it writes. *)
Lemma float_of_decimal_text (ip fp : string) :
  digits ip -> digits fp ->
  float_of_str (ip ++ "." ++ fp) =
  Ok (float_of_decimal false (digits_value 0 (ip ++ fp))
        (- Z.of_nat (String.length fp))).
Proof.
  intros Hip Hfp.
  destruct Hip as [Hipd Hipn]. destruct Hfp as [Hfpd Hfpn].
  destruct ip as [|c ip]; [congruence | ].
  destruct (snoc_of_nonempty fp Hfpn) as (fp' & z & Hfp').
  assert (Hc : is_digit c = true) by (cbn in Hipd; now apply andb_prop in Hipd).
  assert (Hz : is_digit z = true).
  { rewrite Hfp', all_digits_append in Hfpd. apply andb_prop in Hfpd as [_ H].
    cbn in H. now rewrite andb_true_r in H. }
  unfold float_of_str.
  assert (Hstrip : strip (String c ip ++ "." ++ fp) = String c ip ++ "." ++ fp).
  { rewrite Hfp'. cbn [append].
    replace (ip ++ String "." (fp' ++ String z ""))
      with ((ip ++ String "." fp') ++ String z "")
      by (rewrite append_assoc; reflexivity).
    apply strip_digits; assumption. }
  rewrite Hstrip. cbn [append]. rewrite (digit_is_no_sign c _ Hc).
  destruct (digit_is_no_word c (ip ++ String "." fp) Hc) as [Hinf Hnan].
  rewrite Hinf, Hnan.
  change (String c (ip ++ String "." fp)) with (String c ip ++ String "." fp).
  rewrite (digitpart_run (String c ip) (String "." fp));
    [ | split; [exact Hipd | discriminate] | reflexivity].
  cbn [Ascii.eqb Bool.eqb].
  rewrite <- (append_nil_r fp) at 1.
  rewrite (digitpart_run fp ""); [ | split; assumption | reflexivity].
  cbn [append]. f_equal.
Qed.

End DecimalText.

(** C2, as stated, fails on the code: the answer [OK KF:1,023] contains
    [KF:] followed by a comma-decimal float, and the wavelength 660 lies in
    the detector range, yet the call raises [ValueError] and the correction
    factor stays what it was instead of becoming 1.023.  [float] is given
    the whole answer less its label, [OK 1.023], not the number alone. *)
Lemma opm_set_wavelength_embedded_factor_counterexample :
  let self := connected 200 1100 ["OK KF:1,023"] in
  received "OK KF:1,023" = "OK " ++ "KF:" ++ "1,023" /\
  in_range 660 200 (1100 + 1) = true /\
  fst (opm_set_wavelength 660 self) = Raise ValueError /\
  _sensitivity (snd (opm_set_wavelength 660 self)) = _sensitivity self /\
  float_of_str "1.023" <> Ok (_sensitivity self).
Proof.
  cbv zeta. repeat split; try (vm_compute; reflexivity).
  intros H.
  assert (Heq : match float_of_str "1.023" with
                | Ok f => PrimFloat.eqb f 1.0%float
                | Raise _ => false
                end = true) by (rewrite H; reflexivity).
  vm_compute in Heq. discriminate.
Qed.

(** C2, amended: with the port open and the detector range known, for every
    wavelength [w] within the range, an answer that is [KF:] followed by a
    comma-decimal float, digits on both sides of the comma, makes
    [opm_set_wavelength(w)] succeed, a subsequent [opm_get_wavelength]
    return [w], and the correction factor become the float that the number
    denotes once its comma is a point; for every [w] outside the range the
    call fails, writes nothing and leaves the object as it was. *)
Theorem opm_set_wavelength_roundtrip (self : OPM500) (d : ftd2xx)
    (msg : string) (rest : list string) (wavelength lo hi : Z) :
  _device self = Some d ->
  rx d = msg :: rest ->
  _opm_detector_min_wavelength self = Some lo ->
  _opm_detector_max_wavelength self = Some hi ->
  (lo <= wavelength <= hi ->
   forall ip fp : string,
     digits ip -> digits fp ->
     received msg = "KF:" ++ ip ++ "," ++ fp ->
     exists kf : float,
       float_of_str (ip ++ "." ++ fp) = Ok kf /\
       kf = float_of_decimal false (digits_value 0 (ip ++ fp))
              (- Z.of_nat (String.length fp)) /\
       fst (opm_set_wavelength wavelength self) = Ok true /\
       fst (opm_get_wavelength (snd (opm_set_wavelength wavelength self))) =
         Ok wavelength /\
       _sensitivity (snd (opm_set_wavelength wavelength self)) = kf) /\
  (~ lo <= wavelength <= hi ->
   opm_set_wavelength wavelength self = (Ok false, self)).
Proof.
  intros Hd Hrx Hlo Hhi.
  rewrite (set_wavelength_run _ _ _ _ Hd Hrx _ _ _ Hlo Hhi). split.
  - intros Hin ip fp Hip Hfp Hack.
    assert (Hrange : in_range wavelength lo (hi + 1) = true).
    { unfold in_range. apply andb_true_intro. split;
        [apply Z.leb_le | apply Z.ltb_lt]; lia. }
    rewrite Hrange. cbv zeta. rewrite Hack, factor_counted.
    rewrite (factor_text ip fp (proj1 Hip) (proj1 Hfp)).
    pose proof (float_of_decimal_text ip fp Hip Hfp) as Hfloat.
    assert (Hstrip : strip (ip ++ "." ++ fp) = ip ++ "." ++ fp).
    { destruct Hip as [Hipd Hipn]. destruct Hfp as [Hfpd Hfpn].
      destruct ip as [|c ip]; [congruence | ].
      destruct (snoc_of_nonempty fp Hfpn) as (fp' & z & ->).
      cbn in Hipd. apply andb_prop in Hipd as [Hc _].
      rewrite all_digits_append in Hfpd. apply andb_prop in Hfpd as [_ Hz].
      cbn in Hz. rewrite andb_true_r in Hz.
      cbn [append].
      replace (ip ++ String "." (fp' ++ String z ""))
        with ((ip ++ String "." fp') ++ String z "")
        by (rewrite append_assoc; reflexivity).
      apply strip_digits; assumption. }
    rewrite Hstrip, Hfloat.
    eexists. repeat split; reflexivity.
  - intros Hout.
    assert (Hrange : in_range wavelength lo (hi + 1) = false).
    { unfold in_range. apply andb_false_iff.
      destruct (Z.leb_spec lo wavelength); [right | left; reflexivity].
      apply Z.ltb_ge. lia. }
    rewrite Hrange. reflexivity.
Qed.

(** The wavelength 660 with the answer [KF:1,023]. *)
Lemma opm_set_wavelength_roundtrip_witness :
  let self := connected 200 1100 ["KF:1,023"] in
  _device self = Some {| tx := []; rx := ["KF:1,023"] |} /\
  200 <= 660 <= 1100 /\
  (exists kf : float,
      float_of_str ("1" ++ "." ++ "023") = Ok kf /\
      kf = float_of_decimal false (digits_value 0 ("1" ++ "023"))
             (- Z.of_nat (String.length "023")) /\
      fst (opm_set_wavelength 660 self) = Ok true /\
      fst (opm_get_wavelength (snd (opm_set_wavelength 660 self))) = Ok 660 /\
      _sensitivity (snd (opm_set_wavelength 660 self)) = kf).
Proof.
  cbv zeta.
  destruct (opm_set_wavelength_roundtrip (connected 200 1100 ["KF:1,023"])
              {| tx := []; rx := ["KF:1,023"] |} "KF:1,023" [] 660 200 1100
              eq_refl eq_refl eq_refl eq_refl) as [Hin _].
  split; [reflexivity | ]. split; [lia | ].
  apply (Hin ltac:(lia) "1" "023").
  - split; [reflexivity | discriminate].
  - split; [reflexivity | discriminate].
  - reflexivity.
Defined.

(* ===================================================================== *)
(** * The automatic gain search *)
(* ===================================================================== *)

Section Bounded.

Local Open Scope nat_scope.

Variable select : string -> bool.

Lemma tally_app (a b : list string) :
  tally select (a ++ b) = tally select a + tally select b.
Proof. unfold tally. now rewrite filter_app, length_app. Qed.

Lemma bounded_weaken {A : Type} (m : M A) (n n' : nat) :
  n <= n' -> bounded select m n -> bounded select m n'.
Proof.
  intros Hle Hm self. destruct (Hm self) as (Hr & l & Hl & Hn).
  split; [exact Hr | exists l; split; [exact Hl | lia]].
Qed.

(** A run that writes nothing. *)
Lemma bounded_silent {A : Type} (m : M A) (n : nat) :
  (forall self, fst (m self) <> Raise RecursionError /\
                tx_of (snd (m self)) = tx_of self) ->
  bounded select m n.
Proof.
  intros H self. destruct (H self) as [Hr Htx]. split; [exact Hr | ].
  exists []. split; [now rewrite Htx, app_nil_r | cbn; lia].
Qed.

Lemma bounded_ret {A : Type} (a : A) (n : nat) : bounded select (ret a) n.
Proof. apply bounded_silent. intros self. split; [discriminate | reflexivity]. Qed.

Lemma bounded_raise {A : Type} (e : exn) (n : nat) :
  e <> RecursionError -> bounded select (@raise A e) n.
Proof.
  intros He. apply bounded_silent. intros self.
  split; [cbn; congruence | reflexivity].
Qed.

Lemma bounded_get_self (n : nat) : bounded select get_self n.
Proof. apply bounded_silent. intros self. split; [discriminate | reflexivity]. Qed.

Lemma bounded_assign (f : OPM500 -> OPM500) (n : nat) :
  (forall self, _device (f self) = _device self) ->
  bounded select (assign f) n.
Proof.
  intros Hf. apply bounded_silent. intros self.
  split; [discriminate | ]. unfold tx_of. cbn. now rewrite Hf.
Qed.

Lemma bounded_bind {A B : Type} (m : M A) (f : A -> M B) (n1 n2 n : nat) :
  bounded select m n1 ->
  (forall a, bounded select (f a) n2) ->
  n1 + n2 <= n ->
  bounded select (bind m f) n.
Proof.
  intros Hm Hf Hsum self. unfold bind.
  destruct (Hm self) as (Hr & l1 & Hl1 & Hn1).
  destruct (m self) as [[a | e] s1]; cbn [fst snd] in *.
  - destruct (Hf a s1) as (Hr2 & l2 & Hl2 & Hn2).
    split; [exact Hr2 | ].
    exists (l1 ++ l2)%list. rewrite Hl2, Hl1, <- app_assoc, tally_app.
    split; [reflexivity | lia].
  - split; [intros H; apply Hr; congruence | ].
    exists l1. split; [exact Hl1 | lia].
Qed.

Lemma bounded_then {A B : Type} (m : M A) (f : A -> M B) (n : nat) :
  bounded select m 0 ->
  (forall a, bounded select (f a) n) ->
  bounded select (bind m f) n.
Proof. intros Hm Hf. apply (bounded_bind m f 0 n n Hm Hf). lia. Qed.

Lemma bounded_eval_then {A B : Type} (r : result A) (f : A -> M B) (n : nat) :
  r <> Raise RecursionError ->
  (forall a, r = Ok a -> bounded select (f a) n) ->
  bounded select (bind (eval r) f) n.
Proof.
  intros Hr Hf self. rewrite bind_eval. destruct r as [a | e].
  - exact (Hf a eq_refl self).
  - split; [cbn; congruence | ].
    exists []. split; [now rewrite app_nil_r | cbn; lia].
Qed.

Lemma bounded_if {A : Type} (b : bool) (m1 m2 : M A) (n : nat) :
  bounded select m1 n -> bounded select m2 n ->
  bounded select (if b then m1 else m2) n.
Proof. destruct b; auto. Qed.

Lemma bounded_send (msg : string) :
  bounded select (_opm_send msg) (if select msg then 1 else 0).
Proof.
  intros self. unfold _opm_send, tx_of.
  destruct (_device self) as [d | ] eqn:Hd; cbn [fst snd _device put_device].
  - split; [discriminate | ]. exists [msg]. split; [reflexivity | ].
    unfold tally. cbn [filter].
    destruct (select msg); cbn [List.length]; lia.
  - rewrite Hd. split; [discriminate | ]. exists [].
    split; [reflexivity | unfold tally; cbn [filter List.length]; lia].
Qed.

Lemma bounded_recv (n : nat) : bounded select _opm_recv n.
Proof.
  apply bounded_silent. intros self. unfold _opm_recv, tx_of.
  destruct (_device self) as [d | ] eqn:Hd;
    [destruct (rx d) as [|msg rest] | ]; cbn [fst snd _device put_device];
    rewrite ?Hd; (split; [discriminate | reflexivity]).
Qed.

End Bounded.

Section BoundedMethods.

Local Open Scope nat_scope.

(** The builtins raise what they raise, and never [RecursionError]. *)
Lemma getitem_no_recursion (d : dict) (k : string) :
  getitem d k <> Raise RecursionError.
Proof.
  induction d as [|[k' v] d IH]; cbn; [discriminate | ].
  destruct (String.eqb k k'); [discriminate | exact IH].
Qed.

Lemma item_no_recursion {A : Type} (l : list A) (i : nat) :
  item l i <> Raise RecursionError.
Proof. unfold item. destruct (nth_error l i); discriminate. Qed.

Lemma int_of_str_no_recursion (s : string) :
  int_of_str s <> Raise RecursionError.
Proof.
  unfold int_of_str. destruct (split_sign _) as [neg body].
  destruct (digitpart body) as [[|c ds] [|x rest]]; discriminate.
Qed.

Lemma float_of_str_no_recursion (s : string) :
  float_of_str s <> Raise RecursionError.
Proof.
  unfold float_of_str. destruct (split_sign _) as [neg body].
  destruct (_ || _)%bool; [discriminate | ].
  destruct (String.eqb _ "nan"); [discriminate | ].
  destruct (digitpart body) as [ip r1].
  destruct (match r1 with EmptyString => _ | String _ _ => _ end) as [fp r2].
  destruct (ip ++ fp)%string; [discriminate | ].
  destruct r2 as [|c r3]; [discriminate | ].
  destruct (_ || _)%bool; [ | discriminate].
  destruct (split_sign r3) as [eneg r4].
  destruct (digitpart r4) as [[|x ep] [|y r5]]; discriminate.
Qed.

Lemma int_gt_no_recursion (a : option Z) (b : Z) :
  int_gt a b <> Raise RecursionError.
Proof. destruct a; discriminate. Qed.

Lemma int_lt_no_recursion (a : option Z) (b : Z) :
  int_lt a b <> Raise RecursionError.
Proof. destruct a; discriminate. Qed.

Lemma int_add_no_recursion (a : option Z) (b : Z) :
  int_add a b <> Raise RecursionError.
Proof. destruct a; discriminate. Qed.

(** The codes of the gain table, one by one. *)
Lemma gain_code_cases (name code : string) (P : string -> Prop) :
  getitem _gain_steps name = Ok code ->
  P "V1" -> P "V2" -> P "V3" -> P "V4" -> P "V5" -> P "V6" -> P "auto-gain" ->
  P code.
Proof.
  unfold _gain_steps. cbn [getitem].
  repeat (destruct (String.eqb name _);
          [intros H; injection H as <-; intros; assumption | ]).
  discriminate.
Qed.

(** What is counted: [select] picks the messages, a gain command costs
    [gain_cost] and a raw-measurement request [measure_cost], and the two
    together cost one. *)
Variable select : string -> bool.
Variable gain_cost measure_cost : nat.
Hypothesis gain_costs :
  forall name code,
    getitem _gain_steps name = Ok code ->
    (if select code then 1 else 0) <= gain_cost.
Hypothesis query_free : select "V?" = false.
Hypothesis measure_costs : (if select "$E" then 1 else 0) <= measure_cost.
Hypothesis adjustment_costs : gain_cost + measure_cost <= 1.

Lemma bounded_set_gain (gain : str_or GAIN) :
  bounded select (opm_set_gain gain) gain_cost.
Proof.
  unfold opm_set_gain. cbv zeta.
  apply bounded_if; [apply bounded_raise; discriminate | ].
  apply bounded_if.
  { apply bounded_then; [apply bounded_assign; reflexivity | intros _].
    apply bounded_ret. }
  apply bounded_eval_then; [apply getitem_no_recursion | intros code Hcode].
  apply (bounded_bind select _ _ gain_cost 0); [ | | lia].
  { eapply bounded_weaken; [ | apply bounded_send]. exact (gain_costs _ _ Hcode). }
  intros _. apply bounded_then; [apply bounded_recv | intros recv].
  apply bounded_eval_then; [apply getitem_no_recursion | intros code' _].
  apply bounded_if; [ | apply bounded_ret].
  apply bounded_then; [apply bounded_get_self | intros self].
  apply bounded_then.
  { apply bounded_if; [apply bounded_assign; reflexivity | apply bounded_ret]. }
  intros _.
  apply bounded_eval_then; [apply getitem_no_recursion | intros code'' _].
  apply bounded_eval_then; [apply int_of_str_no_recursion | intros level _].
  apply bounded_then; [apply bounded_assign; reflexivity | intros _].
  apply bounded_ret.
Qed.

Lemma bounded_get_gain : bounded select opm_get_gain 0.
Proof.
  unfold opm_get_gain.
  apply bounded_then.
  { generalize (bounded_send select "V?"). now rewrite query_free. }
  intros _. apply bounded_then; [apply bounded_recv | intros received].
  cbv zeta.
  apply bounded_eval_then; [apply item_no_recursion | intros first _].
  apply bounded_if; [ | apply bounded_ret].
  apply bounded_eval_then; [apply item_no_recursion | intros second _].
  apply bounded_if; [ | apply bounded_ret].
  apply bounded_then; [apply bounded_get_self | intros self].
  apply bounded_then.
  { apply bounded_if; [ | apply bounded_ret].
    apply bounded_eval_then; [apply getitem_no_recursion | intros name _].
    apply bounded_assign; reflexivity. }
  intros _.
  apply bounded_eval_then; [apply getitem_no_recursion | intros name _].
  apply bounded_eval_then; [apply getitem_no_recursion | intros code _].
  apply bounded_eval_then; [apply int_of_str_no_recursion | intros level _].
  apply bounded_then; [apply bounded_assign; reflexivity | intros _].
  apply bounded_eval_then; [apply getitem_no_recursion | intros name' _].
  apply bounded_ret.
Qed.

Lemma bounded_measure : bounded select opm_get_single_raw_measure measure_cost.
Proof.
  unfold opm_get_single_raw_measure.
  apply (bounded_bind select _ _ measure_cost 0); [ | | lia].
  { eapply bounded_weaken; [ | apply bounded_send]. exact measure_costs. }
  intros _. apply bounded_then; [apply bounded_recv | intros recv].
  apply bounded_ret.
Qed.

Lemma bounded_apply_tracked_gain : bounded select apply_tracked_gain gain_cost.
Proof.
  unfold apply_tracked_gain.
  apply bounded_then; [apply bounded_get_self | intros self]. cbv zeta.
  apply bounded_eval_then; [apply getitem_no_recursion | intros name _].
  apply bounded_set_gain.
Qed.

(** One adjustment: the tracked level is replaced, the gain is applied and
    the instrument is asked again. *)
Lemma bounded_adjustment (level : Z) (next : string -> M string) (n : nat) :
  (forall measure, bounded select (next measure) n) ->
  bounded select
    (assign (put_autogain_gain (Some level)) ;;
     _ <- apply_tracked_gain ;;
     measure <- opm_get_single_raw_measure ;;
     next measure)%opm (S n).
Proof.
  intros Hnext.
  apply bounded_then; [apply bounded_assign; reflexivity | intros _].
  apply (bounded_bind select _ _ gain_cost (measure_cost + n));
    [apply bounded_apply_tracked_gain | intros _ | lia].
  apply (bounded_bind select _ _ measure_cost n);
    [apply bounded_measure | exact Hnext | lia].
Qed.

(** The search from depth [recursion]: enough fuel is one call more than
    the depths left below the cap, and the adjustments are as many as those
    depths at most. *)
Lemma bounded_autogain (fuel : nat) :
  forall (tmp_amplitude : string) (recursion last_operation : Z),
    1 <= fuel ->
    Z.to_nat (len_gain_steps + 1 - recursion) <= fuel ->
    bounded select
      (_opm_autogain_fuel fuel tmp_amplitude recursion last_operation)
      (Z.to_nat (len_gain_steps - recursion)).
Proof.
  induction fuel as [|fuel IH]; intros amplitude recursion last Hone Hfuel;
    [lia | ].
  cbn [_opm_autogain_fuel]. unfold autogain_body.
  destruct (Z.leb_spec len_gain_steps recursion) as [Hcap | Hdeep];
    [apply bounded_ret | ].
  change len_gain_steps with 7%Z in *.
  assert (Hnext : forall (measure : string) (last' : Z),
             bounded select
               (_opm_autogain_fuel fuel measure (recursion + 1) last')
               (Z.to_nat (7 - recursion) - 1)).
  { intros measure last'.
    apply (bounded_weaken select _ (Z.to_nat (7 - (recursion + 1)))); [lia | ].
    apply IH; lia. }
  assert (Hstop : forall (measure : string) (last' : Z),
             bounded select (_opm_autogain_fuel fuel measure (7 + 1) last')
               (Z.to_nat (7 - recursion) - 1)).
  { intros measure last'.
    apply (bounded_weaken select _ (Z.to_nat (7 - (7 + 1)))); [lia | ].
    apply IH; lia. }
  assert (Hsucc : S (Z.to_nat (7 - recursion) - 1) = Z.to_nat (7 - recursion))
    by lia.
  apply bounded_then; [apply bounded_get_self | intros self].
  apply bounded_then.
  { destruct (_autogain_gain self); [apply bounded_ret | ].
    apply bounded_then; [apply bounded_get_gain | intros _]. apply bounded_ret. }
  intros _.
  apply bounded_eval_then; [apply float_of_str_no_recursion | intros x _].
  apply bounded_then; [apply bounded_get_self | intros self']. cbv zeta.
  apply bounded_eval_then.
  { destruct (_ <? _)%float; [apply int_gt_no_recursion | discriminate]. }
  intros too_high _. destruct too_high.
  - apply bounded_eval_then; [apply int_add_no_recursion | intros lower _].
    rewrite <- Hsucc. apply bounded_adjustment. intros measure. apply Hnext.
  - apply bounded_eval_then.
    { destruct (_ <? _)%float; [apply int_lt_no_recursion | discriminate]. }
    intros too_low _. destruct too_low; [ | apply bounded_ret].
    apply bounded_eval_then; [apply int_add_no_recursion | intros higher _].
    rewrite <- Hsucc. apply bounded_adjustment. intros measure.
    destruct (last =? 1)%Z; [apply Hstop | apply Hnext].
Qed.

End BoundedMethods.

(** The two ways to count an adjustment: by its raw-measurement request and
    by its gain command. *)
Lemma requeries_bounded (tmp_amplitude : string) :
  bounded is_requery (_opm_autogain_fuel 8 tmp_amplitude 0 0) 7.
Proof.
  assert (Hgain : forall name code,
             getitem _gain_steps name = Ok code ->
             ((if is_requery code then 1 else 0) <= 0)%nat).
  { intros name code Hcode.
    apply (gain_code_cases name code
             (fun c => ((if is_requery c then 1 else 0) <= 0)%nat) Hcode);
      cbn; lia. }
  assert (Hmeasure : ((if is_requery "$E" then 1 else 0) <= 1)%nat)
    by (cbn; lia).
  apply (bounded_autogain is_requery 0 1 Hgain eq_refl Hmeasure (le_n 1) 8).
  - lia.
  - change len_gain_steps with 7. lia.
Qed.

Lemma gain_commands_bounded (tmp_amplitude : string) :
  bounded is_gain_command (_opm_autogain_fuel 8 tmp_amplitude 0 0) 7.
Proof.
  assert (Hgain : forall name code,
             getitem _gain_steps name = Ok code ->
             ((if is_gain_command code then 1 else 0) <= 1)%nat).
  { intros name code _. destruct (is_gain_command code); lia. }
  assert (Hmeasure : ((if is_gain_command "$E" then 1 else 0) <= 0)%nat)
    by (cbn; lia).
  apply (bounded_autogain is_gain_command 1 0 Hgain eq_refl Hmeasure (le_n 1) 8).
  - lia.
  - change len_gain_steps with 7. lia.
Qed.


Section Autogain.


Lemma bind_ext {A B : Type} (m : M A) (f g : A -> M B) (self : OPM500) :
  (forall a s, f a s = g a s) -> bind m f self = bind m g self.
Proof.
  intros H. unfold bind. destruct (m self) as [[a | e] s]; [apply H | reflexivity].
Qed.

(** The body asks only for the calls at the next depth and at the stop
    depth. *)
Lemma autogain_body_ext (f g : string -> Z -> Z -> M string)
    (tmp_amplitude : string) (recursion last_operation : Z) (self : OPM500) :
  (forall measure last s,
      f measure (recursion + 1) last s = g measure (recursion + 1) last s) ->
  (forall measure last s,
      f measure (len_gain_steps + 1) last s =
      g measure (len_gain_steps + 1) last s) ->
  autogain_body f tmp_amplitude recursion last_operation self =
  autogain_body g tmp_amplitude recursion last_operation self.
Proof.
  intros Hnext Hstop. unfold autogain_body.
  destruct (len_gain_steps <=? recursion); [reflexivity | ].
  apply bind_ext. intros self0 s0.
  apply bind_ext. intros _ s1.
  apply bind_ext. intros amplitude s2.
  apply bind_ext. intros self1 s3. cbv zeta.
  apply bind_ext. intros too_high s4. destruct too_high.
  - apply bind_ext. intros lower s5.
    apply bind_ext. intros _ s6.
    apply bind_ext. intros _ s7.
    apply bind_ext. intros measure s8. apply Hnext.
  - apply bind_ext. intros too_low s5. destruct too_low; [ | reflexivity].
    apply bind_ext. intros higher s6.
    apply bind_ext. intros _ s7.
    apply bind_ext. intros _ s8.
    apply bind_ext. intros measure s9.
    destruct (last_operation =? 1); [apply Hstop | apply Hnext].
Qed.

(** Fuel beyond one call more than the depths left changes nothing. *)
Lemma autogain_fuel_enough (fuel : nat) :
  forall (tmp_amplitude : string) (recursion last_operation : Z)
         (self : OPM500),
    (1 <= fuel)%nat ->
    (Z.to_nat (len_gain_steps + 1 - recursion) <= fuel)%nat ->
    _opm_autogain_fuel (S fuel) tmp_amplitude recursion last_operation self =
    _opm_autogain_fuel fuel tmp_amplitude recursion last_operation self.
Proof.
  induction fuel as [|fuel IH]; intros amplitude recursion last self Hone Hfuel;
    [lia | ].
  change (_opm_autogain_fuel (S (S fuel)))
    with (autogain_body (_opm_autogain_fuel (S fuel))).
  change (_opm_autogain_fuel (S fuel))
    with (autogain_body (_opm_autogain_fuel fuel)) at 2.
  destruct (Z.leb_spec len_gain_steps recursion) as [Hcap | Hdeep].
  - unfold autogain_body.
    now rewrite (proj2 (Z.leb_le len_gain_steps recursion) Hcap).
  - change len_gain_steps with 7 in *.
    apply autogain_body_ext; intros measure last' s; apply IH;
      change len_gain_steps with 7; lia.
Qed.

Lemma autogain_depth (extra : nat) (tmp_amplitude : string) (self : OPM500) :
  _opm_autogain_fuel (8 + extra) tmp_amplitude 0 0 self =
  _opm_autogain_fuel 8 tmp_amplitude 0 0 self.
Proof.
  induction extra as [|extra IH]; [now rewrite Nat.add_0_r | ].
  rewrite Nat.add_succ_r, autogain_fuel_enough; [exact IH | lia | ].
  change len_gain_steps with 7. lia.
Qed.


(** C3, as stated, fails on the code: the cap on the depth is the length of
    the gain table, which has seven entries, the six levels and [auto-gain].
    From level 1, five readings too low and two too high make the search
    adjust the gain seven times, up to level 6 and down to level 4, before it
    returns. *)
Lemma autogain_seven_adjustments_counterexample :
  let self :=
    put_gain "auto-gain"
      (connected 200 1100
         ["V2 OK"; "I0,0nA"; "V3 OK"; "I0,0nA"; "V4 OK"; "I0,0nA";
          "V5 OK"; "I0,0nA"; "V6 OK"; "I2000,0nA"; "V5 OK"; "I2000,0nA";
          "V4 OK"; "I2000,0nA"]) in
  fst (_opm_autogain "0,0nA" 0 0 self) = Ok "2000,0nA" /\
  tx_of (snd (_opm_autogain "0,0nA" 0 0 self)) =
    ["V2"; "$E"; "V3"; "$E"; "V4"; "$E"; "V5"; "$E"; "V6"; "$E";
     "V5"; "$E"; "V4"; "$E"] /\
  _autogain_gain (snd (_opm_autogain "0,0nA" 0 0 self)) = Some 4 /\
  requeries (tx_of (snd (_opm_autogain "0,0nA" 0 0 self))) = 7%nat /\
  gain_commands (tx_of (snd (_opm_autogain "0,0nA" 0 0 self))) = 7%nat /\
  ~ (requeries (tx_of (snd (_opm_autogain "0,0nA" 0 0 self))) <= 6)%nat.
Proof.
  cbv zeta. repeat split; try (vm_compute; reflexivity).
  vm_compute. lia.
Qed.

(** C3, amended: for every object, and so for every sequence of readings
    the instrument supplies, [_opm_autogain] returns without exhausting the
    depth of nested calls: eight nested calls, the first and seven below it,
    are all it ever needs.  It performs at most seven adjustments: it
    writes at most seven gain commands and at most seven raw-measurement
    requests.  Seven is the length of the gain table, which holds the six
    levels and [auto-gain]. *)
Theorem autogain_adjustments_bounded (self : OPM500) (tmp_amplitude : string) :
  fst (_opm_autogain tmp_amplitude 0 0 self) <> Raise RecursionError /\
  _opm_autogain tmp_amplitude 0 0 self =
    _opm_autogain_fuel 8 tmp_amplitude 0 0 self /\
  exists l : list string,
    tx_of (snd (_opm_autogain tmp_amplitude 0 0 self)) = (tx_of self ++ l)%list /\
    (gain_commands l <= 7)%nat /\
    (requeries l <= 7)%nat.
Proof.
  assert (Hdepth : _opm_autogain tmp_amplitude 0 0 self =
                   _opm_autogain_fuel 8 tmp_amplitude 0 0 self).
  { unfold _opm_autogain.
    change recursion_limit with (8 + 992)%nat. apply autogain_depth. }
  rewrite Hdepth.
  destruct (requeries_bounded tmp_amplitude self) as (Hfuel & l & Hl & Hrequeries).
  destruct (gain_commands_bounded tmp_amplitude self) as (_ & l' & Hl' & Hgains).
  assert (l' = l) by (rewrite Hl in Hl'; now apply app_inv_head in Hl').
  subst l'.
  split; [exact Hfuel | split; [reflexivity | ]].
  exists l. repeat split; assumption.
Qed.





End Autogain.

(* ===================================================================== *)
(** * A closed port and a silent instrument *)
(* ===================================================================== *)

Section Misuse.

Local Open Scope opm_scope.

Lemma exchange_closed {B : Type} (cmd : string) (k : Datatypes.unit -> M B)
    (self : OPM500) :
  _device self = None ->
  (x <- _opm_send cmd ;; k x) self =
  (Raise (Exception "Send error: port not open."), self).
Proof. intros H. unfold bind, _opm_send. rewrite H. reflexivity. Qed.

Lemma recv_put_silent (dd : ftd2xx) (s : OPM500) :
  rx dd = [] ->
  _opm_recv (put_device (Some dd) s) = (Raise TimeoutError, put_device (Some dd) s).
Proof. intros R. unfold _opm_recv. cbn. rewrite R. reflexivity. Qed.

Lemma exchange_silent {A : Type} (cmd : string) (k : string -> M A)
    (self : OPM500) (d : ftd2xx) :
  _device self = Some d ->
  rx d = [] ->
  (_opm_send cmd ;; recv <- _opm_recv ;; k recv) self =
  (Raise TimeoutError,
   put_device (Some {| tx := tx d ++ [cmd]; rx := [] |}) self).
Proof.
  intros Hd R. unfold bind at 1. rewrite (send_open _ _ Hd).
  unfold bind at 1. rewrite recv_put_silent by exact R.
  rewrite R. reflexivity.
Qed.

End Misuse.

(** X1: on an object whose port is not open, every method that talks to the
    instrument raises the exception of [_opm_send] and leaves the object as
    it was: the queries, the setters called with a valid argument, and both
    measurement methods. *)
Theorem closed_port_raises (log10 : float -> float) (self : OPM500) :
  _device self = None ->
  port_not_open opm_get_info self /\
  port_not_open opm_is_polarity_inverted self /\
  (forall b : bool, port_not_open (opm_set_polarity b) self) /\
  port_not_open opm_get_bandwith self /\
  (forall (bandwith : str_or BANDWITH) (code : string),
     In (bandwith_name bandwith, code) _bandwith_steps ->
     port_not_open (opm_set_bandwith bandwith) self) /\
  port_not_open opm_get_gain self /\
  (forall (gain : str_or GAIN) (code : string),
     In (gain_name gain, code) _gain_steps ->
     gain_name gain <> "auto-gain" ->
     port_not_open (opm_set_gain gain) self) /\
  (forall wavelength lo hi : Z,
     _opm_detector_min_wavelength self = Some lo ->
     _opm_detector_max_wavelength self = Some hi ->
     lo <= wavelength <= hi ->
     port_not_open (opm_set_wavelength wavelength) self) /\
  port_not_open opm_set_auto_zero self /\
  port_not_open opm_set_auto_zero_reset self /\
  port_not_open opm_get_single_raw_measure self /\
  port_not_open (opm_get_measurement log10) self.
Proof.
  intros Hd. unfold port_not_open.
  refine (conj _ (conj _ (conj _ (conj _ (conj _ (conj _ (conj _
            (conj _ (conj _ (conj _ (conj _ _))))))))))).
  - apply exchange_closed, Hd.
  - apply exchange_closed, Hd.
  - intros b. apply exchange_closed, Hd.
  - apply exchange_closed, Hd.
  - intros bandwith code Hin.
    destruct (bandwith_steps_entry _ _ Hin) as [Hkey Hget].
    unfold opm_set_bandwith. fold (bandwith_name bandwith).
    rewrite Hkey. cbn [negb]. rewrite bind_eval, Hget.
    apply exchange_closed, Hd.
  - apply exchange_closed, Hd.
  - intros gain code Hin Hfixed.
    destruct (gain_steps_entry _ _ Hin) as [Hkey Hget].
    unfold opm_set_gain. fold (gain_name gain).
    rewrite Hkey, (eqb_false_of_neq _ _ Hfixed). cbn [negb].
    rewrite bind_eval, Hget.
    apply exchange_closed, Hd.
  - intros w lo hi Hlo Hhi Hrange. unfold opm_set_wavelength.
    rewrite bind_get_self, Hlo, Hhi.
    replace (in_range w lo (hi + 1)) with true
      by (symmetry; unfold in_range; apply andb_true_iff; split;
          [apply Z.leb_le | apply Z.ltb_lt]; lia).
    cbn [negb]. apply exchange_closed, Hd.
  - apply exchange_closed, Hd.
  - apply exchange_closed, Hd.
  - apply exchange_closed, Hd.
  - unfold opm_get_measurement, opm_get_single_raw_measure.
    rewrite bind_bind. apply exchange_closed, Hd.
Qed.

(** The object [__init__] builds has no port open; its detector range is not
    known yet, so the wavelength is left aside. *)
Lemma closed_port_raises_witness :
  port_not_open opm_get_info __init__ /\
  port_not_open (opm_get_measurement (fun x : float => x)) __init__.
Proof.
  destruct (closed_port_raises (fun x : float => x) __init__ eq_refl)
    as (H1 & _ & _ & _ & _ & _ & _ & _ & _ & _ & _ & H12).
  split; assumption.
Defined.

(** X2: when the port is open and the instrument stays silent, every method
    that waits for an answer raises [TimeoutError] once its command is
    written, and changes nothing else in the object. *)
Theorem silent_instrument_times_out (log10 : float -> float)
    (self : OPM500) (d : ftd2xx) :
  _device self = Some d ->
  rx d = [] ->
  times_out ["$I"] opm_get_info self d /\
  times_out ["$F"] opm_is_polarity_inverted self d /\
  (forall b : bool,
     times_out [if b then "$C" else "$N"] (opm_set_polarity b) self d) /\
  times_out ["B?"] opm_get_bandwith self d /\
  (forall (bandwith : str_or BANDWITH) (code : string),
     In (bandwith_name bandwith, code) _bandwith_steps ->
     times_out [code] (opm_set_bandwith bandwith) self d) /\
  times_out ["V?"] opm_get_gain self d /\
  (forall (gain : str_or GAIN) (code : string),
     In (gain_name gain, code) _gain_steps ->
     gain_name gain <> "auto-gain" ->
     times_out [code] (opm_set_gain gain) self d) /\
  (forall wavelength lo hi : Z,
     _opm_detector_min_wavelength self = Some lo ->
     _opm_detector_max_wavelength self = Some hi ->
     lo <= wavelength <= hi ->
     times_out ("L" :: chars (zfill 4 (str_of_int wavelength)))
       (opm_set_wavelength wavelength) self d) /\
  times_out ["$A"] opm_set_auto_zero self d /\
  times_out ["$R"] opm_set_auto_zero_reset self d /\
  times_out ["$E"] opm_get_single_raw_measure self d /\
  times_out ["$E"] (opm_get_measurement log10) self d.
Proof.
  intros Hd Hrx. unfold times_out.
  refine (conj _ (conj _ (conj _ (conj _ (conj _ (conj _ (conj _
            (conj _ (conj _ (conj _ (conj _ _))))))))))).
  - unfold opm_get_info.
    rewrite <- (exchange_silent "$I" (fun r => ret r) self d Hd Hrx).
    unfold bind. destruct (_opm_send "$I" self) as [[u|e] s]; [ | reflexivity].
    destruct (_opm_recv s) as [[r|e] s']; reflexivity.
  - apply (exchange_silent _ _ _ _ Hd Hrx).
  - intros b. unfold opm_set_polarity.
    destruct b; cbn [Bool.eqb]; cbv zeta; apply (exchange_silent _ _ _ _ Hd Hrx).
  - apply (exchange_silent _ _ _ _ Hd Hrx).
  - intros bandwith code Hin.
    destruct (bandwith_steps_entry _ _ Hin) as [Hkey Hget].
    unfold opm_set_bandwith. fold (bandwith_name bandwith).
    rewrite Hkey. cbn [negb]. rewrite bind_eval, Hget.
    apply (exchange_silent _ _ _ _ Hd Hrx).
  - apply (exchange_silent _ _ _ _ Hd Hrx).
  - intros gain code Hin Hfixed.
    destruct (gain_steps_entry _ _ Hin) as [Hkey Hget].
    unfold opm_set_gain. fold (gain_name gain).
    rewrite Hkey, (eqb_false_of_neq _ _ Hfixed). cbn [negb].
    rewrite bind_eval, Hget.
    apply (exchange_silent _ _ _ _ Hd Hrx).
  - intros w lo hi Hlo Hhi Hrange. unfold opm_set_wavelength.
    rewrite bind_get_self, Hlo, Hhi.
    replace (in_range w lo (hi + 1)) with true
      by (symmetry; unfold in_range; apply andb_true_iff; split;
          [apply Z.leb_le | apply Z.ltb_lt]; lia).
    cbn [negb].
    unfold bind at 1. rewrite (send_open _ _ Hd).
    unfold bind at 1. erewrite send_all by reflexivity.
    unfold bind at 1. rewrite recv_put_silent by exact Hrx.
    cbn. rewrite <- app_assoc, Hrx. reflexivity.
  - apply (exchange_silent _ _ _ _ Hd Hrx).
  - apply (exchange_silent _ _ _ _ Hd Hrx).
  - apply (exchange_silent _ _ _ _ Hd Hrx).
  - unfold opm_get_measurement. unfold bind at 1.
    unfold opm_get_single_raw_measure.
    rewrite (exchange_silent _ _ _ _ Hd Hrx). reflexivity.
Qed.

(** An open port on which nothing arrives. *)
Lemma silent_instrument_times_out_witness :
  times_out ["$E"] (opm_get_measurement (fun x : float => x))
    (connected 200 1100 []) {| tx := []; rx := [] |} /\
  times_out ["L"; "0"; "6"; "6"; "0"] (opm_set_wavelength 660)
    (connected 200 1100 []) {| tx := []; rx := [] |}.
Proof.
  destruct (silent_instrument_times_out (fun x : float => x)
              (connected 200 1100 []) {| tx := []; rx := [] |}
              eq_refl eq_refl)
    as (_ & _ & _ & _ & _ & _ & _ & Hw & _ & _ & _ & Hm).
  split; [exact Hm | ].
  apply (Hw 660 200 1100 eq_refl eq_refl). lia.
Defined.

(* ===================================================================== *)
(** * Reading the settings back *)
(* ===================================================================== *)

Section Queries.

Local Open Scope opm_scope.

Variable self : OPM500.
Variable d : ftd2xx.
Variable msg : string.
Variable rest : list string.
Hypothesis port_open : _device self = Some d.
Hypothesis answer : rx d = msg :: rest.

Let asked (cmd : string) : OPM500 :=
  put_device (Some {| tx := tx d ++ [cmd]; rx := rest |}) self.

Lemma is_polarity_inverted_run :
  opm_is_polarity_inverted self =
  if String.eqb (received msg) "F0"
  then (Ok (Some false), put_invert_input_polarity false (asked "$F"))
  else if String.eqb (received msg) "F1"
  then (Ok (Some true), put_invert_input_polarity true (asked "$F"))
  else (Ok None, asked "$F").
Proof.
  unfold opm_is_polarity_inverted.
  rewrite (exchange _ _ port_open _ _ _ _ answer); cbv beta.
  destruct (String.eqb _ "F0"); [reflexivity | ].
  destruct (String.eqb _ "F1"); reflexivity.
Qed.

Lemma get_bandwith_run :
  opm_get_bandwith self =
  if contains (values _bandwith_steps) (received msg) then
    match getitem bandwith_of_code (received msg) with
    | Ok name => (Ok (Some name), put_bandwith name (asked "B?"))
    | Raise e => (Raise e, asked "B?")
    end
  else (Ok None, asked "B?").
Proof.
  unfold opm_get_bandwith.
  rewrite (exchange _ _ port_open _ _ _ _ answer); cbv beta.
  destruct (contains _ _); [ | reflexivity].
  rewrite bind_eval. destruct (getitem _ _); reflexivity.
Qed.

End Queries.

(** X3: with the port open, [opm_is_polarity_inverted] writes [$F] and
    returns [False] on the answer [F0] and [True] on the answer [F1], storing
    what it returns as the polarity; on every other answer it returns [None]
    and leaves the configuration as it was.  It never changes another field
    of the configuration. *)
Theorem opm_is_polarity_inverted_flag (self : OPM500) (d : ftd2xx)
    (msg : string) (rest : list string) :
  _device self = Some d ->
  rx d = msg :: rest ->
  let run := opm_is_polarity_inverted self in
  tx_of (snd run) = (tx d ++ ["$F"])%list /\
  (forall b : bool,
     fst run = Ok (Some b) <-> received msg = (if b then "F1" else "F0")) /\
  (forall b : bool,
     fst run = Ok (Some b) ->
     configuration_of (snd run) =
     configuration_of (put_invert_input_polarity b self)) /\
  (fst run = Ok None <-> received msg <> "F0" /\ received msg <> "F1") /\
  (fst run = Ok None -> configuration_of (snd run) = configuration_of self).
Proof.
  intros Hd Hrx. cbv zeta. rewrite (is_polarity_inverted_run _ _ _ _ Hd Hrx).
  destruct (String.eqb_spec (received msg) "F0") as [E0 | N0].
  - rewrite E0. refine (conj eq_refl (conj _ (conj _ (conj _ _)))).
    + intros [|]; cbn; split; intros H; (discriminate || reflexivity).
    + intros [|]; cbn; intros H; (discriminate || reflexivity).
    + cbn. split; [discriminate | intros [H _]; now elim H].
    + discriminate.
  - destruct (String.eqb_spec (received msg) "F1") as [E1 | N1].
    + rewrite E1. refine (conj eq_refl (conj _ (conj _ (conj _ _)))).
      * intros [|]; cbn; split; intros H; (discriminate || reflexivity).
      * intros [|]; cbn; intros H; (discriminate || reflexivity).
      * cbn. split; [discriminate | intros [_ H]; now elim H].
      * discriminate.
    + refine (conj eq_refl (conj _ (conj _ (conj _ _)))).
      * intros [|]; cbn; split; intros H;
          (discriminate || (exfalso; auto)).
      * intros b; cbn; discriminate.
      * cbn. split; [now split | reflexivity].
      * reflexivity.
Qed.

(** The instrument reports an inverted polarity. *)
Lemma opm_is_polarity_inverted_flag_witness :
  let self := connected 200 1100 ["F1"] in
  fst (opm_is_polarity_inverted self) = Ok (Some true) /\
  polarityInverted (configuration_of (snd (opm_is_polarity_inverted self))) = true.
Proof.
  cbv zeta.
  destruct (opm_is_polarity_inverted_flag (connected 200 1100 ["F1"])
              {| tx := []; rx := ["F1"] |} "F1" [] eq_refl eq_refl)
    as (_ & Hiff & Hconf & _ & _).
  assert (H : fst (opm_is_polarity_inverted (connected 200 1100 ["F1"])) =
              Ok (Some true)) by (apply Hiff; reflexivity).
  split; [exact H | ]. rewrite (Hconf true H). reflexivity.
Defined.

Lemma bandwith_code_entry (name code : string) :
  In (name, code) _bandwith_steps ->
  contains (values _bandwith_steps) code = true /\
  getitem bandwith_of_code code = Ok name.
Proof.
  intros Hin. cbn in Hin.
  repeat (destruct Hin as [Hin | Hin];
          [injection Hin as <- <-; split; reflexivity | ]).
  contradiction.
Qed.

(** X4: with the port open, [opm_get_bandwith] writes [B?]; on the code of an
    entry of the bandwidth table it returns the name of that entry and stores
    it as the bandwidth, and on an answer that is none of the four codes it
    returns [None] and leaves the configuration as it was. *)
Theorem opm_get_bandwith_decodes (self : OPM500) (d : ftd2xx)
    (msg : string) (rest : list string) :
  _device self = Some d ->
  rx d = msg :: rest ->
  let asked := put_device (Some {| tx := tx d ++ ["B?"]; rx := rest |}) self in
  (forall name code : string,
     In (name, code) _bandwith_steps ->
     received msg = code ->
     opm_get_bandwith self = (Ok (Some name), put_bandwith name asked)) /\
  (~ In (received msg) ["B1"; "B2"; "B3"; "B4"] ->
   opm_get_bandwith self = (Ok None, asked)).
Proof.
  intros Hd Hrx. cbv zeta. rewrite (get_bandwith_run _ _ _ _ Hd Hrx). split.
  - intros name code Hin ->.
    destruct (bandwith_code_entry _ _ Hin) as [Hkey Hget].
    rewrite Hkey, Hget. reflexivity.
  - intros Hnot.
    destruct (contains (values _bandwith_steps) (received msg)) eqn:Hc;
      [ | reflexivity].
    exfalso. apply Hnot. apply contains_In in Hc. exact Hc.
Qed.

(** The instrument reports the code of 100 Hz. *)
Lemma opm_get_bandwith_decodes_witness :
  opm_get_bandwith (connected 200 1100 ["B3"]) =
  (Ok (Some "100 Hz"),
   put_bandwith "100 Hz"
     (put_device (Some {| tx := ["B?"]; rx := [] |}) (connected 200 1100 ["B3"]))).
Proof.
  destruct (opm_get_bandwith_decodes (connected 200 1100 ["B3"])
              {| tx := []; rx := ["B3"] |} "B3" [] eq_refl eq_refl)
    as [Hcode _].
  apply (Hcode "100 Hz" "B3"); [cbn; tauto | reflexivity].
Defined.

(** X5: a bandwidth that was set and acknowledged is read back: when the
    instrument acknowledges the code of [bandwith] and then answers [B?] with
    that code, [opm_set_bandwith] followed by [opm_get_bandwith] returns the
    name that was set, and the bandwidth of the object is that name. *)
Theorem bandwith_set_then_get (bandwith : str_or BANDWITH) (code : string)
    (self : OPM500) (d : ftd2xx) (ack reply : string) (rest : list string) :
  In (bandwith_name bandwith, code) _bandwith_steps ->
  _device self = Some d ->
  rx d = ack :: reply :: rest ->
  received ack = code ++ " OK" ->
  received reply = code ->
  (ok <- opm_set_bandwith bandwith ;;
   name <- opm_get_bandwith ;;
   ret (ok, name))%opm self =
  (Ok (true, Some (bandwith_name bandwith)),
   put_bandwith (bandwith_name bandwith)
     (put_device (Some {| tx := tx d ++ [code; "B?"]; rx := rest |}) self)).
Proof.
  intros Hin Hd Hrx Hack Hreply.
  unfold bind at 1.
  rewrite (set_bandwith_run _ _ _ _ Hd Hrx _ _ Hin), Hack, String.eqb_refl.
  unfold bind at 1.
  destruct (bandwith_code_entry _ _ Hin) as [Hkey Hget].
  match goal with
  | |- context [opm_get_bandwith ?s] =>
      rewrite (get_bandwith_run s
                 {| tx := tx d ++ [code]; rx := reply :: rest |} reply rest
                 eq_refl eq_refl)
  end.
  rewrite Hreply, Hkey, Hget.
  cbn. rewrite <- app_assoc. reflexivity.
Qed.

(** 1 kHz is set by name and read back. *)
Lemma bandwith_set_then_get_witness :
  fst ((ok <- opm_set_bandwith (Str "1 kHz") ;;
        name <- opm_get_bandwith ;;
        ret (ok, name))%opm (connected 200 1100 ["B2 OK"; "B2"])) =
  Ok (true, Some "1 kHz").
Proof.
  rewrite (bandwith_set_then_get (Str "1 kHz") "B2"
             (connected 200 1100 ["B2 OK"; "B2"])
             {| tx := []; rx := ["B2 OK"; "B2"] |} "B2 OK" "B2" []);
    [reflexivity | cbn; tauto | reflexivity | reflexivity
     | reflexivity | reflexivity].
Defined.

Section GainQuery.

Local Open Scope opm_scope.

Lemma record_gain_level (level : Z) (self : OPM500) :
  1 <= level <= 6 ->
  exists name : string,
    In (name, "V" ++ str_of_int level) _gain_steps /\
    name <> "auto-gain" /\
    record_gain ("V" ++ str_of_int level) self =
    (Ok (Some name),
     put_autogain_gain (Some level)
       (if String.eqb (_gain self) "auto-gain" then self
        else put_gain name self)).
Proof.
  intros Hlevel.
  assert (Hcases : level = 1 \/ level = 2 \/ level = 3 \/ level = 4 \/
                   level = 5 \/ level = 6) by lia.
  unfold record_gain. rewrite bind_get_self.
  destruct Hcases as [-> | [-> | [-> | [-> | [-> | ->]]]]];
    [exists "x1" | exists "x10" | exists "x100" | exists "x1000"
     | exists "x10000" | exists "x100000"];
    (split; [cbn; tauto | split; [discriminate | ]]);
    destruct (String.eqb (_gain self) "auto-gain"); reflexivity.
Qed.

End GainQuery.

(** X6: with the port open, [opm_get_gain] writes [V?]; when the answer has
    the first line [V? OK] and the second line [V1] .. [V6], it returns the
    gain name of that code and tracks the number of the code as the gain
    level.  The gain mode becomes that name, unless it is [auto-gain], which
    is kept. *)
Theorem opm_get_gain_decodes (level : Z) (self : OPM500) (d : ftd2xx)
    (msg : string) (rest more : list string) :
  _device self = Some d ->
  rx d = msg :: rest ->
  1 <= level <= 6 ->
  splitlines (received msg) = "V? OK" :: ("V" ++ str_of_int level) :: more ->
  let asked := put_device (Some {| tx := tx d ++ ["V?"]; rx := rest |}) self in
  exists name : string,
    In (name, "V" ++ str_of_int level) _gain_steps /\
    opm_get_gain self =
    (Ok (Some name),
     put_autogain_gain (Some level)
       (if String.eqb (_gain self) "auto-gain" then asked
        else put_gain name asked)).
Proof.
  intros Hd Hrx Hlevel Hlines. cbv zeta.
  rewrite (get_gain_run _ _ _ _ Hd Hrx). cbv zeta. rewrite Hlines.
  rewrite String.eqb_refl.
  destruct (record_gain_level level
              (put_device (Some {| tx := tx d ++ ["V?"]; rx := rest |}) self)
              Hlevel) as (name & Hin & _ & Hrun).
  replace (contains (values _gain_steps) ("V" ++ str_of_int level)) with true.
  - exists name. split; [exact Hin | ]. rewrite Hrun. reflexivity.
  - symmetry. apply contains_In. apply in_map_iff.
    exists (name, "V" ++ str_of_int level). split; [reflexivity | exact Hin].
Qed.

(** The answer names the fourth level while the gain mode is [x1]. *)
Lemma opm_get_gain_decodes_witness :
  let self := connected 200 1100 ["V? OK" ++ LF ++ "V4"] in
  let asked := put_device (Some {| tx := ["V?"]; rx := [] |}) self in
  exists name : string,
    In (name, "V4") _gain_steps /\
    opm_get_gain self =
    (Ok (Some name), put_autogain_gain (Some 4) (put_gain name asked)).
Proof.
  apply (opm_get_gain_decodes 4
           (connected 200 1100 ["V? OK" ++ LF ++ "V4"])
           {| tx := []; rx := ["V? OK" ++ LF ++ "V4"] |}
           ("V? OK" ++ LF ++ "V4") [] [] eq_refl eq_refl);
    [lia | reflexivity].
Defined.

(** X7: the seventh entry of the gain table maps [auto-gain] to itself, so an
    answer whose second line is [auto-gain] passes the membership test of
    [opm_get_gain]; the level is then read off [uto-gain], which is a
    [ValueError].  By then a fixed gain mode has been overwritten with
    [auto-gain]. *)
Theorem opm_get_gain_auto_line_raises (self : OPM500) (d : ftd2xx)
    (msg : string) (rest more : list string) :
  _device self = Some d ->
  rx d = msg :: rest ->
  splitlines (received msg) = "V? OK" :: "auto-gain" :: more ->
  opm_get_gain self =
  (Raise ValueError,
   put_gain "auto-gain"
     (put_device (Some {| tx := tx d ++ ["V?"]; rx := rest |}) self)).
Proof.
  intros Hd Hrx Hlines.
  rewrite (get_gain_run _ _ _ _ Hd Hrx). cbv zeta. rewrite Hlines.
  rewrite String.eqb_refl.
  change (contains (values _gain_steps) "auto-gain") with true. cbv iota.
  unfold record_gain. rewrite bind_get_self.
  cbn [_gain put_device].
  destruct (String.eqb_spec (_gain self) "auto-gain") as [E | N].
  - cbn [negb]. destruct self; cbn in E |- *; subst. reflexivity.
  - reflexivity.
Qed.

(** The answer [V? OK], [auto-gain] while the gain mode is [x1]. *)
Lemma opm_get_gain_auto_line_raises_witness :
  let self := connected 200 1100 ["V? OK" ++ LF ++ "auto-gain"] in
  fst (opm_get_gain self) = Raise ValueError /\
  _gain (snd (opm_get_gain self)) = "auto-gain".
Proof.
  cbv zeta.
  rewrite (opm_get_gain_auto_line_raises
             (connected 200 1100 ["V? OK" ++ LF ++ "auto-gain"])
             {| tx := []; rx := ["V? OK" ++ LF ++ "auto-gain"] |}
             ("V? OK" ++ LF ++ "auto-gain") [] [] eq_refl eq_refl eq_refl).
  split; reflexivity.
Defined.

(* ===================================================================== *)
(** * Arguments the tables do not hold *)
(* ===================================================================== *)

(** X8: of the seven members of [GAIN], [opm_set_gain] refuses exactly
    [X100000]: the value of that member is [x1000000], which is no key of the
    gain table, so the call raises the exception for an invalid gain and
    leaves the object as it was.  No other member is refused. *)
Theorem opm_set_gain_refuses_member_x100000 (g : GAIN) (self : OPM500) :
  (fst (opm_set_gain (Member g) self) =
   Raise (Exception "Invalid gain. choose one from the pre-defined gains.")
   <-> g = X100000) /\
  opm_set_gain (Member X100000) self =
  (Raise (Exception "Invalid gain. choose one from the pre-defined gains."),
   self).
Proof.
  split; [ | reflexivity].
  split.
  - intros H.
    assert (Hfixed : forall (gain : str_or GAIN) (code : string) (level : Z),
               In (gain_name gain, code) _gain_steps ->
               gain_name gain <> "auto-gain" ->
               int_of_str (slice_from 1 code) = Ok level ->
               fst (opm_set_gain gain self) <>
               Raise (Exception
                        "Invalid gain. choose one from the pre-defined gains.")).
    { intros gain code level Hin Hfixed Hlevel.
      destruct (_device self) as [d|] eqn:Hd.
      - destruct (rx d) as [|msg rest] eqn:Hrx.
        + destruct (gain_steps_entry _ _ Hin) as [Hkey Hget].
          unfold opm_set_gain. fold (gain_name gain).
          rewrite Hkey, (eqb_false_of_neq _ _ Hfixed). cbn [negb].
          rewrite bind_eval, Hget.
          rewrite (exchange_silent _ _ _ _ Hd Hrx). discriminate.
        + rewrite (set_gain_run _ _ _ _ Hd Hrx _ _ Hin Hfixed), Hlevel.
          destruct (String.eqb _ _); discriminate.
      - destruct (gain_steps_entry _ _ Hin) as [Hkey Hget].
        unfold opm_set_gain. fold (gain_name gain).
        rewrite Hkey, (eqb_false_of_neq _ _ Hfixed). cbn [negb].
        rewrite bind_eval, Hget.
        rewrite (exchange_closed _ _ _ Hd). cbn [fst].
        intros E. injection E as E. discriminate E. }
    destruct g; try reflexivity; exfalso.
    + apply (Hfixed (Member X1) "V1" 1); [cbn; tauto | discriminate | reflexivity | exact H].
    + apply (Hfixed (Member X10) "V2" 2); [cbn; tauto | discriminate | reflexivity | exact H].
    + apply (Hfixed (Member X100) "V3" 3); [cbn; tauto | discriminate | reflexivity | exact H].
    + apply (Hfixed (Member X1000) "V4" 4); [cbn; tauto | discriminate | reflexivity | exact H].
    + apply (Hfixed (Member X10000) "V5" 5); [cbn; tauto | discriminate | reflexivity | exact H].
    + discriminate H.
  - intros ->. reflexivity.
Qed.

(** X9: every member of [UNITS] can be selected with [set_unit], and the
    property [unit] then returns the long name of the unit, except after
    [MICROWATTS]: the value of that member is written with a small w, which
    is no key of the table of unit names, and reading the property is a
    [KeyError]. *)
Theorem unit_property_after_set_unit (u : UNITS) (self : OPM500) :
  let chosen := snd (set_unit u self) in
  fst (set_unit u self) = Ok true /\
  _unit chosen = UNITS_value u /\
  (fst (Property.unit chosen) = Raise KeyError <-> u = MICROWATTS) /\
  (fst (Property.unit chosen) = Raise KeyError \/
   exists long : string,
     In (UNITS_value u, long) _units /\
     Property.unit chosen = (Ok long, chosen)).
Proof.
  cbv zeta. refine (conj eq_refl (conj eq_refl (conj _ _))).
  - split.
    + destruct u; cbn; intros H; (reflexivity || discriminate H).
    + intros ->. reflexivity.
  - destruct u; [right | right | right | right | right | left | right | right
                 | right | right | right | right | right];
      try reflexivity;
      (eexists; split; [ | reflexivity]; cbn; tauto).
Qed.

(* ===================================================================== *)
(** * The wavelength command *)
(* ===================================================================== *)

Lemma four_digits_written_below_10000 :
  forallb four_digits_written (seq 0 (Z.to_nat 10000)) = true.
Proof. vm_compute. reflexivity. Qed.

Lemma wavelength_text (w : Z) :
  0 <= w <= 9999 ->
  chars (zfill 4 (str_of_int w)) = wavelength_digits w.
Proof.
  intros Hw.
  pose proof four_digits_written_below_10000 as Hall.
  rewrite forallb_forall in Hall.
  specialize (Hall (Z.to_nat w)).
  assert (Hin : In (Z.to_nat w) (seq 0 (Z.to_nat 10000))) by (apply in_seq; lia).
  specialize (Hall Hin). unfold four_digits_written in Hall.
  rewrite Z2Nat.id in Hall by lia. cbv zeta in Hall.
  apply String.eqb_eq in Hall. rewrite Hall. reflexivity.
Qed.

(** X10: for a wavelength between 0 and 9999 inside the detector range,
    [opm_set_wavelength] writes the command [L] and then four messages of
    one character each, the thousands, the hundreds, the tens and the units
    of the wavelength, whatever the instrument answers and even when it
    stays silent. *)
Theorem opm_set_wavelength_writes_four_digits (w lo hi : Z) (self : OPM500)
    (d : ftd2xx) :
  _device self = Some d ->
  _opm_detector_min_wavelength self = Some lo ->
  _opm_detector_max_wavelength self = Some hi ->
  lo <= w <= hi ->
  0 <= w <= 9999 ->
  tx_of (snd (opm_set_wavelength w self)) =
  (tx d ++ "L" :: wavelength_digits w)%list.
Proof.
  intros Hd Hlo Hhi Hrange Hw.
  assert (Hin : in_range w lo (hi + 1) = true).
  { unfold in_range. apply andb_true_iff. split;
      [apply Z.leb_le | apply Z.ltb_lt]; lia. }
  rewrite <- (wavelength_text w Hw).
  destruct (rx d) as [|msg rest] eqn:Hrx.
  - unfold opm_set_wavelength.
    rewrite bind_get_self, Hlo, Hhi, Hin. cbn [negb].
    unfold bind at 1. rewrite (send_open _ _ Hd).
    unfold bind at 1. erewrite send_all by reflexivity.
    unfold bind at 1. rewrite recv_put_silent by exact Hrx.
    cbn. rewrite <- app_assoc. reflexivity.
  - rewrite (set_wavelength_run _ _ _ _ Hd Hrx w lo hi Hlo Hhi), Hin.
    cbv zeta.
    destruct (0 <? count "KF:" (received msg)); [ | reflexivity].
    destruct (float_of_str _); reflexivity.
Qed.

(** The wavelength 85 goes out as [L], [0], [0], [8], [5]. *)
Lemma opm_set_wavelength_writes_four_digits_witness :
  tx_of (snd (opm_set_wavelength 85 (connected 10 1100 ["KF:1,0"]))) =
  ["L"; "0"; "0"; "8"; "5"].
Proof.
  apply (opm_set_wavelength_writes_four_digits 85 10 1100
           (connected 10 1100 ["KF:1,0"]) {| tx := []; rx := ["KF:1,0"] |}
           eq_refl eq_refl eq_refl); lia.
Defined.
(* ===================================================================== *)
(** * The gain range an automatic zeroing reports *)
(* ===================================================================== *)

Lemma int_of_digit (c : ascii) :
  is_digit c = true -> int_of_str (String c "") = Ok (digit_value c).
Proof.
  intros H. unfold int_of_str, strip.
  rewrite (lstrip_digit c "" H).
  rewrite (rstrip_digit "" c H : rstrip (String c "") = String c "").
  rewrite (digit_is_no_sign c "" H).
  cbn [digitpart digits_tail]. rewrite H. cbn [digits_value].
  f_equal.
Qed.

Lemma last_char_snoc (body : string) (c : ascii) :
  last_char (body ++ String c "") = Ok (String c "").
Proof. unfold last_char. rewrite rev_snoc. reflexivity. Qed.

(** X11: when the answer to [$A] contains [Gain: ] and ends with a decimal
    digit, [opm_set_auto_zero] succeeds and takes that last digit for the
    highest gain level, whatever stands between the label and the end of the
    answer; any level from 0 to 9 can be stored in this way. *)
Theorem opm_set_auto_zero_takes_last_digit (self : OPM500) (d : ftd2xx)
    (msg : string) (rest : list string) (body : string) (c : ascii) :
  _device self = Some d ->
  rx d = msg :: rest ->
  received msg = body ++ String c "" ->
  is_digit c = true ->
  (0 <? count "Gain: " (received msg)) = true ->
  0 <= digit_value c <= 9 /\
  opm_set_auto_zero self =
  (Ok true,
   put_max_gain (digit_value c)
     (put_initial_auto_zero "Auto zero"
        (put_device (Some {| tx := tx d ++ ["$A"]; rx := rest |}) self))).
Proof.
  intros Hd Hrx Hmsg Hc Hcount. split.
  - unfold is_digit in Hc. apply andb_prop in Hc as [Hlo Hhi].
    apply Nat.leb_le in Hlo, Hhi. unfold digit_value. lia.
  - rewrite (set_auto_zero_run _ _ _ _ Hd Hrx), Hcount. cbv zeta.
    rewrite Hmsg, last_char_snoc, (int_of_digit c Hc). reflexivity.
Qed.

(** The answer names a range of 5 levels and goes on: the level stored is the
    last digit of the answer. *)
Lemma opm_set_auto_zero_takes_last_digit_witness :
  maxGainLevel
    (configuration_of
       (snd (opm_set_auto_zero (connected 200 1100 ["Gain: 5 Zero: 0,3"])))) = 3.
Proof.
  destruct (opm_set_auto_zero_takes_last_digit
              (connected 200 1100 ["Gain: 5 Zero: 0,3"])
              {| tx := []; rx := ["Gain: 5 Zero: 0,3"] |}
              "Gain: 5 Zero: 0,3" [] "Gain: 5 Zero: 0," "3"%char
              eq_refl eq_refl eq_refl eq_refl eq_refl) as [_ Hrun].
  rewrite Hrun. reflexivity.
Defined.
(* ===================================================================== *)
(** * What the methods keep *)
(* ===================================================================== *)

Section Preservation.

Local Open Scope opm_scope.

Variable I : OPM500 -> Prop.

Lemma preserves_ret {A : Type} (a : A) : preserves I (ret a).
Proof. intros s Hs. exact Hs. Qed.

Lemma preserves_raise {A : Type} (e : exn) : preserves I (@raise A e).
Proof. intros s Hs. exact Hs. Qed.

Lemma preserves_eval {A : Type} (r : result A) : preserves I (eval r).
Proof. intros s Hs. exact Hs. Qed.

Lemma preserves_sleep (seconds : float) : preserves I (sleep seconds).
Proof. intros s Hs. exact Hs. Qed.

Lemma kept_bind {A B : Type} (m : M A) (k : A -> M B) (s : OPM500) :
  I (snd (m s)) ->
  (forall a : A, preserves I (k a)) ->
  I (snd ((x <- m ;; k x) s)).
Proof.
  intros Hm Hk. unfold bind. destruct (m s) as [[a|e] s']; cbn in *.
  - apply Hk, Hm.
  - exact Hm.
Qed.

Lemma preserves_bind {A B : Type} (m : M A) (k : A -> M B) :
  preserves I m ->
  (forall a : A, preserves I (k a)) ->
  preserves I (x <- m ;; k x).
Proof. intros Hm Hk s Hs. apply kept_bind; [apply Hm, Hs | exact Hk]. Qed.

Lemma preserves_get {B : Type} (k : OPM500 -> M B) :
  (forall s : OPM500, I s -> I (snd (k s s))) ->
  preserves I (s <- get_self ;; k s).
Proof. intros Hk s Hs. rewrite bind_get_self. apply Hk, Hs. Qed.

Lemma preserves_assign (f : OPM500 -> OPM500) :
  (forall s : OPM500, I s -> I (f s)) -> preserves I (assign f).
Proof. intros Hf s Hs. apply Hf, Hs. Qed.

Lemma preserves_if {A : Type} (b : bool) (m1 m2 : M A) :
  preserves I m1 -> preserves I m2 -> preserves I (if b then m1 else m2).
Proof. destruct b; auto. Qed.

Lemma preserves_drop_result {A : Type} (m : M A) :
  preserves I m -> preserves I (drop_result m).
Proof.
  intros Hm. unfold drop_result. apply preserves_bind; [exact Hm | ].
  intros a. apply preserves_ret.
Qed.

(** The channel *)

Hypothesis device_stable :
  forall (v : option ftd2xx) (s : OPM500), I s -> I (put_device v s).

Lemma preserves_send (msg : string) : preserves I (_opm_send msg).
Proof.
  intros s Hs. unfold _opm_send. destruct (_device s); cbn; auto.
Qed.

Lemma preserves_recv : preserves I _opm_recv.
Proof.
  intros s Hs. unfold _opm_recv. destruct (_device s) as [d|]; cbn; auto.
  destruct (rx d); cbn; auto.
Qed.

Lemma preserves_send_all (l : list string) : preserves I (for_each l _opm_send).
Proof.
  induction l as [|x l IH]; cbn [for_each]; [apply preserves_ret | ].
  apply preserves_bind; [apply preserves_send | intros _; exact IH].
Qed.

Lemma preserves_get_info : preserves I opm_get_info.
Proof.
  apply preserves_bind; [apply preserves_send | intros _; apply preserves_recv].
Qed.

Lemma preserves_raw_measure : preserves I opm_get_single_raw_measure.
Proof.
  apply preserves_bind; [apply preserves_send | intros _].
  apply preserves_bind; [apply preserves_recv | intros r; apply preserves_ret].
Qed.

Lemma preserves_get_wavelength : preserves I opm_get_wavelength.
Proof. intros s Hs. exact Hs. Qed.

Lemma preserves_convert_base (log10 : float -> float) (amplitude : float) :
  preserves I (convert_base log10 amplitude).
Proof.
  unfold convert_base. apply preserves_get. intros s Hs.
  apply kept_bind; [exact Hs | intros a].
  apply preserves_bind.
  { repeat (apply preserves_if; [apply preserves_ret | ]).
    apply preserves_if; [ | apply preserves_ret].
    apply preserves_bind; [apply preserves_eval | intros l; apply preserves_ret]. }
  intros b. apply preserves_bind; [ | intros c; apply preserves_ret].
  apply preserves_if; [ | apply preserves_ret].
  apply preserves_bind; [apply preserves_eval | intros sq; apply preserves_eval].
Qed.

(** Polarity *)

Section Polarity.

Hypothesis polarity_stable :
  forall (v : bool) (s : OPM500), I s -> I (put_invert_input_polarity v s).

Lemma preserves_set_polarity (b : bool) : preserves I (opm_set_polarity b).
Proof.
  unfold opm_set_polarity. cbv zeta.
  apply preserves_bind; [apply preserves_send | intros _].
  apply preserves_bind; [apply preserves_recv | intros r].
  apply preserves_if; [ | apply preserves_ret].
  apply preserves_bind; [ | intros _; apply preserves_ret].
  apply preserves_assign, polarity_stable.
Qed.

Lemma preserves_is_polarity_inverted : preserves I opm_is_polarity_inverted.
Proof.
  unfold opm_is_polarity_inverted.
  apply preserves_bind; [apply preserves_send | intros _].
  apply preserves_bind; [apply preserves_recv | intros r].
  apply preserves_if; [ | apply preserves_if; [ | apply preserves_ret]];
    (apply preserves_bind; [ | intros _; apply preserves_ret]);
    apply preserves_assign, polarity_stable.
Qed.

End Polarity.

(** Bandwidth *)

Section Bandwidth.

Hypothesis bandwith_stable :
  forall (v : string) (s : OPM500), I s -> I (put_bandwith v s).

Lemma preserves_set_bandwith (b : str_or BANDWITH) :
  preserves I (opm_set_bandwith b).
Proof.
  unfold opm_set_bandwith. cbv zeta.
  apply preserves_if; [apply preserves_raise | ].
  apply preserves_bind; [apply preserves_eval | intros code].
  apply preserves_bind; [apply preserves_send | intros _].
  apply preserves_bind; [apply preserves_recv | intros r].
  apply preserves_bind; [apply preserves_eval | intros code'].
  apply preserves_if; [ | apply preserves_ret].
  apply preserves_bind; [ | intros _; apply preserves_ret].
  apply preserves_assign, bandwith_stable.
Qed.

Lemma preserves_get_bandwith : preserves I opm_get_bandwith.
Proof.
  unfold opm_get_bandwith.
  apply preserves_bind; [apply preserves_send | intros _].
  apply preserves_bind; [apply preserves_recv | intros r].
  apply preserves_if; [ | apply preserves_ret].
  apply preserves_bind; [apply preserves_eval | intros name].
  apply preserves_bind; [apply preserves_assign, bandwith_stable | intros _].
  apply preserves_get. intros s Hs. exact Hs.
Qed.

End Bandwidth.

(** Automatic zeroing *)

Section Zeroing.

Hypothesis zero_stable :
  forall (v : string) (s : OPM500), I s -> I (put_initial_auto_zero v s).
Hypothesis max_gain_stable :
  forall (v : Z) (s : OPM500), I s -> I (put_max_gain v s).

Lemma preserves_set_auto_zero : preserves I opm_set_auto_zero.
Proof.
  unfold opm_set_auto_zero.
  apply preserves_bind; [apply preserves_send | intros _].
  apply preserves_bind; [apply preserves_recv | intros r].
  apply preserves_if; [ | apply preserves_if; [ | apply preserves_ret]].
  - apply preserves_bind; [apply preserves_assign, zero_stable | intros _].
    apply preserves_bind; [apply preserves_eval | intros c].
    apply preserves_bind; [apply preserves_eval | intros n].
    apply preserves_bind; [apply preserves_assign, max_gain_stable | intros _].
    apply preserves_bind; [apply preserves_sleep | intros _; apply preserves_ret].
  - apply preserves_bind; [apply preserves_assign, zero_stable | intros _].
    apply preserves_bind; [apply preserves_assign, max_gain_stable | intros _].
    apply preserves_bind; [apply preserves_sleep | intros _; apply preserves_ret].
Qed.

Lemma preserves_set_auto_zero_reset : preserves I opm_set_auto_zero_reset.
Proof.
  unfold opm_set_auto_zero_reset.
  apply preserves_bind; [apply preserves_send | intros _].
  apply preserves_bind; [apply preserves_recv | intros r].
  apply preserves_if; [ | apply preserves_ret].
  apply preserves_bind; [apply preserves_assign, zero_stable | intros _].
  apply preserves_bind; [apply preserves_assign, max_gain_stable | intros _].
  apply preserves_bind; [apply preserves_sleep | intros _; apply preserves_ret].
Qed.

End Zeroing.

(** Gain *)

Section Gain.

Hypothesis level_stable :
  forall (v : option Z) (s : OPM500), I s -> I (put_autogain_gain v s).
Hypothesis gain_stable :
  forall (v : string) (s : OPM500),
    I s -> In v (keys _gain_steps) ->
    _gain s <> "auto-gain" \/ v = "auto-gain" ->
    I (put_gain v s).

Lemma gain_of_code_key (second name : string) :
  getitem gain_of_code second = Ok name -> In name (keys _gain_steps).
Proof.
  change gain_of_code with
    [ ("V1", "x1"); ("V2", "x10"); ("V3", "x100"); ("V4", "x1000");
      ("V5", "x10000"); ("V6", "x100000"); ("auto-gain", "auto-gain") ].
  cbn [getitem].
  repeat (destruct (String.eqb second _);
          [intros H; injection H as <-; cbn; tauto | ]).
  discriminate.
Qed.

Lemma kept_guarded_gain (v : string) (s : OPM500) :
  I s -> In v (keys _gain_steps) ->
  I (snd ((if negb (String.eqb (_gain s) "auto-gain")
           then assign (put_gain v) else ret tt) s)).
Proof.
  intros Hs Hv. destruct (String.eqb_spec (_gain s) "auto-gain") as [E | N];
    cbn [negb]; [exact Hs | ].
  apply gain_stable; auto.
Qed.

Lemma preserves_set_gain (gain : str_or GAIN) : preserves I (opm_set_gain gain).
Proof.
  unfold opm_set_gain. cbv zeta.
  destruct (contains (keys _gain_steps) (gain_name gain)) eqn:Hkey;
    cbn [negb]; [ | apply preserves_raise].
  apply contains_In in Hkey.
  destruct (String.eqb_spec (gain_name gain) "auto-gain") as [E | N].
  - apply preserves_bind; [ | intros _; apply preserves_ret].
    apply preserves_assign. intros s Hs. apply gain_stable; auto.
  - apply preserves_bind; [apply preserves_eval | intros code].
    apply preserves_bind; [apply preserves_send | intros _].
    apply preserves_bind; [apply preserves_recv | intros r].
    apply preserves_bind; [apply preserves_eval | intros code'].
    apply preserves_if; [ | apply preserves_ret].
    apply preserves_get. intros s Hs.
    apply kept_bind; [apply kept_guarded_gain; assumption | intros _].
    apply preserves_bind; [apply preserves_eval | intros code''].
    apply preserves_bind; [apply preserves_eval | intros level].
    apply preserves_bind; [ | intros _; apply preserves_ret].
    apply preserves_assign, level_stable.
Qed.

Lemma preserves_get_gain : preserves I opm_get_gain.
Proof.
  unfold opm_get_gain.
  apply preserves_bind; [apply preserves_send | intros _].
  apply preserves_bind; [apply preserves_recv | intros r].
  cbv zeta.
  apply preserves_bind; [apply preserves_eval | intros first].
  apply preserves_if; [ | apply preserves_ret].
  apply preserves_bind; [apply preserves_eval | intros second].
  apply preserves_if; [ | apply preserves_ret].
  apply preserves_get. intros s Hs.
  apply kept_bind.
  - destruct (getitem gain_of_code second) as [name|e] eqn:Hname.
    + pose proof (kept_guarded_gain name s Hs (gain_of_code_key _ _ Hname)) as H.
      destruct (negb _); [ | exact Hs].
      rewrite bind_eval. exact H.
    + destruct (negb _); [ | exact Hs]. rewrite bind_eval. exact Hs.
  - intros _.
    apply preserves_bind; [apply preserves_eval | intros name].
    apply preserves_bind; [apply preserves_eval | intros code].
    apply preserves_bind; [apply preserves_eval | intros level].
    apply preserves_bind; [apply preserves_assign, level_stable | intros _].
    apply preserves_bind; [apply preserves_eval | intros name'].
    apply preserves_ret.
Qed.

Lemma preserves_apply_tracked_gain : preserves I apply_tracked_gain.
Proof.
  unfold apply_tracked_gain. apply preserves_get. intros s Hs. cbv zeta.
  apply kept_bind; [exact Hs | intros name]. apply preserves_set_gain.
Qed.

Lemma preserves_autogain_body (self_call : string -> Z -> Z -> M string) :
  (forall (a : string) (r l : Z), preserves I (self_call a r l)) ->
  forall (a : string) (r l : Z), preserves I (autogain_body self_call a r l).
Proof.
  intros Hcall a r l. unfold autogain_body.
  apply preserves_if; [apply preserves_ret | ].
  apply preserves_get. intros s Hs.
  apply kept_bind.
  { destruct (_autogain_gain s); [exact Hs | ].
    apply (preserves_bind _ _ preserves_get_gain); [ | exact Hs].
    intros x. apply preserves_ret. }
  intros _.
  apply preserves_bind; [apply preserves_eval | intros amplitude].
  apply preserves_get. intros s1 Hs1. cbv zeta.
  apply kept_bind; [exact Hs1 | intros too_high].
  destruct too_high.
  - apply preserves_bind; [apply preserves_eval | intros lower].
    apply preserves_bind; [apply preserves_assign, level_stable | intros _].
    apply preserves_bind; [apply preserves_apply_tracked_gain | intros _].
    apply preserves_bind; [apply preserves_raw_measure | intros m].
    apply Hcall.
  - apply preserves_bind; [apply preserves_eval | intros too_low].
    destruct too_low; [ | apply preserves_ret].
    apply preserves_bind; [apply preserves_eval | intros higher].
    apply preserves_bind; [apply preserves_assign, level_stable | intros _].
    apply preserves_bind; [apply preserves_apply_tracked_gain | intros _].
    apply preserves_bind; [apply preserves_raw_measure | intros m].
    apply Hcall.
Qed.

Lemma preserves_autogain_fuel (fuel : nat) (a : string) (r l : Z) :
  preserves I (_opm_autogain_fuel fuel a r l).
Proof.
  revert a r l. induction fuel as [|fuel IH]; intros a r l.
  - apply preserves_raise.
  - apply (preserves_autogain_body _ IH).
Qed.

Lemma preserves_get_measurement (log10 : float -> float) :
  preserves I (opm_get_measurement log10).
Proof.
  unfold opm_get_measurement.
  apply preserves_bind; [apply preserves_raw_measure | intros amplitude].
  apply preserves_get. intros s Hs.
  apply kept_bind.
  - destruct (String.eqb _ _); [ | exact Hs].
    apply preserves_autogain_fuel, Hs.
  - intros a.
    apply preserves_bind; [apply preserves_eval | intros b].
    apply preserves_convert_base.
Qed.

End Gain.

(** Wavelength *)

Section Wavelength.

Hypothesis sensitivity_stable :
  forall (v : float) (s : OPM500), I s -> I (put_sensitivity v s).
Hypothesis wavelength_stable :
  forall (v lo hi : Z) (s : OPM500),
    I s ->
    _opm_detector_min_wavelength s = Some lo ->
    _opm_detector_max_wavelength s = Some hi ->
    lo <= v <= hi ->
    I (put_wavelength v s).

Lemma preserves_set_wavelength (w : Z) : preserves I (opm_set_wavelength w).
Proof.
  intros s Hs. unfold opm_set_wavelength. rewrite bind_get_self.
  destruct (_opm_detector_min_wavelength s) as [lo|] eqn:Hlo; [ | exact Hs].
  destruct (_opm_detector_max_wavelength s) as [hi|] eqn:Hhi; [ | exact Hs].
  destruct (in_range w lo (hi + 1)) eqn:Hin; cbn [negb]; [ | exact Hs].
  assert (Hrange : lo <= w <= hi).
  { unfold in_range in Hin. apply andb_prop in Hin as [H1 H2].
    apply Z.leb_le in H1. apply Z.ltb_lt in H2. lia. }
  destruct (_device s) as [d|] eqn:Hd.
  - unfold bind at 1. rewrite (send_open _ _ Hd).
    unfold bind at 1. erewrite send_all by reflexivity.
    unfold bind at 1. unfold _opm_recv. cbn [_device put_device rx tx].
    destruct (rx d) as [|msg rest];
      [cbn [snd]; repeat apply device_stable; exact Hs | ].
    destruct (0 <? count "KF:" (received msg));
      [ | cbn [snd]; repeat apply device_stable; exact Hs].
    rewrite bind_assign, bind_eval.
    match goal with
    | |- context [put_wavelength w ?st] =>
        assert (Hw : I (put_wavelength w st))
          by (apply (wavelength_stable w lo hi);
              [repeat apply device_stable; exact Hs
              | exact Hlo | exact Hhi | exact Hrange])
    end.
    destruct (float_of_str _); [ | exact Hw].
    apply sensitivity_stable, Hw.
  - rewrite (exchange_closed _ _ _ Hd). exact Hs.
Qed.

End Wavelength.

End Preservation.
Section Programs.

Local Open Scope opm_scope.

Variable log10 : float -> float.

(** An invariant of every single call holds after any number of calls. *)
Lemma after_calls_keeps (I : OPM500 -> Prop) (allowed : call -> Prop) :
  (forall c : call, allowed c -> preserves I (perform log10 c)) ->
  forall (cs : list call) (self : OPM500),
    Forall allowed cs -> I self -> I (after_calls log10 cs self).
Proof.
  intros Hstep cs. unfold after_calls.
  induction cs as [|c cs IH]; intros self Hall Hs; [exact Hs | ].
  cbn [fold_left]. inversion Hall as [|c' cs' Hc Hcs]; subst.
  apply IH; [exact Hcs | ]. apply (Hstep c Hc), Hs.
Qed.

(** Every call keeps a property that every assignment of the methods
    keeps. *)
Lemma preserves_perform (I : OPM500 -> Prop) :
  (forall v s, I s -> I (put_unit v s)) ->
  (forall v s, I s -> I (put_device v s)) ->
  (forall v s, I s -> I (put_sensitivity v s)) ->
  (forall v lo hi s,
     I s ->
     _opm_detector_min_wavelength s = Some lo ->
     _opm_detector_max_wavelength s = Some hi ->
     lo <= v <= hi ->
     I (put_wavelength v s)) ->
  (forall v s, I s -> I (put_initial_auto_zero v s)) ->
  (forall v s, I s -> I (put_invert_input_polarity v s)) ->
  (forall v s, I s -> I (put_bandwith v s)) ->
  (forall v s, I s -> I (put_autogain_gain v s)) ->
  (forall v s,
     I s -> In v (keys _gain_steps) ->
     _gain s <> "auto-gain" \/ v = "auto-gain" ->
     I (put_gain v s)) ->
  (forall v s, I s -> I (put_max_gain v s)) ->
  (forall v s, I s -> I (put_filter v s)) ->
  (forall v s, I s -> I (put_aperture v s)) ->
  forall c : call, preserves I (perform log10 c).
Proof.
  intros Hunit Hdev Hsens Hwave Hzero Hpol Hband Hlevel Hgain Hmax Hfil Hap c.
  destruct c; cbn [perform];
    try apply preserves_drop_result.
  - apply preserves_get_info, Hdev.
  - apply preserves_bind; [apply preserves_assign, Hunit | ].
    intros _. apply preserves_ret.
  - apply preserves_is_polarity_inverted; assumption.
  - apply preserves_set_polarity; assumption.
  - apply preserves_get_wavelength.
  - apply preserves_set_wavelength; assumption.
  - apply preserves_get_bandwith; assumption.
  - apply preserves_set_bandwith; assumption.
  - apply preserves_get_gain; assumption.
  - apply preserves_set_gain; assumption.
  - apply preserves_set_auto_zero; assumption.
  - apply preserves_set_auto_zero_reset; assumption.
  - apply preserves_raw_measure, Hdev.
  - apply preserves_get_measurement; assumption.
  - apply preserves_assign, Hfil.
  - apply preserves_assign, Hap.
Qed.

End Programs.

(** X12: the gain mode [auto-gain] is never left: once it is selected, no
    call of a method on the open port, whatever its arguments, the answers of
    the instrument and the exceptions raised, changes the gain mode.  In
    particular [opm_set_gain] with a fixed gain does not select that gain
    mode. *)
Theorem auto_gain_mode_is_kept (log10 : float -> float) (cs : list call)
    (self : OPM500) :
  _gain self = "auto-gain" ->
  _gain (after_calls log10 cs self) = "auto-gain".
Proof.
  apply (after_calls_keeps log10 (fun s => _gain s = "auto-gain")
           (fun _ => True)).
  - intros c _.
    apply preserves_perform; try (intros; assumption).
    intros v s Hs Hv [Hfixed | ->]; [contradiction | reflexivity].
  - clear. induction cs; constructor; auto.
Qed.

(** Auto gain is selected, then the gain [x10] is set and acknowledged, and
    the gain is read back: the gain mode is still [auto-gain]. *)
Lemma auto_gain_mode_is_kept_witness :
  _gain
    (after_calls (fun x : float => x)
       [Set_gain (Member X10); Get_gain]
       (put_gain "auto-gain"
          (connected 200 1100 ["V2 OK"; "V? OK" ++ LF ++ "V2"]))) =
  "auto-gain".
Proof.
  apply (auto_gain_mode_is_kept (fun x : float => x)
           [Set_gain (Member X10); Get_gain]
           (put_gain "auto-gain"
              (connected 200 1100 ["V2 OK"; "V? OK" ++ LF ++ "V2"]))).
  reflexivity.
Defined.

(** X13: the gain mode is always a key of the gain table: when it is one
    before a program makes its calls, it is one after them, whatever the
    instrument answers. *)
Theorem gain_mode_stays_in_table (log10 : float -> float) (cs : list call)
    (self : OPM500) :
  In (_gain self) (keys _gain_steps) ->
  In (_gain (after_calls log10 cs self)) (keys _gain_steps).
Proof.
  apply (after_calls_keeps log10
           (fun s => In (_gain s) (keys _gain_steps)) (fun _ => True)).
  - intros c _.
    apply preserves_perform; intros; assumption.
  - clear. induction cs; constructor; auto.
Qed.

(** The gain mode [x1] of a new object, after a gain query. *)
Lemma gain_mode_stays_in_table_witness :
  In (_gain (after_calls (fun x : float => x) [Get_gain]
               (connected 200 1100 ["V? OK" ++ LF ++ "V3"])))
     (keys _gain_steps).
Proof.
  apply (gain_mode_stays_in_table (fun x : float => x) [Get_gain]
           (connected 200 1100 ["V? OK" ++ LF ++ "V3"])).
  cbn. tauto.
Defined.

(** X14: once the detector range is known and holds the wavelength of the
    object, it holds it after every program of calls: the range is never
    changed, and [opm_set_wavelength] stores no wavelength outside it. *)
Theorem wavelength_stays_in_range (log10 : float -> float) (lo hi : Z)
    (cs : list call) (self : OPM500) :
  wavelength_in_range lo hi self ->
  wavelength_in_range lo hi (after_calls log10 cs self).
Proof.
  apply (after_calls_keeps log10 (wavelength_in_range lo hi) (fun _ => True)).
  - intros c _.
    apply preserves_perform; try (intros; assumption).
    intros v lo' hi' s (Hlo & Hhi & Hw) Hlo' Hhi' Hv.
    unfold wavelength_in_range. cbn.
    rewrite Hlo in Hlo'. rewrite Hhi in Hhi'.
    injection Hlo' as <-. injection Hhi' as <-. auto.
  - clear. induction cs; constructor; auto.
Qed.

(** A wavelength inside the range is accepted, one outside is not. *)
Lemma wavelength_stays_in_range_witness :
  wavelength_in_range 200 1100
    (after_calls (fun x : float => x)
       [Set_wavelength 850; Set_wavelength 1500]
       (connected 200 1100 ["KF:1,0"])).
Proof.
  apply (wavelength_stays_in_range (fun x : float => x) 200 1100
           [Set_wavelength 850; Set_wavelength 1500]
           (connected 200 1100 ["KF:1,0"])).
  unfold wavelength_in_range. cbn. repeat split; lia.
Defined.
Section Writers.

Local Open Scope opm_scope.

Variable log10 : float -> float.

Lemma same_at_refl (a : attribute) (s : OPM500) : same_at a s s.
Proof. destruct a; cbn; auto. Qed.

(** A measurement leaves the gain mode alone: the search for a gain runs in
    the mode [auto-gain] only, which the gain commands keep. *)
Lemma get_measurement_keeps_gain (s0 : OPM500) :
  preserves (same_at Gain s0) (opm_get_measurement log10).
Proof.
  intros s Hs. cbn [same_at] in *.
  destruct (String.eqb_spec (_gain s) "auto-gain") as [E | N].
  - rewrite Hs, E. symmetry.
    apply (preserves_get_measurement (fun x => _gain x = "auto-gain"));
      try (intros; assumption).
    intros v x Hx Hv [Hfixed | ->]; [contradiction | reflexivity].
  - assert (H : (fun x => _gain s0 = _gain x /\ _gain x <> "auto-gain")
                  (snd (opm_get_measurement log10 s))); [ | apply H].
    revert s Hs N.
    enough (Hp : preserves
                   (fun x => _gain s0 = _gain x /\ _gain x <> "auto-gain")
                   (opm_get_measurement log10))
      by (intros s Hs N; apply Hp; auto).
    unfold opm_get_measurement.
    apply preserves_bind;
      [apply preserves_raw_measure; intros; assumption | intros amplitude].
    apply preserves_get. intros s [Hs N].
    rewrite (eqb_false_of_neq _ _ N).
    apply kept_bind; [split; assumption | intros a].
    apply preserves_bind; [apply preserves_eval | intros b].
    apply preserves_convert_base.
Qed.

Ltac keeps_by_method :=
  cbn [perform]; try apply preserves_drop_result;
  first
    [ apply preserves_get_info
    | apply preserves_is_polarity_inverted
    | apply preserves_set_polarity
    | apply preserves_get_wavelength
    | apply preserves_set_wavelength
    | apply preserves_get_bandwith
    | apply preserves_set_bandwith
    | apply preserves_get_gain
    | apply preserves_set_gain
    | apply preserves_set_auto_zero
    | apply preserves_set_auto_zero_reset
    | apply preserves_raw_measure
    | apply preserves_get_measurement
    | apply preserves_assign
    | (apply preserves_bind;
       [apply preserves_assign | intros _; apply preserves_ret]) ];
  intros; assumption.

Lemma perform_keeps (a : attribute) (s0 : OPM500) (c : call) :
  ~ In a (assigns c) -> preserves (same_at a s0) (perform log10 c).
Proof.
  intros Hnot.
  destruct c; cbn [assigns] in Hnot; destruct a;
    try (exfalso; apply Hnot; cbn; tauto);
    try (apply preserves_drop_result, get_measurement_keeps_gain);
    keeps_by_method.
Qed.

End Writers.

(** X15: each attribute of the object is assigned only by the methods listed
    for it in [assigns]: a program that makes none of the calls that may
    assign the attribute leaves the attribute as it was, whatever the
    instrument answers.  So the unit, the filter and the aperture change only
    through their own setters, the wavelength and the correction factor only
    through [opm_set_wavelength], the auto-zero state and the highest gain
    level only through the two zeroing methods, the gain mode only through
    [opm_set_gain] and [opm_get_gain], and the detector range through no
    call at all. *)
Theorem calls_assign_only_listed_attributes (log10 : float -> float)
    (a : attribute) (cs : list call) (self : OPM500) :
  Forall (fun c : call => ~ In a (assigns c)) cs ->
  same_at a self (after_calls log10 cs self).
Proof.
  intros Hcs.
  apply (after_calls_keeps log10 (same_at a self)
           (fun c : call => ~ In a (assigns c))).
  - intros c Hc. apply perform_keeps, Hc.
  - exact Hcs.
  - apply same_at_refl.
Qed.

(** A measurement in the mode [auto-gain] that raises the gain, and a change
    of the bandwidth, leave the correction factor alone. *)
Lemma calls_assign_only_listed_attributes_witness :
  let self :=
    put_gain "auto-gain"
      (connected 200 1100 ["I1,0nA"; "V2 OK"; "I10,0nA"; "B2 OK"]) in
  same_at Sensitivity self
    (after_calls (fun x : float => x)
       [Get_measurement; Set_bandwith (Member KHZ_1)] self).
Proof.
  cbv zeta.
  apply (calls_assign_only_listed_attributes (fun x : float => x) Sensitivity
           [Get_measurement; Set_bandwith (Member KHZ_1)]).
  repeat constructor; cbn; intros H;
    repeat (destruct H as [H | H]; [discriminate H | ]); exact H.
Defined.
(* ===================================================================== *)
(** * The gain levels the search visits *)
(* ===================================================================== *)

Section Levels.

Local Open Scope opm_scope.




Lemma gain_within_table (g : Z) :
  1 <= g <= 6 ->
  exists name code : string,
    getitem gain_of_code ("V" ++ str_of_int g) = Ok name /\
    In (name, code) _gain_steps /\
    name <> "auto-gain" /\
    int_of_str (slice_from 1 code) = Ok g.
Proof.
  intros Hg.
  assert (Hcases : g = 1 \/ g = 2 \/ g = 3 \/ g = 4 \/ g = 5 \/ g = 6) by lia.
  destruct Hcases as [-> | [-> | [-> | [-> | [-> | ->]]]]];
    [exists "x1", "V1" | exists "x10", "V2" | exists "x100", "V3"
     | exists "x1000", "V4" | exists "x10000", "V5" | exists "x100000", "V6"];
    (split; [reflexivity | split; [cbn; tauto | split; [discriminate | reflexivity]]]).
Qed.

Lemma level_beyond_table (g : Z) (amplitude : float) :
  ~ 1 <= g <= 6 -> full_scale_level (Some g) amplitude = 0%float.
Proof.
  intros Hg. unfold full_scale_level.
  destruct g as [|p|p]; try reflexivity.
  destruct p as [[[p|p|]|[p|p|]|]|[[p|p|]|[p|p|]|]|]; try reflexivity; lia.
Qed.

Lemma put_device_same (s : OPM500) : put_device (_device s) s = s.
Proof. destruct s; reflexivity. Qed.

Lemma put_level_same (s : OPM500) (g : Z) :
  _autogain_gain s = Some g -> put_autogain_gain (Some g) s = s.
Proof. destruct s; cbn; intros ->; reflexivity. Qed.

Lemma sound_raise {A B : Type} (e : exn) :
  sound (@Raise A e) -> sound (@Raise B e).
Proof.
  intros [H1 H2]. split; intros E; injection E as ->;
    [apply H1 | apply H2]; reflexivity.
Qed.

Lemma float_of_str_sound (s : string) : sound (float_of_str s).
Proof.
  unfold float_of_str. destruct (split_sign _) as [neg body].
  destruct (_ || _)%bool; [split; discriminate | ].
  destruct (String.eqb _ "nan"); [split; discriminate | ].
  destruct (digitpart body) as [ip r1].
  destruct (match r1 with EmptyString => _ | String _ _ => _ end) as [fp r2].
  destruct (ip ++ fp)%string; [split; discriminate | ].
  destruct r2 as [|c r3]; [split; discriminate | ].
  destruct (_ || _)%bool; [ | split; discriminate].
  destruct (split_sign r3) as [eneg r4].
  destruct (digitpart r4) as [[|x ep] [|y r5]]; split; discriminate.
Qed.

Lemma raw_measure_shape (s : OPM500) :
  exists (r : result string) (dev : option ftd2xx),
    opm_get_single_raw_measure s = (r, put_device dev s) /\ sound r.
Proof.
  unfold opm_get_single_raw_measure.
  destruct (_device s) as [d|] eqn:Hd.
  - destruct (rx d) as [|msg rest] eqn:Hrx.
    + rewrite (exchange_silent _ _ _ _ Hd Hrx).
      eexists _, _. split; [reflexivity | split; discriminate].
    + rewrite (exchange _ _ Hd _ _ _ _ Hrx).
      eexists _, _. split; [reflexivity | split; discriminate].
  - rewrite (exchange_closed _ _ _ Hd).
    exists (Raise (Exception "Send error: port not open.")), (_device s).
    rewrite put_device_same. split; [reflexivity | split; discriminate].
Qed.

Lemma tracked_gain_shape (s : OPM500) (g : Z) :
  _gain s = "auto-gain" ->
  _autogain_gain s = Some g ->
  1 <= g <= 6 ->
  exists (r : result bool) (dev : option ftd2xx),
    apply_tracked_gain s = (r, put_device dev s) /\ sound r.
Proof.
  intros Hauto Hlevel Hg.
  destruct (gain_within_table g Hg) as (name & code & Hname & Hin & Hfixed & Hint).
  unfold apply_tracked_gain. rewrite bind_get_self, Hlevel, bind_eval, Hname.
  destruct (gain_steps_entry _ _ Hin) as [Hkey Hget].
  destruct (_device s) as [d|] eqn:Hd.
  - destruct (rx d) as [|msg rest] eqn:Hrx.
    + unfold opm_set_gain. cbn [gain_name].
      rewrite Hkey, (eqb_false_of_neq _ _ Hfixed). cbn [negb].
      rewrite bind_eval, Hget, (exchange_silent _ _ _ _ Hd Hrx).
      eexists _, _. split; [reflexivity | split; discriminate].
    + rewrite (set_gain_run _ _ _ _ Hd Hrx (Str name) code Hin Hfixed).
      rewrite Hint, Hauto, String.eqb_refl.
      destruct (String.eqb (received msg) (code ++ " OK")).
      * exists (Ok true), (Some {| tx := tx d ++ [code]; rx := rest |}).
        split; [ | split; discriminate].
        f_equal. apply put_level_same. exact Hlevel.
      * eexists _, _. split; [reflexivity | split; discriminate].
  - unfold opm_set_gain. cbn [gain_name].
    rewrite Hkey, (eqb_false_of_neq _ _ Hfixed). cbn [negb].
    rewrite bind_eval, Hget, (exchange_closed _ _ _ Hd).
    exists (Raise (Exception "Send error: port not open.")), (_device s).
    rewrite put_device_same. split; [reflexivity | split; discriminate].
Qed.

Lemma bind_run_ok {A B : Type} (m : M A) (k : A -> M B) (s s' : OPM500)
    (a : A) :
  m s = (Ok a, s') -> (x <- m ;; k x) s = k a s'.
Proof. intros H. unfold bind. rewrite H. reflexivity. Qed.

Lemma bind_run_raise {A B : Type} (m : M A) (k : A -> M B) (s s' : OPM500)
    (e : exn) :
  m s = (Raise e, s') -> (x <- m ;; k x) s = (Raise e, s').
Proof. intros H. unfold bind. rewrite H. reflexivity. Qed.

(** One adjustment: the level [g'] is tracked, its gain is set, a reading is
    taken and the search goes on. *)
Lemma adjustment_shape (self_call : string -> Z -> Z -> M string)
    (s : OPM500) (g' r l : Z) :
  _gain s = "auto-gain" ->
  1 <= g' <= 6 ->
  (forall (a : string) (dev : option ftd2xx),
     exists (res : result string) (g'' : Z) (dev' : option ftd2xx),
       self_call a r l (put_autogain_gain (Some g') (put_device dev s)) =
       (res, put_autogain_gain (Some g'') (put_device dev' s)) /\
       1 <= g'' <= 6 /\ sound res) ->
  exists (res : result string) (g'' : Z) (dev' : option ftd2xx),
    (assign (put_autogain_gain (Some g')) ;;
     _ <- apply_tracked_gain ;;
     measure <- opm_get_single_raw_measure ;;
     self_call measure r l) s =
    (res, put_autogain_gain (Some g'') (put_device dev' s)) /\
    1 <= g'' <= 6 /\ sound res.
Proof.
  intros Hauto Hg Hcall. rewrite bind_assign.
  destruct (tracked_gain_shape (put_autogain_gain (Some g') s) g'
              Hauto eq_refl Hg) as (r1 & dev1 & Hrun1 & Hsound1).
  destruct r1 as [ok|e].
  - rewrite (bind_run_ok _ _ _ _ _ Hrun1).
    destruct (raw_measure_shape
                (put_device dev1 (put_autogain_gain (Some g') s)))
      as (r2 & dev2 & Hrun2 & Hsound2).
    destruct r2 as [m|e].
    + rewrite (bind_run_ok _ _ _ _ _ Hrun2).
      apply (Hcall m dev2).
    + rewrite (bind_run_raise _ _ _ _ _ Hrun2).
      exists (Raise e), g', dev2.
      split; [reflexivity | split; [lia | exact Hsound2]].
  - rewrite (bind_run_raise _ _ _ _ _ Hrun1).
    exists (Raise e), g', dev1.
    split; [reflexivity | split; [lia | exact (sound_raise e Hsound1)]].
Qed.

Lemma autogain_fuel_levels (fuel : nat) :
  forall (a : string) (r l : Z) (s : OPM500) (g : Z),
    _gain s = "auto-gain" ->
    _autogain_gain s = Some g ->
    1 <= g <= 6 ->
    _max_gain s <= 6 ->
    exists (res : result string) (g' : Z) (dev : option ftd2xx),
      _opm_autogain_fuel fuel a r l s =
      (res, put_autogain_gain (Some g') (put_device dev s)) /\
      1 <= g' <= 6 /\ sound res.
Proof.
  induction fuel as [|fuel IH]; intros a r l s g Hauto Hlevel Hg Hmax.
  - exists (Raise RecursionError), g, (_device s).
    rewrite put_device_same, (put_level_same _ _ Hlevel).
    repeat split; try discriminate; lia.
  - assert (Hstay : forall res : result string,
               sound res ->
               exists (res' : result string) (g' : Z) (dev : option ftd2xx),
                 (res, s) =
                 (res', put_autogain_gain (Some g') (put_device dev s)) /\
                 1 <= g' <= 6 /\ sound res').
    { intros res Hres. exists res, g, (_device s).
      rewrite put_device_same, (put_level_same _ _ Hlevel). auto. }
    assert (Hnext : forall (g' r' l' : Z),
               1 <= g' <= 6 ->
               forall (a' : string) (dev : option ftd2xx),
               exists (res : result string) (g'' : Z) (dev' : option ftd2xx),
                 _opm_autogain_fuel fuel a' r' l'
                   (put_autogain_gain (Some g') (put_device dev s)) =
                 (res, put_autogain_gain (Some g'') (put_device dev' s)) /\
                 1 <= g'' <= 6 /\ sound res).
    { intros g' r' l' Hg' a' dev.
      exact (IH a' r' l' (put_autogain_gain (Some g') (put_device dev s)) g'
               Hauto eq_refl Hg' Hmax). }
    cbn [_opm_autogain_fuel]. unfold autogain_body.
    destruct (len_gain_steps <=? r);
      [apply Hstay; split; discriminate | ].
    rewrite bind_get_self, Hlevel, bind_ret, bind_eval.
    match goal with
    | |- context [float_of_str ?t] =>
        pose proof (float_of_str_sound t) as Hparse;
        destruct (float_of_str t) as [amplitude|e];
        [ | apply Hstay; exact (sound_raise e Hparse)]
    end.
    rewrite bind_get_self, Hlevel. cbv zeta.
    rewrite bind_eval. cbn [int_gt].
    destruct (90 <? full_scale_level (Some g) amplitude)%float.
    + destruct (1 <? g) eqn:Hhigh.
      * rewrite bind_eval. cbn [int_add]. apply Z.ltb_lt in Hhigh.
        apply (adjustment_shape _ s (g + -1) (r + 1) 1 Hauto); [lia | ].
        apply Hnext. lia.
      * rewrite bind_eval. cbn [int_lt].
        destruct (full_scale_level (Some g) amplitude <? 8)%float;
          [ | apply Hstay; split; discriminate].
        destruct (g <? _max_gain s) eqn:Hlow;
          [ | apply Hstay; split; discriminate].
        rewrite bind_eval. cbn [int_add]. apply Z.ltb_lt in Hlow.
        apply (adjustment_shape _ s (g + 1) _ 2 Hauto); [lia | ].
        apply Hnext. lia.
    + rewrite bind_eval. cbn [int_lt].
      destruct (full_scale_level (Some g) amplitude <? 8)%float;
        [ | apply Hstay; split; discriminate].
      destruct (g <? _max_gain s) eqn:Hlow;
        [ | apply Hstay; split; discriminate].
      rewrite bind_eval. cbn [int_add]. apply Z.ltb_lt in Hlow.
      apply (adjustment_shape _ s (g + 1) _ 2 Hauto); [lia | ].
      apply Hnext. lia.
Qed.

End Levels.
(** X16: in the mode [auto-gain], with a tracked gain level between 1 and 6
    and a highest gain level of 6 at most, [_opm_autogain] changes nothing in
    the object but the handle and the tracked level, leaves a tracked level
    between 1 and 6, and raises neither [KeyError] nor [TypeError], whatever
    the instrument answers and even when it stays silent. *)
Theorem autogain_keeps_level_in_table (a : string) (r l : Z)
    (self : OPM500) (g : Z) :
  _gain self = "auto-gain" ->
  _autogain_gain self = Some g ->
  1 <= g <= 6 ->
  _max_gain self <= 6 ->
  exists (res : result string) (g' : Z) (dev : option ftd2xx),
    _opm_autogain a r l self =
    (res, put_autogain_gain (Some g') (put_device dev self)) /\
    1 <= g' <= 6 /\
    res <> Raise KeyError /\ res <> Raise TypeError.
Proof.
  intros Hauto Hlevel Hg Hmax. unfold _opm_autogain.
  apply (autogain_fuel_levels recursion_limit a r l self g Hauto Hlevel Hg Hmax).
Qed.

(** A reading at the top of the first level, answered by silence. *)
Lemma autogain_keeps_level_in_table_witness :
  exists (res : result string) (g' : Z) (dev : option ftd2xx),
    _opm_autogain "0,5nA" 0 0 (put_gain "auto-gain" (connected 200 1100 [])) =
    (res,
     put_autogain_gain (Some g')
       (put_device dev (put_gain "auto-gain" (connected 200 1100 [])))) /\
    1 <= g' <= 6 /\
    res <> Raise KeyError /\ res <> Raise TypeError.
Proof.
  apply (autogain_keeps_level_in_table "0,5nA" 0 0
           (put_gain "auto-gain" (connected 200 1100 [])) 1 eq_refl eq_refl);
    [lia | change (6 <= 6); lia].
Defined.

Section BeyondTable.

Local Open Scope opm_scope.


End BeyondTable.


(* ===================================================================== *)
(** * Measurements *)
(* ===================================================================== *)

Section Factor.

Local Open Scope opm_scope.

Variable k : float.

Let f : OPM500 -> OPM500 := put_sensitivity k.

Lemma commutes_ret {A : Type} (a : A) : commutes f (ret a).
Proof. intros s. reflexivity. Qed.

Lemma commutes_raise {A : Type} (e : exn) : commutes f (@raise A e).
Proof. intros s. reflexivity. Qed.

Lemma commutes_eval {A : Type} (r : result A) : commutes f (eval r).
Proof. intros s. reflexivity. Qed.

Lemma commutes_bind {A B : Type} (m : M A) (n : A -> M B) :
  commutes f m -> (forall a : A, commutes f (n a)) ->
  commutes f (x <- m ;; n x).
Proof.
  intros Hm Hn s. unfold bind. rewrite Hm.
  destruct (m s) as [[a|e] s']; cbn [fst snd]; [apply Hn | reflexivity].
Qed.

Lemma commuted_bind {A B : Type} (m : M A) (n : A -> M B) (s : OPM500) :
  m (f s) = (fst (m s), f (snd (m s))) ->
  (forall a : A, commutes f (n a)) ->
  (x <- m ;; n x) (f s) =
  (fst ((x <- m ;; n x) s), f (snd ((x <- m ;; n x) s))).
Proof.
  intros Hm Hn. unfold bind. rewrite Hm.
  destruct (m s) as [[a|e] s']; cbn [fst snd]; [apply Hn | reflexivity].
Qed.

Lemma commutes_get {B : Type} (n : OPM500 -> M B) :
  (forall s : OPM500, n (f s) (f s) = (fst (n s s), f (snd (n s s)))) ->
  commutes f (s <- get_self ;; n s).
Proof. intros Hn s. rewrite !bind_get_self. apply Hn. Qed.

Lemma commutes_assign (g : OPM500 -> OPM500) :
  (forall s : OPM500, g (f s) = f (g s)) -> commutes f (assign g).
Proof. intros Hg s. unfold assign. cbn. now rewrite Hg. Qed.

Lemma commutes_if {A : Type} (b : bool) (m1 m2 : M A) :
  commutes f m1 -> commutes f m2 -> commutes f (if b then m1 else m2).
Proof. destruct b; auto. Qed.

Lemma commutes_send (msg : string) : commutes f (_opm_send msg).
Proof.
  intros s. unfold _opm_send, f. cbn [_device put_sensitivity].
  destruct (_device s); reflexivity.
Qed.

Lemma commutes_recv : commutes f _opm_recv.
Proof.
  intros s. unfold _opm_recv, f. cbn [_device put_sensitivity].
  destruct (_device s) as [d|]; [ | reflexivity].
  destruct (rx d); reflexivity.
Qed.

Lemma commutes_raw_measure : commutes f opm_get_single_raw_measure.
Proof.
  apply commutes_bind; [apply commutes_send | intros _].
  apply commutes_bind; [apply commutes_recv | intros r; apply commutes_ret].
Qed.

Lemma commutes_set_gain (gain : str_or GAIN) : commutes f (opm_set_gain gain).
Proof.
  unfold opm_set_gain. cbv zeta.
  apply commutes_if; [apply commutes_raise | ].
  apply commutes_if.
  { apply commutes_bind; [ | intros _; apply commutes_ret].
    apply commutes_assign. reflexivity. }
  apply commutes_bind; [apply commutes_eval | intros code].
  apply commutes_bind; [apply commutes_send | intros _].
  apply commutes_bind; [apply commutes_recv | intros r].
  apply commutes_bind; [apply commutes_eval | intros code'].
  apply commutes_if; [ | apply commutes_ret].
  apply commutes_get. intros s.
  change (_gain (f s)) with (_gain s).
  apply commuted_bind.
  { destruct (negb _); reflexivity. }
  intros _.
  apply commutes_bind; [apply commutes_eval | intros code''].
  apply commutes_bind; [apply commutes_eval | intros level].
  apply commutes_bind; [ | intros _; apply commutes_ret].
  apply commutes_assign. reflexivity.
Qed.

Lemma commutes_get_gain : commutes f opm_get_gain.
Proof.
  unfold opm_get_gain.
  apply commutes_bind; [apply commutes_send | intros _].
  apply commutes_bind; [apply commutes_recv | intros r]. cbv zeta.
  apply commutes_bind; [apply commutes_eval | intros first].
  apply commutes_if; [ | apply commutes_ret].
  apply commutes_bind; [apply commutes_eval | intros second].
  apply commutes_if; [ | apply commutes_ret].
  apply commutes_get. intros s.
  change (_gain (f s)) with (_gain s).
  apply commuted_bind.
  { destruct (negb _); [ | reflexivity].
    rewrite !bind_eval. destruct (getitem _ _); reflexivity. }
  intros _.
  apply commutes_bind; [apply commutes_eval | intros name].
  apply commutes_bind; [apply commutes_eval | intros code].
  apply commutes_bind; [apply commutes_eval | intros level].
  apply commutes_bind; [apply commutes_assign; reflexivity | intros _].
  apply commutes_bind; [apply commutes_eval | intros name'].
  apply commutes_ret.
Qed.

Lemma commutes_apply_tracked_gain : commutes f apply_tracked_gain.
Proof.
  unfold apply_tracked_gain. apply commutes_get. intros s.
  change (_autogain_gain (f s)) with (_autogain_gain s). cbv zeta.
  apply commuted_bind; [reflexivity | intros name].
  apply commutes_set_gain.
Qed.

Lemma commutes_autogain_body (self_call : string -> Z -> Z -> M string) :
  (forall (a : string) (r l : Z), commutes f (self_call a r l)) ->
  forall (a : string) (r l : Z), commutes f (autogain_body self_call a r l).
Proof.
  intros Hcall a r l. unfold autogain_body.
  apply commutes_if; [apply commutes_ret | ].
  apply commutes_get. intros s.
  change (_autogain_gain (f s)) with (_autogain_gain s).
  apply commuted_bind.
  { destruct (_autogain_gain s); [reflexivity | ].
    apply (commutes_bind _ _ commutes_get_gain).
    intros x. apply commutes_ret. }
  intros _.
  apply commutes_bind; [apply commutes_eval | intros amplitude].
  apply commutes_get. intros s1.
  change (_autogain_gain (f s1)) with (_autogain_gain s1).
  change (_max_gain (f s1)) with (_max_gain s1). cbv zeta.
  apply commuted_bind; [reflexivity | intros too_high].
  destruct too_high.
  - apply commutes_bind; [apply commutes_eval | intros lower].
    apply commutes_bind; [apply commutes_assign; reflexivity | intros _].
    apply commutes_bind; [apply commutes_apply_tracked_gain | intros _].
    apply commutes_bind; [apply commutes_raw_measure | intros m].
    apply Hcall.
  - apply commutes_bind; [apply commutes_eval | intros too_low].
    destruct too_low; [ | apply commutes_ret].
    apply commutes_bind; [apply commutes_eval | intros higher].
    apply commutes_bind; [apply commutes_assign; reflexivity | intros _].
    apply commutes_bind; [apply commutes_apply_tracked_gain | intros _].
    apply commutes_bind; [apply commutes_raw_measure | intros m].
    apply Hcall.
Qed.

Lemma commutes_autogain_fuel (fuel : nat) (a : string) (r l : Z) :
  commutes f (_opm_autogain_fuel fuel a r l).
Proof.
  revert a r l. induction fuel as [|fuel IH]; intros a r l.
  - apply commutes_raise.
  - apply (commutes_autogain_body _ IH).
Qed.

(** The part of [opm_get_measurement] that talks to the instrument. *)
Lemma commutes_reading :
  commutes f
    (amplitude <- opm_get_single_raw_measure ;;
     self <- get_self ;;
     amplitude <-
       (if String.eqb (_gain self) "auto-gain"
        then _opm_autogain amplitude 0 0
        else ret amplitude) ;;
     eval (reading_base amplitude)).
Proof.
  apply commutes_bind; [apply commutes_raw_measure | intros amplitude].
  apply commutes_get. intros s.
  change (_gain (f s)) with (_gain s).
  apply commuted_bind.
  - destruct (String.eqb _ _); [ | reflexivity].
    apply commutes_autogain_fuel.
  - intros a. apply commutes_eval.
Qed.

Lemma convert_base_without_factor (log10 : float -> float)
    (amplitude : float) (s : OPM500) :
  current_unit s ->
  fst (convert_base log10 amplitude (f s)) =
  fst (convert_base log10 amplitude s).
Proof.
  unfold current_unit. intros Hunit. unfold convert_base.
  rewrite !bind_get_self.
  change (_unit (f s)) with (_unit s).
  change (_filter (f s)) with (_filter s).
  change (_aperture (f s)) with (_aperture s).
  rewrite Hunit. cbn [negb].
  rewrite !bind_eval. destruct (truediv _ _) as [q|e]; [ | reflexivity].
  unfold bind, ret, eval.
  repeat match goal with
  | |- context [if ?b then _ else _] => destruct b
  | |- context [match ?r with Ok _ => _ | Raise _ => _ end] => destruct r
  end; reflexivity.
Qed.

End Factor.


Section Reading.

Local Open Scope opm_scope.

Variable log10 : float -> float.

(** [opm_get_measurement] is a reading followed by its conversion. *)
Lemma measurement_split (s : OPM500) :
  opm_get_measurement log10 s =
  (base <-
     (amplitude <- opm_get_single_raw_measure ;;
      self <- get_self ;;
      amplitude <-
        (if String.eqb (_gain self) "auto-gain"
         then _opm_autogain amplitude 0 0
         else ret amplitude) ;;
      eval (reading_base amplitude)) ;;
   convert_base log10 base) s.
Proof.
  symmetry. rewrite bind_bind. unfold opm_get_measurement.
  apply bind_ext. intros a s1.
  rewrite bind_bind, !bind_get_self, bind_bind. reflexivity.
Qed.

Lemma preserves_reading (I : OPM500 -> Prop) :
  (forall v s, I s -> I (put_device v s)) ->
  (forall v s, I s -> I (put_autogain_gain v s)) ->
  (forall v s,
     I s -> In v (keys _gain_steps) ->
     _gain s <> "auto-gain" \/ v = "auto-gain" ->
     I (put_gain v s)) ->
  preserves I
    (amplitude <- opm_get_single_raw_measure ;;
     self <- get_self ;;
     amplitude <-
       (if String.eqb (_gain self) "auto-gain"
        then _opm_autogain amplitude 0 0
        else ret amplitude) ;;
     eval (reading_base amplitude)).
Proof.
  intros Hdev Hlevel Hgain.
  apply preserves_bind; [apply preserves_raw_measure, Hdev | intros amplitude].
  apply preserves_get. intros s Hs.
  apply kept_bind.
  - destruct (String.eqb _ _); [ | exact Hs].
    unfold _opm_autogain. apply preserves_autogain_fuel; assumption.
  - intros a. apply preserves_eval.
Qed.

End Reading.

Lemma fst_bind_commutes {A B : Type} (f : OPM500 -> OPM500) (m : M A)
    (n : A -> M B) (I : OPM500 -> Prop) (s : OPM500) :
  commutes f m ->
  I (snd (m s)) ->
  (forall (a : A) (s' : OPM500), I s' -> fst (n a (f s')) = fst (n a s')) ->
  fst ((x <- m ;; n x)%opm (f s)) = fst ((x <- m ;; n x)%opm s).
Proof.
  intros Hm HI Hn. unfold bind. rewrite Hm.
  destruct (m s) as [[a|e] s']; cbn [fst snd] in *;
    [apply Hn, HI | reflexivity].
Qed.

(** X18: in the units of a current the correction factor plays no part: a
    measurement returns the same result, or raises the same exception,
    whatever correction factor the object holds, in a fixed gain mode and in
    the mode [auto-gain] alike. *)
Theorem current_units_ignore_correction_factor (log10 : float -> float)
    (k : float) (self : OPM500) :
  current_unit self ->
  fst (opm_get_measurement log10 (put_sensitivity k self)) =
  fst (opm_get_measurement log10 self).
Proof.
  intros Hunit. rewrite !measurement_split.
  apply (fst_bind_commutes (put_sensitivity k) _ _ current_unit).
  - apply commutes_reading.
  - apply (preserves_reading current_unit); auto.
  - intros base s' Hs'. apply convert_base_without_factor, Hs'.
Qed.

(** A reading of 2,5 nA shown in microampere with a correction factor of
    0.5 reads as with the factor 1.0. *)
Lemma current_units_ignore_correction_factor_witness :
  fst (opm_get_measurement (fun x : float => x)
         (put_sensitivity 0.5 (connected 200 1100 ["I2,5nA"]))) =
  fst (opm_get_measurement (fun x : float => x)
         (connected 200 1100 ["I2,5nA"])).
Proof.
  apply (current_units_ignore_correction_factor (fun x : float => x) 0.5
           (connected 200 1100 ["I2,5nA"])).
  reflexivity.
Defined.

Section FixedGain.

Local Open Scope opm_scope.

Variable log10 : float -> float.




End FixedGain.






